(** * cryptodatapy: the CryptoCompare client and its request descriptor

    A shallow embedding of [cryptocompare.py] (parameter translation,
    response wrangling, the paginated fetch loops, the data-kind router and
    the catalogue getters run by the constructor) and of the property setters
    of [datarequest.py], followed by the properties proved about them.

    Conventions of the embedding:
    - a Python call either returns or raises: [outcome];
    - the vendor is a script of replies per endpoint, consumed one per
      [requests.get]; a run that asks for more replies than the script holds
      is undetermined ([None]);
    - every [requests.get], [sleep] and [logging.warning] is appended to a log;
    - [sort_index] on the dates of a page set is a parameter, any sort by
      date: pandas promises no order among rows of equal date;
    - instants are integers: epoch seconds for the vendor's [time] field and
      the translated parameters, nanoseconds for pandas timestamps;
    - a float cell is a rational or NaN: the code only tests cells against
      zero and NaN. *)

From Stdlib Require Import ZArith QArith List String Ascii Bool Lia.
From Stdlib Require Import Sorting.Sorted Sorting.Permutation.
Import ListNotations.

Local Open Scope string_scope.
Local Open Scope list_scope.
Local Open Scope Z_scope.

(** ** Strings *)

(** [str.upper()] on ASCII text. *)
Definition upper_ascii (c : ascii) : ascii :=
  let n := nat_of_ascii c in
  if ((97 <=? n) && (n <=? 122))%nat then ascii_of_nat (n - 32) else c.

Fixpoint upper (s : string) : string :=
  match s with
  | EmptyString => EmptyString
  | String c s' => String (upper_ascii c) (upper s')
  end.

(** The slice [s[-n:]]: the last [n] characters, or all of [s] when shorter. *)
Definition last_chars (n : nat) (s : string) : string :=
  substring (String.length s - n) n s.

Definition in_strs (s : string) (l : list string) : bool :=
  existsb (String.eqb s) l.

(** ** Cells *)

Inductive num : Type :=
| Num (q : Q)
| NaN.

(** [x == 0] on a float cell; NaN equals nothing. *)
Definition is_zero (x : num) : bool :=
  match x with
  | Num q => Qnum q =? 0
  | NaN => false
  end.

(** [x.astype(str) == 'nan'], and the test behind [dropna]. *)
Definition is_nan (x : num) : bool :=
  match x with
  | Num _ => false
  | NaN => true
  end.

(** ** Python exceptions and outcomes *)

Inductive exn : Type :=
| AssertionError
| KeyError (key : string)
| TypeError
| ValueError (msg : string)
| AttributeError
| NameError (name : string)
| ConnectionError
| Exception (msg : string).

Inductive outcome (A : Type) : Type :=
| Ok (a : A)
| Raise (e : exn).
Arguments Ok {A} a.
Arguments Raise {A} e.

(** ** The request descriptor, as the client consumes it *)

(** The thirteen tokens the [freq] setter accepts. *)
Inductive frequency : Type :=
| Tick | Min1 | Min5 | Min10 | Min20 | Min30
| Hour1 | Hour2 | Hour4 | Hour8 | Day | Week | Month.

Definition token (f : frequency) : string :=
  match f with
  | Tick => "tick" | Min1 => "1min" | Min5 => "5min" | Min10 => "10min"
  | Min20 => "20min" | Min30 => "30min"
  | Hour1 => "1h" | Hour2 => "2h" | Hour4 => "4h" | Hour8 => "8h"
  | Day => "d" | Week => "w" | Month => "m"
  end.

(** What the date setters store: a 'YYYY-MM-DD' string, a [datetime] or a
    [pd.Timestamp]; the last two carry their instant in nanoseconds. *)
Inductive datelike : Type :=
| DateStr (s : string)
| Datetime (ns : Z)
| Timestamp (ns : Z).

Record DataRequest : Type := {
  tickers : list string;
  freq : frequency;
  quote_ccy : option string;
  exch : option string;
  start_date : option datelike;
  end_date : option datelike;
  fields : list string;
  trials : option Z;
  pause : option Q
}.

(** The dict [cc_data_req] built by [convert_data_req_params]. *)
Record cc_data_req : Type := {
  cc_tickers : list string;
  cc_frequency : string;
  cc_currency : string;
  cc_exchange : string;
  cc_start_date : Z;
  cc_end_date : Z;
  cc_fields : list string;
  cc_trials : option Z;
  cc_pause : option Q
}.

(** Seven days, in seconds: [timedelta(days=7)]. *)
Definition seven_days : Z := 7 * 86400.

(** ** Raw vendor rows and pandas frames *)

(** One row of [r.json()['Data']['Data']] of the price-bar endpoint. *)
Record bar : Type := {
  time : Z;
  open : num;
  high : num;
  low : num;
  close : num;
  volumefrom : num
}.

(** One row of the on-chain endpoint: housekeeping columns and metrics. *)
Record chain_row : Type := {
  id : Z;
  symbol : string;
  chain_time : Z;
  metrics : list (string * num)
}.

(** An index label: the date (nanoseconds) and, on a two-level index, the
    ticker. *)
Definition key : Type := (Z * option string)%type.

Record frame : Type := {
  columns : list string;
  rows : list (key * list num)
}.

(** [pd.DataFrame()] *)
Definition DataFrame : frame := {| columns := []; rows := [] |}.

(** [df.empty]: some axis has length zero. *)
Definition empty (df : frame) : bool :=
  match columns df, rows df with
  | [], _ => true
  | _, [] => true
  | _, _ => false
  end.

Definition index (df : frame) : list key := map fst (rows df).
Definition dates (df : frame) : list Z := map fst (index df).

(** [pd.to_datetime(t, unit='s')], in nanoseconds. *)
Definition to_datetime_s (t : Z) : Z := t * 1000000000.

(** An insertion sort: ascending, rows that [leb] ranks alike in the order
    they had. *)
Section Sort.
Context {A : Type} (leb : A -> A -> bool).

Fixpoint insert_sorted (x : A) (l : list A) : list A :=
  match l with
  | [] => [x]
  | y :: l' => if leb x y then x :: l else y :: insert_sorted x l'
  end.

Fixpoint sort_by (l : list A) : list A :=
  match l with
  | [] => []
  | x :: l' => insert_sorted x (sort_by l')
  end.
End Sort.

Definition option_leb (a b : option string) : bool :=
  match a, b with
  | None, _ => true
  | Some _, None => false
  | Some x, Some y => String.leb x y
  end.

Definition option_eqb (a b : option string) : bool :=
  match a, b with
  | None, None => true
  | Some x, Some y => String.eqb x y
  | _, _ => false
  end.

Definition key_eqb (a b : key) : bool :=
  (fst a =? fst b) && option_eqb (snd a) (snd b).

(** Lexicographic order of a (date, ticker) label. *)
Definition key_leb (a b : key) : bool :=
  (fst a <? fst b) || ((fst a =? fst b) && option_leb (snd a) (snd b)).

(** [sort_index] on the (date, ticker) labels of a frame. *)
Definition sort_index (df : frame) : frame :=
  {| columns := columns df;
     rows := sort_by (fun r s => key_leb (fst r) (fst s)) (rows df) |}.

(** [df[~df.index.duplicated()]]: a row is kept unless an earlier row
    carries the same label. *)
Fixpoint keep_first {A : Type} (label : A -> key) (seen : list key) (l : list A)
  : list A :=
  match l with
  | [] => []
  | r :: l' =>
      if existsb (key_eqb (label r)) seen
      then keep_first label seen l'
      else r :: keep_first label (label r :: seen) l'
  end.

Definition drop_duplicated (df : frame) : frame :=
  {| columns := columns df; rows := keep_first fst [] (rows df) |}.

(** Position of a column label, and the cell of a row under it. *)
Fixpoint position (c : string) (cols : list string) : option nat :=
  match cols with
  | [] => None
  | c' :: cols' =>
      if String.eqb c c' then Some O
      else option_map S (position c cols')
  end.

Definition cell (cols : list string) (c : string) (r : list num) : num :=
  match position c cols with
  | Some i => nth i r NaN
  | None => NaN
  end.

Definition filter_rows (p : key * list num -> bool) (df : frame) : frame :=
  {| columns := columns df; rows := filter p (rows df) |}.

(** [df.dropna()]: rows with a NaN in any column go. *)
Definition dropna (df : frame) : frame :=
  filter_rows (fun r => negb (existsb is_nan (snd r))) df.

(** [pd.concat([df1, df2])]: rows of both, over the union of the columns,
    cells absent from a frame filled with NaN. *)
Definition union_columns (c1 c2 : list string) : list string :=
  c1 ++ filter (fun c => negb (in_strs c c1)) c2.

Definition realign (from to : list string) (r : key * list num)
  : key * list num :=
  (fst r, map (fun c => cell from c (snd r)) to).

Definition concat (df1 df2 : frame) : frame :=
  let cols := union_columns (columns df1) (columns df2) in
  {| columns := cols;
     rows := map (realign (columns df1) cols) (rows df1)
             ++ map (realign (columns df2) cols) (rows df2) |}.

(** [pd.concat([df1, df2], axis=1)]: the columns of both side by side over
    the union of the two indexes (outer join); labels are taken as unique
    within each frame. *)
Fixpoint lookup_row (k : key) (l : list (key * list num)) : option (list num) :=
  match l with
  | [] => None
  | r :: l' => if key_eqb k (fst r) then Some (snd r) else lookup_row k l'
  end.

Definition nans (cols : list string) : list num := map (fun _ => NaN) cols.

Definition row_or_nans (df : frame) (k : key) : list num :=
  match lookup_row k (rows df) with
  | Some r => r
  | None => nans (columns df)
  end.

Definition union_index (i1 i2 : list key) : list key :=
  i1 ++ filter (fun k => negb (existsb (key_eqb k) i1)) i2.

Definition concat_axis1 (df1 df2 : frame) : frame :=
  {| columns := columns df1 ++ columns df2;
     rows := map (fun k => (k, row_or_nans df1 k ++ row_or_nans df2 k))
                 (union_index (index df1) (index df2)) |}.

(** [df.loc[:, labels]]: every label must be a column, else [KeyError];
    a label selects each column that carries it. *)
Fixpoint positions_from (i : nat) (c : string) (cols : list string) : list nat :=
  match cols with
  | [] => []
  | c' :: cols' =>
      if String.eqb c c' then i :: positions_from (S i) c cols'
      else positions_from (S i) c cols'
  end.

Definition select_positions (labels cols : list string) : list (string * nat) :=
  flat_map (fun c => map (fun i => (c, i)) (positions_from O c cols)) labels.

Definition loc_columns (df : frame) (labels : list string) : outcome frame :=
  match find (fun c => negb (in_strs c (columns df))) labels with
  | Some missing => Raise (KeyError missing)
  | None =>
      let sel := select_positions labels (columns df) in
      Ok {| columns := map fst sel;
            rows := map (fun r => (fst r, map (fun ci => nth (snd ci) (snd r) NaN) sel))
                        (rows df) |}
  end.

(** Metric columns of an on-chain page, in order of first appearance, and
    the metric cells of a row under them. *)
Definition metric_columns (page : list chain_row) : list string :=
  fold_left (fun cols r => union_columns cols (map fst (metrics r))) page [].

Fixpoint assoc {A : Type} (k : string) (l : list (string * A)) : option A :=
  match l with
  | [] => None
  | (k', v) :: l' => if String.eqb k k' then Some v else assoc k l'
  end.

Definition metric_cells (cols : list string) (r : chain_row) : list num :=
  map (fun c => match assoc c (metrics r) with Some x => x | None => NaN end) cols.

(** A cell of the series [data.iloc[0]] of an on-chain page. *)
Inductive pycell : Type :=
| CInt (z : Z)
| CStr (s : string)
| CNum (x : num).

Definition first_row_series (page : list chain_row) (r : chain_row) : list pycell :=
  [CInt (id r); CStr (symbol r); CInt (chain_time r)]
  ++ map CNum (metric_cells (metric_columns page) r).

(** [x == 0] and [str(x) == 'nan'] on such a cell. *)
Definition cell_is_zero (c : pycell) : bool :=
  match c with
  | CInt z => z =? 0
  | CStr _ => false
  | CNum x => is_zero x
  end.

Definition cell_str_is_nan (c : pycell) : bool :=
  match c with
  | CInt _ => false
  | CStr s => String.eqb s "nan"
  | CNum x => is_nan x
  end.

(** ** The vendor *)

(** Bodies of the one-shot catalogue endpoints. *)
Local Unset Elimination Schemes.
Inductive json : Type :=
| JNull
| JNum (q : Q)
| JStr (s : string)
| JArr (items : list json)
| JObj (members : list (string * json)).
Local Set Elimination Schemes.

(** What one [requests.get] meets: no answer at all (the call raises), or a
    body [r.json()] read through its keys ['Response'], ['Message'] and
    ['Data'] ([None]: the key is absent, or the body is not JSON); [Data] of
    a page endpoint is the decoded row list [r.json()['Data']['Data']]. *)
Inductive reply (A : Type) : Type :=
| Unreachable
| Answer (Response : option string) (Message : option string) (Data : option A).
Arguments Unreachable {A}.
Arguments Answer {A} Response Message Data.

Inductive call : Type :=
| Catalog (path : string)
| Histo (frequency fsym tsym e : string) (limit toTs : Z)
| BlockchainHisto (fsym : string) (limit toTs : Z).

Inductive warning : Type :=
| FailedToGet (what : string)
| FailedAttempt (ticker : string) (attempts : Z)
| FailedManyAttempts (ticker : string) (message : string)
| Caught (e : exn)
| FormatChanged.

Inductive event : Type :=
| Get (c : call)
| Sleep (secs : Q)
| Warning (w : warning).

Record world : Type := {
  catalog : list (reply json);
  histo : list (reply (list bar));
  blockchain_histo : list (reply (list chain_row));
  log : list event
}.

Definition emit (es : list event) (w : world) : world :=
  {| catalog := catalog w; histo := histo w;
     blockchain_histo := blockchain_histo w; log := log w ++ es |}.

Definition with_catalog (c : list (reply json)) (w : world) : world :=
  {| catalog := c; histo := histo w;
     blockchain_histo := blockchain_histo w; log := log w |}.

(** A call of the client: it needs the world, and leaves an outcome and the
    world after it; [None] when the script of replies runs out. *)
Definition run (A : Type) : Type := world -> option (outcome A * world).

Definition ret {A : Type} (a : A) : run A := fun w => Some (Ok a, w).
Definition raise {A : Type} (e : exn) : run A := fun w => Some (Raise e, w).

Definition bind {A B : Type} (c : run A) (k : A -> run B) : run B :=
  fun w =>
    match c w with
    | None => None
    | Some (Ok a, w') => k a w'
    | Some (Raise e, w') => Some (Raise e, w')
    end.

(** [try: c  except Exception as e: h e] *)
Definition try_except {A : Type} (c : run A) (h : exn -> run A) : run A :=
  fun w =>
    match c w with
    | None => None
    | Some (Ok a, w') => Some (Ok a, w')
    | Some (Raise e, w') => h e w'
    end.

Definition warn (x : warning) : run unit :=
  fun w => Some (Ok tt, emit [Warning x] w).

Declare Scope run_scope.
Delimit Scope run_scope with run.
Notation "x <- c ;; k" := (bind c (fun x => k))
  (at level 61, c at next level, right associativity) : run_scope.
Notation "c ;;; k" := (bind c (fun _ => k))
  (at level 61, right associativity) : run_scope.

(** [requests.get] on a catalogue endpoint: the next scripted reply. *)
Definition get_catalog (path : string) : world -> option (reply json * world) :=
  fun w =>
    match catalog w with
    | [] => None
    | r :: rest => Some (r, emit [Get (Catalog path)] (with_catalog rest w))
    end.

(** ['key' in a JSON object]: subscripting anything else by a string is a
    [TypeError]. *)
Definition subscript (j : json) (k : string) : outcome json :=
  match j with
  | JObj members =>
      match assoc k members with
      | Some v => Ok v
      | None => Raise (KeyError k)
      end
  | _ => Raise TypeError
  end.

(** [pd.DataFrame(data)] of a catalogue listing: a dict of records (or an
    empty list); [None] for the shapes this embedding does not cover. *)
Fixpoint records_of (members : list (string * json))
  : option (list (string * list (string * json))) :=
  match members with
  | [] => Some []
  | (k, JObj inner) :: rest =>
      option_map (cons (k, inner)) (records_of rest)
  | _ => None
  end.

Definition records (data : json) : option (list (string * list (string * json))) :=
  match data with
  | JObj members => records_of members
  | JArr [] => Some []
  | _ => None
  end.

Definition ohlcv_fields : list string :=
  ["open"; "high"; "low"; "close"; "volume"].

(** ** The client *)

Section Client.

(** [util.convertparams.convert_datetime_to_unix_tmsp]: that module is not
    part of the sources at hand. *)
Variable convert_datetime_to_unix_tmsp : datelike -> Z.

(** The instant (nanoseconds) pandas gives a bound it compares with a
    [DatetimeIndex]. *)
Variable to_timestamp : datelike -> Z.

(** [df.set_index('date').sort_index()] on the rows under their dates.
    pandas sorts a single-level index with quicksort, which promises no
    order among rows of equal date: the properties below take it as any
    function that returns its argument rearranged in ascending date order. *)
Variable sort_by_date : forall A : Type, list (Z * A) -> list (Z * A).

(** [round(datetime.now().timestamp())] and [datetime.utcnow()]. *)
Variable now : Z.
Variable utcnow : datelike.

(** [self.max_obs_per_call] *)
Variable max_obs_per_call : Z.

(** *** Parameter translation *)

Definition convert_data_req_params (data_req : DataRequest) : cc_data_req :=
  (* convert tickers to uppercase *)
  let tickers' := map upper (tickers data_req) in
  (* convert freq *)
  let freq' :=
    if String.eqb (last_chars 3 (token (freq data_req))) "min" then "histominute"
    else if String.eqb (last_chars 1 (token (freq data_req))) "h" then "histohour"
    else if String.eqb (token (freq data_req)) "d" then "histoday"
    else "histoday" in
  (* convert quote ccy *)
  let quote_ccy' :=
    match quote_ccy data_req with
    | None => "USD"
    | Some q => q
    end in
  let quote_ccy' := upper quote_ccy' in
  (* convert exch *)
  let exch' :=
    match exch data_req with
    | None => "CCCAGG"
    | Some e => e
    end in
  (* min freq: the past week; an [if] of its own, not chained to the next *)
  let start_date' :=
    if String.eqb (last_chars 3 (token (freq data_req))) "min"
    then Some (now - seven_days)
    else None in
  (* no start date; this [if]/[else] assigns [start_date] on both arms *)
  let start_date' :=
    match start_date data_req with
    | None => convert_datetime_to_unix_tmsp (DateStr "2010-01-01")
    | Some sd => convert_datetime_to_unix_tmsp sd
    end in
  (* end date *)
  let end_date' :=
    match end_date data_req with
    | None => convert_datetime_to_unix_tmsp utcnow
    | Some ed => convert_datetime_to_unix_tmsp ed
    end in
  {| cc_tickers := tickers'; cc_frequency := freq'; cc_currency := quote_ccy';
     cc_exchange := exch'; cc_start_date := start_date'; cc_end_date := end_date';
     cc_fields := fields data_req; cc_trials := trials data_req;
     cc_pause := pause data_req |}.

(** *** Response wrangling *)

Definition wrangle_ohlcv_resp (data_req : DataRequest) (data_resp : list bar)
  : frame :=
  (* create date and convert to datetime *)
  let df := map (fun b => (to_datetime_s (time b), b)) data_resp in
  (* set datetimeindex and sort index by date *)
  let df := sort_by_date _ df in
  (* rename volume col, keep only ohlcv cols *)
  let df :=
    {| columns := ohlcv_fields;
       rows := map (fun r => ((fst r, None),
                              [open (snd r); high (snd r); low (snd r);
                               close (snd r); volumefrom (snd r)])) df |} in
  (* remove duplicate indexes/rows *)
  let df := drop_duplicated df in
  (* remove rows where close is 0 *)
  let df :=
    dropna (filter_rows
              (fun r => negb (is_zero (cell (columns df) "close" (snd r)))) df) in
  (* filter for desired start to end date *)
  let df :=
    match start_date data_req with
    | Some sd => filter_rows (fun r => to_timestamp sd <=? fst (fst r)) df
    | None => df
    end in
  let df :=
    match end_date data_req with
    | Some ed => filter_rows (fun r => fst (fst r) <=? to_timestamp ed) df
    | None => df
    end in
  df.

Definition wrangle_onchain_resp (data_req : DataRequest)
  (data_resp : list chain_row) : frame :=
  let cols := metric_columns data_resp in
  (* create date and convert to datetime *)
  let df := map (fun r => (to_datetime_s (chain_time r), r)) data_resp in
  (* set datetimeindex and sort index by date *)
  let df := sort_by_date _ df in
  (* remove duplicate indexes/rows *)
  let df := keep_first (fun r => (fst r, None)) [] df in
  (* filter for desired start to end date *)
  let df :=
    match start_date data_req with
    | Some sd => filter (fun r => to_timestamp sd <=? fst r) df
    | None => df
    end in
  let df :=
    match end_date data_req with
    | Some ed => filter (fun r => fst r <=? to_timestamp ed) df
    | None => df
    end in
  (* symbol renamed to ticker, id dropped; index (date, ticker), sorted *)
  sort_index
    {| columns := cols;
       rows := map (fun r => ((fst r, Some (symbol (snd r))),
                              metric_cells cols (snd r))) df |}.

(** *** The paginated fetch loops *)

(** What [except Exception as e] logs. *)
Definition format_changed (e : exn) : list event :=
  [Warning (Caught e); Warning FormatChanged].

(** [sleep(cc_data_req['pause'])]: [time.sleep] raises [ValueError] on a
    negative length, and the [pause] setter stores any float. *)
Definition negative (secs : Q) : bool := Qnum secs <? 0.

Definition sleep_ValueError : exn :=
  ValueError "sleep length must be non-negative".

Definition histo_call (cc : cc_data_req) (ticker : string) (end_date : Z) : call :=
  Histo (cc_frequency cc) ticker (cc_currency cc) (cc_exchange cc)
        max_obs_per_call end_date.

(** The [while attempts < cc_data_req['trials']] loop of [fetch_ohlcv] for
    one ticker, from the state ([end_date], [attempts], [df0]). [Ok df0]:
    the loop was left, by its condition or a [break]; [Raise]: an exception
    left the loop. *)
Fixpoint ohlcv_pages (cc : cc_data_req) (ticker : string)
  (script : list (reply (list bar))) (end_date attempts : Z)
  (df0 : list bar) (log : list event) {struct script}
  : option (outcome (list bar) * list (reply (list bar)) * list event) :=
  match cc_trials cc with
  | None => Some (Raise TypeError, script, log)
  | Some trials =>
      if attempts <? trials then
        match script with
        | [] => None
        | r :: script' =>
            let log := log ++ [Get (histo_call cc ticker end_date)] in
            match r with
            | Unreachable =>
                Some (Ok df0, script', log ++ format_changed ConnectionError)
            | Answer None _ _ =>
                Some (Ok df0, script', log ++ format_changed (KeyError "Response"))
            | Answer (Some status) message data =>
                if String.eqb status "Success" then
                  match data with
                  | None =>
                      Some (Ok df0, script', log ++ format_changed (KeyError "Data"))
                  | Some data =>
                      (* add data to empty df *)
                      let df0 := df0 ++ data in
                      (* check if all data has been extracted *)
                      if Z.of_nat (List.length data) <? max_obs_per_call + 1
                      then Some (Ok df0, script', log)
                      else
                        match data with
                        | [] =>
                            Some (Ok df0, script', log ++ format_changed AttributeError)
                        | first :: _ =>
                            if is_zero (close first) || is_nan (close first)
                            then Some (Ok df0, script', log)
                            else
                              (* change end date, pause *)
                              match cc_pause cc with
                              | None =>
                                  Some (Ok df0, script',
                                        log ++ format_changed TypeError)
                              | Some secs =>
                                  if negative secs
                                  then Some (Ok df0, script',
                                             log ++ format_changed sleep_ValueError)
                                  else ohlcv_pages cc ticker script' (time first)
                                                   attempts df0 (log ++ [Sleep secs])
                              end
                        end
                  end
                else
                  (* except AssertionError *)
                  let attempts := attempts + 1 in
                  match cc_pause cc with
                  | None => Some (Raise TypeError, script', log)
                  | Some secs =>
                      if negative secs
                      then Some (Raise sleep_ValueError, script', log)
                      else
                      let log :=
                        log ++ [Sleep secs; Warning (FailedAttempt ticker attempts)] in
                      if attempts =? 3 then
                        match message with
                        | None => Some (Raise (KeyError "Message"), script', log)
                        | Some msg =>
                            Some (Ok df0, script',
                                  log ++ [Warning (FailedManyAttempts ticker msg)])
                        end
                      else ohlcv_pages cc ticker script' end_date attempts df0 log
                  end
            end
        end
      else Some (Ok df0, script, log)
  end.

(** The same loop of [fetch_onchain]. *)
Fixpoint onchain_pages (cc : cc_data_req) (ticker : string)
  (script : list (reply (list chain_row))) (end_date attempts : Z)
  (df0 : list chain_row) (log : list event) {struct script}
  : option (outcome (list chain_row) * list (reply (list chain_row)) * list event) :=
  match cc_trials cc with
  | None => Some (Raise TypeError, script, log)
  | Some trials =>
      if attempts <? trials then
        match script with
        | [] => None
        | r :: script' =>
            let log :=
              log ++ [Get (BlockchainHisto ticker max_obs_per_call end_date)] in
            match r with
            | Unreachable =>
                Some (Ok df0, script', log ++ format_changed ConnectionError)
            | Answer None _ _ =>
                Some (Ok df0, script', log ++ format_changed (KeyError "Response"))
            | Answer (Some status) message data =>
                if String.eqb status "Success" then
                  match data with
                  | None =>
                      Some (Ok df0, script', log ++ format_changed (KeyError "Data"))
                  | Some data =>
                      let df0 := df0 ++ data in
                      if Z.of_nat (List.length data) <? max_obs_per_call + 1
                      then Some (Ok df0, script', log)
                      else
                        match data with
                        | [] =>
                            Some (Ok df0, script', log ++ format_changed AttributeError)
                        | first :: _ =>
                            if forallb cell_is_zero (first_row_series data first)
                               || forallb cell_str_is_nan (first_row_series data first)
                            then Some (Ok df0, script', log)
                            else
                              match cc_pause cc with
                              | None =>
                                  Some (Ok df0, script',
                                        log ++ format_changed TypeError)
                              | Some secs =>
                                  if negative secs
                                  then Some (Ok df0, script',
                                             log ++ format_changed sleep_ValueError)
                                  else onchain_pages cc ticker script'
                                                     (chain_time first) attempts df0
                                                     (log ++ [Sleep secs])
                              end
                        end
                  end
                else
                  let attempts := attempts + 1 in
                  match cc_pause cc with
                  | None => Some (Raise TypeError, script', log)
                  | Some secs =>
                      if negative secs
                      then Some (Raise sleep_ValueError, script', log)
                      else
                      let log :=
                        log ++ [Sleep secs; Warning (FailedAttempt ticker attempts)] in
                      if attempts =? 3 then
                        match message with
                        | None => Some (Raise (KeyError "Message"), script', log)
                        | Some msg =>
                            Some (Ok df0, script',
                                  log ++ [Warning (FailedManyAttempts ticker msg)])
                        end
                      else onchain_pages cc ticker script' end_date attempts df0 log
                  end
            end
        end
      else Some (Ok df0, script, log)
  end.

(** *** The catalogue getters *)

(** The opening the getters share: the request, the assertion on
    ['Response'] (a failed one is caught and logged, nothing else is
    caught), then [r.json()['Data']], read whatever the status was. *)
Definition catalog_data (path what : string) : run json :=
  fun w =>
    match get_catalog path w with
    | None => None
    | Some (Unreachable, w) => Some (Raise ConnectionError, w)
    | Some (Answer None _ _, w) => Some (Raise (KeyError "Response"), w)
    | Some (Answer (Some status) _ data, w) =>
        let w :=
          if String.eqb status "Success" then w
          else emit [Warning (FailedToGet what)] w in
        match data with
        | None => Some (Raise (KeyError "Data"), w)
        | Some data => Some (Ok data, w)
        end
    end.

(** A payload shape outside the embedding leaves the run undetermined. *)
Definition as_records (data : json) : run (list (string * list (string * json))) :=
  fun w =>
    match records data with
    | Some recs => Some (Ok recs, w)
    | None => None
    end.

(** [get_assets(as_list=True)]: [list(pd.DataFrame(data).T.index)] *)
Definition get_assets : run (list string) :=
  (data <- catalog_data "all/coinlist" "asset info" ;;
   recs <- as_records data ;;
   ret (map fst recs))%run.

(** [get_indexes(as_list=True)] *)
Definition get_indexes : run (list string) :=
  (data <- catalog_data "index/list" "index info" ;;
   recs <- as_records data ;;
   ret (map fst recs))%run.

(** The loop [for asset in data_resp['pairs']: mkts_dict[asset] =
    data_resp['pairs'][asset]['tsyms']]. *)
Fixpoint tsyms_of (pairs : list (string * json)) : outcome (list (string * json)) :=
  match pairs with
  | [] => Ok []
  | (asset, v) :: rest =>
      match subscript v "tsyms" with
      | Raise e => Raise e
      | Ok t =>
          match tsyms_of rest with
          | Raise e => Raise e
          | Ok l => Ok ((asset, t) :: l)
          end
      end
  end.

Definition of_outcome {A : Type} (o : outcome A) : run A :=
  fun w => Some (o, w).

Definition get_markets : run (list (string * json)) :=
  (data_resp <- catalog_data "v2/cccagg/pairs" "index info" ;;
   pairs <- of_outcome (subscript data_resp "pairs") ;;
   match pairs with
   | JObj members => of_outcome (tsyms_of members)
   | _ => fun _ => None
   end)%run.

Definition get_fields : run (list string) :=
  (data_resp <- catalog_data "blockchain/latest?fsym=BTC" "on-chain data info" ;;
   match data_resp with
   | JObj members => ret (ohlcv_fields ++ skipn 4 (map fst members))
   | _ => raise AttributeError
   end)%run.

(** [get_exchanges(as_list=True)]: the transposed frame is re-indexed by its
    column 'Name', which exists when some record has that key. *)
Definition get_exchanges : run (list json) :=
  (data <- catalog_data "exchanges/general" "exchanges info" ;;
   recs <- as_records data ;;
   if existsb (fun r => in_strs "Name" (map fst (snd r))) recs
   then ret (map (fun r => match assoc "Name" (snd r) with
                           | Some v => v
                           | None => JNull
                           end) recs)
   else raise (KeyError "Name"))%run.

Definition get_rate_limit : run (list (string * list (string * json))) :=
  (data <- catalog_data "stats/rate/limit" "rate limit info" ;;
   as_records data)%run.

(** *** The fetchers *)

Definition set_ticker (ticker : string) (df : frame) : frame :=
  {| columns := columns df;
     rows := map (fun r => ((fst (fst r), Some ticker), snd r)) (rows df) |}.

(** The loop over [cc_data_req['tickers']] of [fetch_ohlcv]. *)
Fixpoint ohlcv_tickers (data_req : DataRequest) (cc : cc_data_req)
  (todo : list string) (df : frame) (w : world) {struct todo}
  : option (outcome frame * world) :=
  match todo with
  | [] => Some (Ok df, w)
  | ticker :: todo' =>
      match ohlcv_pages cc ticker (histo w) (cc_end_date cc) 0 [] (log w) with
      | None => None
      | Some (res, script, lg) =>
          let w := {| catalog := catalog w; histo := script;
                      blockchain_histo := blockchain_histo w; log := lg |} in
          match res with
          | Raise e => Some (Raise e, w)
          | Ok [] => ohlcv_tickers data_req cc todo' df w
          | Ok df0 =>
              (* wrangle data resp *)
              let df1 := wrangle_ohlcv_resp data_req df0 in
              (* add ticker to df0 and reset index *)
              let df1 :=
                if (1 <? List.length (tickers data_req))%nat
                then sort_index (set_ticker ticker df1)
                else df1 in
              (* concat df and df1 *)
              ohlcv_tickers data_req cc todo' (concat df df1) w
          end
      end
  end.

Definition fetch_ohlcv (data_req : DataRequest) : run frame :=
  let cc := convert_data_req_params data_req in
  ohlcv_tickers data_req cc (cc_tickers cc) DataFrame.

Fixpoint onchain_tickers (data_req : DataRequest) (cc : cc_data_req)
  (todo : list string) (df : frame) (w : world) {struct todo}
  : option (outcome frame * world) :=
  match todo with
  | [] => Some (Ok df, w)
  | ticker :: todo' =>
      match onchain_pages cc ticker (blockchain_histo w) (cc_end_date cc) 0 []
                          (log w) with
      | None => None
      | Some (res, script, lg) =>
          let w := {| catalog := catalog w; histo := histo w;
                      blockchain_histo := script; log := lg |} in
          match res with
          | Raise e => Some (Raise e, w)
          | Ok [] => onchain_tickers data_req cc todo' df w
          | Ok df0 =>
              let df1 := wrangle_onchain_resp data_req df0 in
              onchain_tickers data_req cc todo' (concat df df1) w
          end
      end
  end.

Definition fetch_onchain (data_req : DataRequest) : run frame :=
  let cc := convert_data_req_params data_req in
  (* check if frequency daily *)
  if negb (String.eqb (cc_frequency cc) "histoday")
  then raise (Exception "On-chain data is only available on a daily frequency.")
  else
    (* check if field available *)
    (fields_list <- get_fields ;;
     let onchain_list := skipn 5 fields_list in
     if negb (existsb (fun i => in_strs i onchain_list) (cc_fields cc))
     then raise (Exception "Field is not an on-chain data field.")
     else onchain_tickers data_req cc (cc_tickers cc) DataFrame)%run.

(** The two guarded fetches of [fetch_data]:
    [try: df = pd.concat([df, fetch(data_req)], axis=1)
     except Exception as e: logging.warning(e)]. *)
Definition try_fetch (fetch : run frame) (df : frame) : run frame :=
  try_except (df0 <- fetch ;; ret (concat_axis1 df df0))%run
             (fun e => warn (Caught e) ;;; ret df)%run.

(** The frame [fetch_data] holds once both guarded fetches are done. *)
Definition merged (data_req : DataRequest) (fields_list : list string)
  : run frame :=
  let cc := convert_data_req_params data_req in
  (* fields lists *)
  let ohlcv_list := firstn 5 fields_list in
  let onchain_list := skipn 5 fields_list in
  (* store in empty df *)
  let df := DataFrame in
  (* fetch OHLCV data *)
  (df <- (if existsb (fun i => in_strs i ohlcv_list) (cc_fields cc)
          then try_fetch (fetch_ohlcv data_req) df
          else ret df) ;;
   (* fetch on-chain data *)
   if existsb (fun i => in_strs i onchain_list) (cc_fields cc)
   then try_fetch (fetch_onchain data_req) df
   else ret df)%run.

Definition fetch_data (data_req : DataRequest) : run frame :=
  let cc := convert_data_req_params data_req in
  (* check if fields available *)
  (fields_list <- get_fields ;;
   if negb (forallb (fun i => in_strs i fields_list) (cc_fields cc))
   then raise (Exception "Fields are not available.")
   else
     df <- merged data_req fields_list ;;
     (* check if df empty *)
     if empty df
     then raise (Exception "Check data request parameters and try again.")
     else
       (* filter df for desired fields and sort index by date *)
       df <- of_outcome (loc_columns df (cc_fields cc)) ;;
       let df := if (1 <? List.length (tickers data_req))%nat
                 then sort_index df else df in
       ret (sort_index df))%run.

(** *** Construction *)

Record CryptoCompare : Type := {
  _assets : list string;
  _indexes : list string;
  _markets : list (string * json);
  _fields : list string;
  _exchanges : list json;
  _rate_limit : list (string * list (string * json))
}.

Definition or_get {A : Type} (given : option A) (getter : run A) : run A :=
  match given with
  | None => getter
  | Some a => ret a
  end.

Definition __init__ (api_key : option string)
  (assets indexes : option (list string))
  (markets : option (list (string * json)))
  (fields : option (list string))
  (exchanges : option (list json))
  (rate_limit : option (list (string * list (string * json))))
  : run CryptoCompare :=
  match api_key with
  | None => raise (Exception "Set your api key.")
  | Some _ =>
      (a <- or_get assets get_assets ;;
       i <- or_get indexes get_indexes ;;
       mk <- or_get markets get_markets ;;
       f <- or_get fields get_fields ;;
       e <- or_get exchanges get_exchanges ;;
       r <- or_get rate_limit get_rate_limit ;;
       ret {| _assets := a; _indexes := i; _markets := mk; _fields := f;
              _exchanges := e; _rate_limit := r |})%run
  end.

End Client.

(** ** The property setters of [DataRequest] *)

Module Setters.

(** The values a caller can hand to a setter. *)
Local Unset Elimination Schemes.
Inductive pyval : Type :=
| PyNone
| PyBool (b : bool)
| PyInt (z : Z)
| PyFloat (x : num)
| PyStr (s : string)
| PyList (items : list pyval)
| PyDatetime (ns : Z)
| PyTimestamp (ns : Z)
| PyObject.
Local Set Elimination Schemes.

Definition in_tokens (v : pyval) (l : list string) : bool :=
  match v with
  | PyStr s => in_strs s l
  | _ => false
  end.

Section Setters.

(** [datetime.strptime(s, '%Y-%m-%d')] returns. *)
Variable strptime_ymd : string -> bool.

(** [pytz.all_timezones] *)
Variable all_timezones : list string.

(** Each setter as the value it stores in its attribute, or the
    exception it raises. *)
Definition tickers_setter (tickers : pyval) : outcome pyval :=
  match tickers with
  | PyList _ => Ok tickers
  | PyStr _ => Ok (PyList [tickers])
  | _ => Raise (Exception "Tickers must be a string or list of symbols.")
  end.

Definition freq_setter (frequency : pyval) : outcome pyval :=
  if negb (in_tokens frequency
             ["tick"; "1min"; "5min"; "10min"; "20min"; "30min";
              "1h"; "2h"; "4h"; "8h"; "d"; "w"; "m"])
  then Raise (Exception "invalid data frequency")
  else Ok frequency.

Definition quote_ccy_setter (quote : pyval) : outcome pyval :=
  match quote with
  | PyNone => Ok quote
  | PyStr _ => Ok quote
  | _ => Raise (Exception "Quote currency must be a string.")
  end.

Definition exch_setter (exch : pyval) : outcome pyval :=
  match exch with
  | PyNone => Ok exch
  | PyStr _ => Ok exch
  | _ => Raise (Exception "Exchange must be a string.")
  end.

Definition date_setter (what : string) (date : pyval) : outcome pyval :=
  match date with
  | PyNone => Ok date
  | PyStr s =>
      if strptime_ymd s then Ok date
      else Raise (ValueError "Date must be in YYYY-MM-DD string format.")
  | PyDatetime _ => Ok date
  | PyTimestamp _ => Ok date
  | _ => Raise (Exception what)
  end.

Definition start_date_setter : pyval -> outcome pyval :=
  date_setter "Start date must be in YYYY-MM-DD string, datetime or pd.Timestamp format.".

Definition end_date_setter : pyval -> outcome pyval :=
  date_setter "End date must be in YYYY-MM-DD string, datetime or pd.Timestamp format.".

Definition fields_setter (fields : pyval) : outcome pyval :=
  let fields :=
    match fields with
    | PyStr _ => PyList [fields]
    | _ => fields
    end in
  Ok fields.

Definition tz_setter (timezone : pyval) : outcome pyval :=
  if negb (in_tokens timezone all_timezones)
  then Raise (Exception "invalid timezone")
  else Ok timezone.

Definition cat_setter (category : pyval) : outcome pyval :=
  match category with
  | PyNone => Ok category
  | _ =>
      if in_tokens category
           ["crypto"; "fx"; "rates"; "equities"; "commodities"; "bonds";
            "credit"; "macro"; "alt"]
      then Ok category
      else Raise (Exception "invalid category")
  end.

(** [isinstance(trials, int) or isinstance(trial, str)]: the right
    operand names [trial], which is not defined. *)
Definition trials_setter (trials : pyval) : outcome pyval :=
  match trials with
  | PyNone => Ok trials
  | PyInt _ | PyBool _ => Ok trials
  | _ => Raise (NameError "trial")
  end.

Definition pause_setter (pause : pyval) : outcome pyval :=
  match pause with
  | PyNone => Ok pause
  | PyFloat _ => Ok pause
  | _ => Raise (Exception "Number of seconds to pause must be a float.")
  end.

Definition source_tickers_setter (tickers : pyval) : outcome pyval :=
  match tickers with
  | PyNone => Ok tickers
  | PyList _ => Ok tickers
  | PyStr _ => Ok (PyList [tickers])
  | _ => Raise (Exception "Source tickers must be a string or list of symbols.")
  end.

Definition source_freq_setter (freq : pyval) : outcome pyval :=
  match freq with
  | PyNone => Ok freq
  | PyStr _ => Ok freq
  | _ => Raise (Exception "Source data frequency must be a string.")
  end.

Definition source_fields_setter (fields : pyval) : outcome pyval :=
  match fields with
  | PyNone => Ok fields
  | PyList _ => Ok fields
  | PyStr _ => Ok fields
  | _ => Raise (Exception "Source fields must be a string or list of fields.")
  end.

(** The attributes of a constructed object. *)
Record object : Type := {
  _tickers : pyval; _frequency : pyval; _quote_ccy : pyval; _exch : pyval;
  _start_date : pyval; _end_date : pyval; _fields : pyval; _timezone : pyval;
  _category : pyval; _trials : pyval; _pause : pyval;
  _source_tickers : pyval; _source_freq : pyval; _source_fields : pyval
}.

Definition and_then {A B : Type} (o : outcome A) (k : A -> outcome B)
  : outcome B :=
  match o with
  | Ok a => k a
  | Raise e => Raise e
  end.

(** [DataRequest.__init__]: the fourteen assignments, in order. *)
Definition __init__
  (tickers freq quote_ccy exch start_date end_date fields tz cat trials
     pause source_tickers source_freq source_fields : pyval)
  : outcome object :=
  and_then (tickers_setter tickers) (fun a1 =>
  and_then (freq_setter freq) (fun a2 =>
  and_then (quote_ccy_setter quote_ccy) (fun a3 =>
  and_then (exch_setter exch) (fun a4 =>
  and_then (start_date_setter start_date) (fun a5 =>
  and_then (end_date_setter end_date) (fun a6 =>
  and_then (fields_setter fields) (fun a7 =>
  and_then (tz_setter tz) (fun a8 =>
  and_then (cat_setter cat) (fun a9 =>
  and_then (trials_setter trials) (fun a10 =>
  and_then (pause_setter pause) (fun a11 =>
  and_then (source_tickers_setter source_tickers) (fun a12 =>
  and_then (source_freq_setter source_freq) (fun a13 =>
  and_then (source_fields_setter source_fields) (fun a14 =>
  Ok {| _tickers := a1; _frequency := a2; _quote_ccy := a3; _exch := a4;
        _start_date := a5; _end_date := a6; _fields := a7; _timezone := a8;
        _category := a9; _trials := a10; _pause := a11;
        _source_tickers := a12; _source_freq := a13;
        _source_fields := a14 |})))))))))))))).

End Setters.

(** What the docstring of [DataRequest] allows for [fields]: a list of
    strings (a single string is stored as a one-element list). *)
Definition is_str (v : pyval) : bool :=
  match v with
  | PyStr _ => true
  | _ => false
  end.

Definition valid_fields (stored : pyval) : bool :=
  match stored with
  | PyList items => forallb is_str items
  | _ => false
  end.

End Setters.


(** ** The property setters of [DataSource] *)

Module Source.
Import Setters.

(** The loop [for value in values: if value in allowed: out.append(value)
    else: raise]. *)
Fixpoint check_all (allowed : list string) (what : string)
  (values out : list pyval) : outcome (list pyval) :=
  match values with
  | [] => Ok out
  | value :: values' =>
      if in_tokens value allowed
      then check_all allowed what values' (out ++ [value])
      else Raise (Exception what)
  end.

(** The setters of [categories], [market_types] and [frequencies]: a string
    becomes a one-element list, then every element is checked. A value that
    cannot be iterated raises [TypeError]; an object of a class outside
    [pyval] is not covered ([None]). The text of an exception is cut down to
    its fixed part. *)
Definition list_setter (allowed : list string) (what : string) (values : pyval)
  : option (outcome pyval) :=
  let values :=
    match values with
    | PyStr _ => PyList [values]
    | _ => values
    end in
  match values with
  | PyList items =>
      Some match check_all allowed what items [] with
           | Ok out => Ok (PyList out)
           | Raise e => Raise e
           end
  | PyObject => None
  | _ => Some (Raise TypeError)
  end.

Definition categories_setter : pyval -> option (outcome pyval) :=
  list_setter ["crypto"; "fx"; "rates"; "equities"; "commodities"; "credit";
               "macro"; "alt"] "invalid category".

Definition market_types_setter : pyval -> option (outcome pyval) :=
  list_setter ["spot"; "perpetual_futures"; "futures"; "options"]
              "invalid market type".

Definition frequencies_setter : pyval -> option (outcome pyval) :=
  list_setter ["tick"; "1min"; "5min"; "10min"; "20min"; "30min";
               "1h"; "2h"; "4h"; "8h"; "d"; "w"; "m"] "invalid data frequency".

Definition source_type_setter (source_type : pyval) : outcome pyval :=
  if in_tokens source_type ["exchange"; "data_vendor"; "library"]
  then Ok source_type
  else Raise (Exception "Invalid source type.").

Definition base_url_setter (url : pyval) : outcome pyval :=
  match url with
  | PyStr _ => Ok url
  | _ => Raise (Exception "Base url must be a string containing the data source web address.")
  end.

Definition api_key_setter (api_key : pyval) : outcome pyval :=
  match api_key with
  | PyStr _ => Ok api_key
  | _ => Raise (Exception "Api key must be a string.")
  end.

Definition max_obs_per_call_setter (limit : pyval) : outcome pyval :=
  match limit with
  | PyInt _ | PyBool _ => Ok limit
  | _ => Raise (Exception "Maximum number of observations per API call must be an integer.")
  end.

End Source.

(** ** A reference environment

    The date conversions over UTC in whole seconds, to run the embedding on
    concrete requests. *)

Definition days_from_civil (y mo dy : Z) : Z :=
  let y' := if mo <=? 2 then y - 1 else y in
  let era := y' / 400 in
  let yoe := y' - era * 400 in
  let doy := (153 * (if 2 <? mo then mo - 3 else mo + 9) + 2) / 5 + dy - 1 in
  let doe := yoe * 365 + yoe / 4 - yoe / 100 + doy in
  era * 146097 + doe - 719468.

Fixpoint digits (s : string) (acc : Z) : Z :=
  match s with
  | EmptyString => acc
  | String c s' => digits s' (acc * 10 + (Z.of_nat (nat_of_ascii c) - 48))
  end.

(** Epoch seconds of a 'YYYY-MM-DD' string. *)
Definition ymd_seconds (s : string) : Z :=
  86400 * days_from_civil (digits (substring 0 4 s) 0)
                          (digits (substring 5 2 s) 0)
                          (digits (substring 8 2 s) 0).

Definition utc_unix_tmsp (dl : datelike) : Z :=
  match dl with
  | DateStr s => ymd_seconds s
  | Datetime ns => ns / 1000000000
  | Timestamp ns => ns / 1000000000
  end.

(** The sort of the reference runs: an insertion sort by date. *)
Definition insertion_sort (A : Type) (l : list (Z * A)) : list (Z * A) :=
  sort_by (fun r s => fst r <=? fst s) l.

Definition utc_timestamp (dl : datelike) : Z :=
  match dl with
  | DateStr s => ymd_seconds s * 1000000000
  | Datetime ns => ns
  | Timestamp ns => ns
  end.

(** 2022-06-01 00:00:00 UTC. *)
Definition a_now : Z := 1654041600.
Definition a_utcnow : datelike := Datetime (a_now * 1000000000).

Definition btc_daily : DataRequest :=
  {| tickers := ["btc"]; freq := Day; quote_ccy := None; exch := None;
     start_date := None; end_date := None; fields := ["close"];
     trials := Some 3; pause := Some (1 # 10) |}.

Definition price (t : Z) (c : Z) : bar :=
  {| time := t; open := Num (c # 1); high := Num (c # 1); low := Num (c # 1);
     close := Num (c # 1); volumefrom := Num 1 |}.

Definition success {A : Type} (data : A) : reply A :=
  Answer (Some "Success") None (Some data).

Definition rate_limited {A : Type} : reply A :=
  Answer (Some "Error") (Some "You are over your rate limit") None.


(** ** Vocabulary of the statements *)

(** The row [wrangle_ohlcv_resp] makes of a bar. *)
Definition ohlcv_row (b : bar) : key * list num :=
  ((to_datetime_s (time b), None),
   [open b; high b; low b; close b; volumefrom b]).

(** A row lies within the bounds the request supplies. *)
Definition within (to_timestamp : datelike -> Z) (data_req : DataRequest)
  (r : key * list num) : bool :=
  match start_date data_req with
  | Some sd => to_timestamp sd <=? fst (fst r)
  | None => true
  end
  && match end_date data_req with
     | Some ed => fst (fst r) <=? to_timestamp ed
     | None => true
     end.

(** The same request with neither bound. *)
Definition without_bounds (data_req : DataRequest) : DataRequest :=
  {| tickers := tickers data_req; freq := freq data_req;
     quote_ccy := quote_ccy data_req; exch := exch data_req;
     start_date := None; end_date := None; fields := fields data_req;
     trials := trials data_req; pause := pause data_req |}.





(** What the loop logs over a run of failed attempts at one cursor, the
    first of them being attempt [attempts + 1]: the request, the pause, the
    warning, and after the third failure the closing warning. *)
Fixpoint retries {A : Type} (get : event) (secs : Q) (ticker : string)
  (attempts : Z) (fails : list (reply A)) : list event :=
  match fails with
  | [] => []
  | r :: fails' =>
      [get; Sleep secs; Warning (FailedAttempt ticker (attempts + 1))]
      ++ (if attempts + 1 =? 3
          then match r with
               | Answer _ (Some msg) _ => [Warning (FailedManyAttempts ticker msg)]
               | _ => []
               end
          else [])
      ++ retries get secs ticker (attempts + 1) fails'
  end.




(** A body of the on-chain probe: four housekeeping keys, two metrics. *)
Definition latest_listing : reply json :=
  success (JObj [("id", JNum 1); ("symbol", JStr "BTC");
                 ("partner_symbol", JStr "BTC"); ("time", JNum 1);
                 ("active_addresses", JNum 5); ("hashrate", JNum 7)]).

(** The body the vendor sends with an error status: no payload. *)
Definition error_body : reply json :=
  Answer (Some "Error") (Some "You are over your rate limit") (Some (JObj [])).

Definition two_symbols : DataRequest :=
  {| tickers := ["aaa"; "bbb"]; freq := Day; quote_ccy := None; exch := None;
     start_date := None; end_date := None; fields := ["close"];
     trials := Some 3; pause := Some (1 # 10) |}.



Definition from_2020 : DataRequest :=
  {| tickers := ["btc"]; freq := Day; quote_ccy := None; exch := None;
     start_date := Some (DateStr "2020-01-01");
     end_date := Some (DateStr "2020-01-03"); fields := ["close"];
     trials := Some 3; pause := Some (1 # 10) |}.

(** 2019-12-30 to 2020-01-04, one bar a day. *)
Definition around_new_year : list bar :=
  [price 1577664000 7200; price 1577750400 7250; price 1577836800 7300;
   price 1577923200 7000; price 1578009600 7350; price 1578096000 7400].

(** Three pages walked back from 2020-01-03 with [max_obs_per_call = 2]:
    two full pages of three bars, then a short one. *)
Definition first_page : list bar :=
  [price 1577836800 7300; price 1577923200 7000; price 1578009600 7350].
Definition second_page : list bar :=
  [price 1577664000 7200; price 1577750400 7250; price 1577836800 7300].
Definition last_page : list bar := [price 1577577600 7100].

Definition three_failures : list (reply (list bar)) :=
  [rate_limited; rate_limited; rate_limited].

(** A vendor that lists its fields and answers one page of one bar. *)
Definition one_price_page : world :=
  {| catalog := [latest_listing];
     histo := [success [price 1653955200 30000]];
     blockchain_histo := []; log := [] |}.

(** A string without a lower-case ASCII letter. *)
Definition lowercase (c : ascii) : bool :=
  ((97 <=? nat_of_ascii c) && (nat_of_ascii c <=? 122))%nat.

Fixpoint no_lowercase (s : string) : bool :=
  match s with
  | EmptyString => true
  | String c s' => negb (lowercase c) && no_lowercase s'
  end.

(** The row [wrangle_onchain_resp] makes of a vendor row, under the metric
    columns of the page set. *)
Definition onchain_row (cols : list string) (r : chain_row) : key * list num :=
  ((to_datetime_s (chain_time r), Some (symbol r)), metric_cells cols r).

(** A date lies within the bounds the request supplies. *)
Definition date_within (to_timestamp : datelike -> Z) (data_req : DataRequest)
  (t : Z) : bool :=
  match start_date data_req with
  | Some sd => to_timestamp sd <=? t
  | None => true
  end
  && match end_date data_req with
     | Some ed => t <=? to_timestamp ed
     | None => true
     end.


Definition is_get (ev : event) : bool :=
  match ev with
  | Get _ => true
  | _ => false
  end.

(** The rows of a reply that is a page: status 'Success' with its data. *)
Definition page_of {A : Type} (r : reply (list A)) : list A :=
  match r with
  | Answer (Some status) _ (Some data) =>
      if String.eqb status "Success" then data else []
  | _ => []
  end.

Definition a_request (tr : option Z) : DataRequest :=
  {| tickers := ["btc"; "eth"]; freq := Day; quote_ccy := None; exch := None;
     start_date := None; end_date := None; fields := ["close"];
     trials := tr; pause := Some (1 # 10) |}.

(** A failed body without the key 'Message'. *)
Definition silent_failure {A : Type} : reply A :=
  Answer (Some "Error") None None.

(** Two days of on-chain rows, the first with nothing but zeros. *)
Definition chain_days : list chain_row :=
  [{| id := 1; symbol := "BTC"; chain_time := 1577836800;
      metrics := [("active_addresses", Num 0); ("hashrate", Num 0)] |};
   {| id := 2; symbol := "BTC"; chain_time := 1577923200;
      metrics := [("active_addresses", Num (500000 # 1)); ("hashrate", NaN)] |}].

(** What a run of the loop of [fetch_ohlcv] for one ticker leaves behind,
    from a script, rows held and a log to an outcome, the replies left and
    the log after it: the replies used up, one request logged for each, all
    of them price requests for the ticker, and the rows held followed by the
    rows of the pages among the replies used. *)
Definition run_spec (max_obs_per_call : Z) (cc : cc_data_req) (ticker : string)
  (script : list (reply (list bar))) (df0 : list bar) (log : list event)
  (res : outcome (list bar)) (rest : list (reply (list bar)))
  (log' : list event) : Prop :=
  exists used es,
    script = used ++ rest
    /\ log' = log ++ es
    /\ List.length (filter is_get es) = List.length used
    /\ Forall (fun ev => is_get ev = true ->
                         exists toTs,
                           ev = Get (histo_call max_obs_per_call cc ticker toTs))
              es
    /\ forall out, res = Ok out -> out = df0 ++ flat_map page_of used.

(** The admissible values of the attributes of a request, as the setters
    and the docstring of [DataRequest] give them. *)
Definition frequency_tokens : list string :=
  ["tick"; "1min"; "5min"; "10min"; "20min"; "30min";
   "1h"; "2h"; "4h"; "8h"; "d"; "w"; "m"].

Definition category_tokens : list string :=
  ["crypto"; "fx"; "rates"; "equities"; "commodities"; "bonds";
   "credit"; "macro"; "alt"].

Definition is_none (v : Setters.pyval) : bool :=
  match v with Setters.PyNone => true | _ => false end.

Definition is_list (v : Setters.pyval) : bool :=
  match v with Setters.PyList _ => true | _ => false end.

Definition is_int (v : Setters.pyval) : bool :=
  match v with Setters.PyInt _ | Setters.PyBool _ => true | _ => false end.

Definition is_float (v : Setters.pyval) : bool :=
  match v with Setters.PyFloat _ => true | _ => false end.

Definition is_date (strptime_ymd : string -> bool) (v : Setters.pyval) : bool :=
  match v with
  | Setters.PyStr s => strptime_ymd s
  | Setters.PyDatetime _ | Setters.PyTimestamp _ => true
  | _ => false
  end.

(** Every attribute but [_fields] holds an admissible value. *)
Definition validated (strptime_ymd : string -> bool) (all_timezones : list string)
  (o : Setters.object) : bool :=
  is_list (Setters._tickers o)
  && Setters.in_tokens (Setters._frequency o) frequency_tokens
  && (is_none (Setters._quote_ccy o) || Setters.is_str (Setters._quote_ccy o))
  && (is_none (Setters._exch o) || Setters.is_str (Setters._exch o))
  && (is_none (Setters._start_date o) || is_date strptime_ymd (Setters._start_date o))
  && (is_none (Setters._end_date o) || is_date strptime_ymd (Setters._end_date o))
  && Setters.in_tokens (Setters._timezone o) all_timezones
  && (is_none (Setters._category o)
      || Setters.in_tokens (Setters._category o) category_tokens)
  && (is_none (Setters._trials o) || is_int (Setters._trials o))
  && (is_none (Setters._pause o) || is_float (Setters._pause o))
  && (is_none (Setters._source_tickers o) || is_list (Setters._source_tickers o))
  && (is_none (Setters._source_freq o) || Setters.is_str (Setters._source_freq o))
  && (is_none (Setters._source_fields o) || is_list (Setters._source_fields o)
      || Setters.is_str (Setters._source_fields o)).

(** A vendor that answers the six catalogue calls of a construction. *)
Definition pairs_listing : reply json :=
  success (JObj [("pairs",
                  JObj [("BTC", JObj [("tsyms", JArr [JStr "USD"; JStr "EUR"])]);
                        ("ETH", JObj [("tsyms", JArr [JStr "USD"])])])]).

Definition full_catalog : world :=
  {| catalog :=
       [success (JObj [("BTC", JObj [("Id", JNum 1)]);
                       ("ETH", JObj [("Id", JNum 2)])]);
        success (JObj [("MVDA", JObj [("name", JStr "MVIS")])]);
        pairs_listing;
        latest_listing;
        success (JObj [("2431", JObj [("Name", JStr "Binance")])]);
        success (JObj [("calls_made", JObj [("hour", JNum 1)])])];
     histo := []; blockchain_histo := []; log := [] |}.

(** A vendor walked back over three pages. *)
Definition three_pages : list (reply (list bar)) :=
  [success first_page; success second_page; success last_page].

(** Two symbols, one page each. *)
Definition two_price_pages : world :=
  {| catalog := [latest_listing];
     histo := [success [price 1653955200 30000]; success [price 1653955200 1900]];
     blockchain_histo := []; log := [] |}.


(** The page set under its dates, as [wrangle_ohlcv_resp] and
    [wrangle_onchain_resp] hand it to [sort_index]. *)
Definition dated (data_resp : list bar) : list (Z * bar) :=
  map (fun b => (to_datetime_s (time b), b)) data_resp.

Definition chain_dated (data_resp : list chain_row) : list (Z * chain_row) :=
  map (fun r => (to_datetime_s (chain_time r), r)) data_resp.

(** What is taken of [sort_index] on the dates: the rows come back
    rearranged, in ascending date order. Nothing is taken of the order
    among rows of equal date. *)
Definition sorts_by_date (sort : forall A : Type, list (Z * A) -> list (Z * A))
  : Prop :=
  forall (A : Type) (l : list (Z * A)),
    Permutation l (sort A l)
    /\ StronglySorted (fun a b => fst a <= fst b) (sort A l).

(** The first row of a table under a date. *)
Definition first_under {A : Type} (t : Z) (df : list (Z * A)) : option (Z * A) :=
  find (fun r => fst r =? t) df.

(** A bar the steps of [wrangle_ohlcv_resp] after the removal of duplicates
    let through: its close is not zero, none of its five cells is NaN, its
    date lies within the bounds the request supplies. *)
Definition survives (to_timestamp : datelike -> Z) (data_req : DataRequest)
  (b : bar) : bool :=
  negb (is_zero (close b))
  && negb (existsb is_nan [open b; high b; low b; close b; volumefrom b])
  && within to_timestamp data_req (ohlcv_row b).

(** A request whose window opens after the row the two pages [first_page]
    and [second_page] share. *)
Definition from_jan_2 : DataRequest :=
  {| tickers := ["btc"]; freq := Day; quote_ccy := None; exch := None;
     start_date := Some (DateStr "2020-01-02");
     end_date := Some (DateStr "2020-01-03"); fields := ["close"];
     trials := Some 3; pause := Some (1 # 10) |}.

(** A sort by date that is not stable: rows of equal date come back in the
    reverse of the order they had. *)
Definition reversing_sort (A : Type) (l : list (Z * A)) : list (Z * A) :=
  sort_by (fun r s => fst r <? fst s) l.

(** Two pages that overlap on 2020-01-01, the bar revised in between. *)
Definition revised_pages : list bar :=
  [price 1577836800 7300; price 1577923200 7000]
  ++ [price 1577750400 7250; price 1577836800 7310].

(** Two symbols over the first three days of 2020, a price field and an
    on-chain field. *)
Definition mixed_pair_2020 : DataRequest :=
  {| tickers := ["btc"; "eth"]; freq := Day; quote_ccy := None; exch := None;
     start_date := Some (DateStr "2020-01-01");
     end_date := Some (DateStr "2020-01-03");
     fields := ["close"; "active_addresses"];
     trials := Some 3; pause := Some (1 # 10) |}.

(** On-chain rows of a symbol: one on 2019-12-30, before the window, and one
    on 2020-01-02. *)
Definition chain_day_before (sym : string) : chain_row :=
  {| id := 1; symbol := sym; chain_time := 1577664000;
     metrics := [("active_addresses", Num (400000 # 1)); ("hashrate", Num 9)] |}.

Definition chain_day_within (sym : string) : chain_row :=
  {| id := 1; symbol := sym; chain_time := 1577923200;
     metrics := [("active_addresses", Num (500000 # 1)); ("hashrate", Num 9)] |}.

(** A vendor whose price pages and on-chain pages reach over both ends of
    the window. *)
Definition mixed_pair_pages : world :=
  {| catalog := [latest_listing; latest_listing];
     histo := [success around_new_year; success around_new_year];
     blockchain_histo :=
       [success [chain_day_before "BTC"; chain_day_within "BTC"];
        success [chain_day_before "ETH"; chain_day_within "ETH"]];
     log := [] |}.


(** A request with a negative pause, which the [pause] setter stores. *)
Definition negative_pause : DataRequest :=
  {| tickers := ["btc"; "eth"]; freq := Day; quote_ccy := None; exch := None;
     start_date := None; end_date := None; fields := ["close"];
     trials := Some 3; pause := Some (-1 # 10) |}.

(** * Properties *)

(** ** Lists: sorting, first occurrences *)

Lemma key_eqb_eq (a b : key) : key_eqb a b = true <-> a = b.
Proof.
  destruct a as [da ta], b as [db tb]; unfold key_eqb; simpl.
  rewrite andb_true_iff, Z.eqb_eq.
  split.
  - intros [Hd Ht]; subst db.
    destruct ta as [x|], tb as [y|]; simpl in Ht; try discriminate.
    + apply String.eqb_eq in Ht; now subst.
    + reflexivity.
  - intros H; injection H as -> ->; split; [reflexivity|].
    destruct tb; simpl; [apply String.eqb_refl | reflexivity].
Qed.

Lemma key_eqb_refl (a : key) : key_eqb a a = true.
Proof. now apply key_eqb_eq. Qed.

Lemma key_eqb_sym (a b : key) : key_eqb a b = key_eqb b a.
Proof.
  destruct (key_eqb a b) eqn:E, (key_eqb b a) eqn:F; try reflexivity.
  - apply key_eqb_eq in E; subst; now rewrite key_eqb_refl in F.
  - apply key_eqb_eq in F; subst; now rewrite key_eqb_refl in E.
Qed.

Section SortFacts.
Context {A : Type} (leb : A -> A -> bool).

Lemma insert_sorted_In (x y : A) (l : list A) :
  In y (insert_sorted leb x l) <-> y = x \/ In y l.
Proof.
  induction l as [|z l IH]; simpl.
  - intuition.
  - destruct (leb x z); simpl; [intuition | rewrite IH; intuition].
Qed.

Lemma sort_by_In (y : A) (l : list A) : In y (sort_by leb l) <-> In y l.
Proof.
  induction l as [|x l IH]; simpl; [tauto|].
  rewrite insert_sorted_In, IH; intuition.
Qed.

Lemma sort_by_nil (l : list A) : sort_by leb l = [] -> l = [].
Proof.
  destruct l as [|x l]; [reflexivity|]; intros H.
  assert (Hin : In x (sort_by leb (x :: l))) by (apply sort_by_In; now left).
  now rewrite H in Hin.
Qed.

(** Stability: an element that [p] accepts is never passed over by an
    equal one, so the first hit of [p] is the same before and after. *)
Lemma find_insert_sorted (p : A -> bool) (x : A) (l : list A) :
  (forall y, p x = true -> p y = true -> leb x y = true) ->
  find p (insert_sorted leb x l) = find p (x :: l).
Proof.
  intros Hp; induction l as [|z l IH]; [reflexivity|].
  simpl; destruct (leb x z) eqn:E; [reflexivity|].
  simpl; destruct (p z) eqn:Pz.
  - destruct (p x) eqn:Px; [|reflexivity].
    rewrite (Hp z eq_refl Pz) in E; discriminate.
  - rewrite IH; simpl; reflexivity.
Qed.

Lemma find_sort_by (p : A -> bool) (l : list A) :
  (forall x y, p x = true -> p y = true -> leb x y = true) ->
  find p (sort_by leb l) = find p l.
Proof.
  intros Hp; induction l as [|x l IH]; [reflexivity|].
  simpl sort_by; rewrite find_insert_sorted by (intros y; apply Hp).
  simpl; now rewrite IH.
Qed.
End SortFacts.

Section SortedByDate.
Context {A : Type} (date : A -> Z).

Lemma insert_sorted_sorted (x : A) (l : list A) :
  StronglySorted (fun a b => date a <= date b) l ->
  StronglySorted (fun a b => date a <= date b)
                 (insert_sorted (fun a b => date a <=? date b) x l).
Proof.
  induction 1 as [|z l Hl IH Hz]; simpl.
  - repeat constructor.
  - destruct (date x <=? date z) eqn:E.
    + apply Z.leb_le in E.
      constructor; [now constructor|].
      constructor; [exact E|].
      eapply Forall_impl; [|exact Hz]; simpl; intros; lia.
    + apply Z.leb_gt in E.
      constructor; [exact IH|].
      apply Forall_forall; intros y Hy.
      apply insert_sorted_In in Hy as [->|Hy]; [lia|].
      rewrite Forall_forall in Hz; now apply Hz.
Qed.

Lemma sort_by_sorted (l : list A) :
  StronglySorted (fun a b => date a <= date b)
                 (sort_by (fun a b => date a <=? date b) l).
Proof.
  induction l as [|x l IH]; simpl; [constructor|].
  now apply insert_sorted_sorted.
Qed.
End SortedByDate.

Lemma StronglySorted_filter {A : Type} (R : A -> A -> Prop) (p : A -> bool)
  (l : list A) :
  StronglySorted R l -> StronglySorted R (filter p l).
Proof.
  induction 1 as [|x l Hl IH Hx]; simpl; [constructor|].
  destruct (p x); [|exact IH].
  constructor; [exact IH|].
  apply Forall_forall; intros y Hy; apply filter_In in Hy as [Hy _].
  rewrite Forall_forall in Hx; now apply Hx.
Qed.

Lemma StronglySorted_map {A B : Type} (R : B -> B -> Prop) (f : A -> B)
  (l : list A) :
  StronglySorted (fun a b => R (f a) (f b)) l <-> StronglySorted R (map f l).
Proof.
  induction l as [|x l IH]; simpl.
  - split; constructor.
  - split; intros H; inversion H as [|? ? Hl Hx]; subst;
      (constructor; [now apply IH|]).
    + rewrite Forall_map; exact Hx.
    + rewrite Forall_map in Hx; exact Hx.
Qed.

Lemma StronglySorted_lt_NoDup (l : list Z) : StronglySorted Z.lt l -> NoDup l.
Proof.
  induction 1 as [|x l Hl IH Hx]; constructor; [|exact IH].
  intros Hin; rewrite Forall_forall in Hx; specialize (Hx x Hin); lia.
Qed.

Section KeepFirst.
Context {A : Type} (label : A -> key).

Lemma keep_first_In (seen : list key) (l : list A) (x : A) :
  In x (keep_first label seen l) ->
  In x l /\ existsb (key_eqb (label x)) seen = false.
Proof.
  revert seen; induction l as [|r l IH]; simpl; intros seen H; [contradiction|].
  destruct (existsb (key_eqb (label r)) seen) eqn:E.
  - apply IH in H as [H1 H2]; auto.
  - destruct H as [->|H]; [auto|].
    apply IH in H as [H1 H2]; simpl in H2.
    apply orb_false_iff in H2 as [_ H2]; auto.
Qed.

(** A kept row is the first row of the frame under its label. *)
Lemma keep_first_first (seen : list key) (l : list A) (x : A) :
  In x (keep_first label seen l) ->
  find (fun y => key_eqb (label y) (label x)) l = Some x.
Proof.
  revert seen; induction l as [|r l IH]; simpl; intros seen H; [contradiction|].
  destruct (existsb (key_eqb (label r)) seen) eqn:E.
  - destruct (key_eqb (label r) (label x)) eqn:F.
    + apply key_eqb_eq in F; rewrite F in E.
      apply keep_first_In in H as [_ H]; congruence.
    + now apply IH with seen.
  - destruct H as [->|H]; [now rewrite key_eqb_refl|].
    pose proof (keep_first_In _ _ _ H) as [_ H2]; simpl in H2.
    apply orb_false_iff in H2 as [H2 _].
    rewrite key_eqb_sym, H2; now apply IH with (label r :: seen).
Qed.

Lemma keep_first_sorted (seen : list key) (l : list A) :
  (forall x, In x l -> snd (label x) = None) ->
  StronglySorted (fun a b => fst (label a) <= fst (label b)) l ->
  StronglySorted (fun a b => fst (label a) < fst (label b))
                 (keep_first label seen l).
Proof.
  intros Hnone Hs; revert seen.
  induction Hs as [|r l Hl IH Hr]; simpl; intros seen; [constructor|].
  assert (Hnone' : forall x, In x l -> snd (label x) = None)
    by (intros; apply Hnone; now right).
  destruct (existsb (key_eqb (label r)) seen); [now apply IH|].
  constructor; [now apply IH|].
  apply Forall_forall; intros y Hy.
  apply keep_first_In in Hy as [Hin Hy]; simpl in Hy.
  apply orb_false_iff in Hy as [Hy _].
  rewrite Forall_forall in Hr; specialize (Hr y Hin).
  assert (Hne : fst (label y) <> fst (label r)).
  { intros Heq.
    assert (label y = label r) as Hk.
    { destruct (label y) as [dy ty] eqn:Ey, (label r) as [dr tr] eqn:Er.
      pose proof (Hnone' y Hin) as Hy'; rewrite Ey in Hy'.
      pose proof (Hnone r (or_introl eq_refl)) as Hr'; rewrite Er in Hr'.
      simpl in *; congruence. }
    apply key_eqb_eq in Hk; congruence. }
  lia.
Qed.
End KeepFirst.

Section KeepFirstConverse.
Context {A : Type} (label : A -> key).

(** The first row under a label not seen before is kept. *)
Lemma keep_first_complete (seen : list key) (l : list A) (x : A) :
  find (fun y => key_eqb (label y) (label x)) l = Some x ->
  existsb (key_eqb (label x)) seen = false ->
  In x (keep_first label seen l).
Proof.
  revert seen; induction l as [|r l IH]; simpl; intros seen Hf Hs; [discriminate|].
  destruct (key_eqb (label r) (label x)) eqn:E.
  - injection Hf as ->; rewrite Hs; now left.
  - destruct (existsb (key_eqb (label r)) seen); [now apply IH|].
    right; apply IH; [exact Hf|].
    simpl; rewrite key_eqb_sym, E; exact Hs.
Qed.
End KeepFirstConverse.

Section SortedWeak.
Context {A : Type} (leb : A -> A -> bool) (date : A -> Z).
Hypothesis leb_le : forall x y, leb x y = true -> date x <= date y.
Hypothesis leb_ge : forall x y, leb x y = false -> date y <= date x.

Lemma insert_sorted_by_date (x : A) (l : list A) :
  StronglySorted (fun a b => date a <= date b) l ->
  StronglySorted (fun a b => date a <= date b) (insert_sorted leb x l).
Proof.
  induction 1 as [|z l Hl IH Hz]; simpl.
  - repeat constructor.
  - destruct (leb x z) eqn:E.
    + apply leb_le in E.
      constructor; [now constructor|].
      constructor; [exact E|].
      eapply Forall_impl; [|exact Hz]; simpl; intros; lia.
    + apply leb_ge in E.
      constructor; [exact IH|].
      apply Forall_forall; intros y Hy.
      apply insert_sorted_In in Hy as [->|Hy]; [exact E|].
      rewrite Forall_forall in Hz; now apply Hz.
Qed.

Lemma sort_by_sorted_by_date (l : list A) :
  StronglySorted (fun a b => date a <= date b) (sort_by leb l).
Proof.
  induction l as [|x l IH]; simpl; [constructor|].
  now apply insert_sorted_by_date.
Qed.
End SortedWeak.

Lemma insert_sorted_Permutation {A : Type} (leb : A -> A -> bool) (x : A)
  (l : list A) : Permutation (x :: l) (insert_sorted leb x l).
Proof.
  induction l as [|y l IH]; simpl; [reflexivity|].
  destruct (leb x y); [reflexivity|].
  rewrite perm_swap; now constructor.
Qed.

Lemma sort_by_Permutation {A : Type} (leb : A -> A -> bool) (l : list A) :
  Permutation l (sort_by leb l).
Proof.
  induction l as [|x l IH]; simpl; [constructor|].
  rewrite <- insert_sorted_Permutation; now constructor.
Qed.

Lemma to_datetime_s_inj (a b : Z) : to_datetime_s a = to_datetime_s b -> a = b.
Proof. unfold to_datetime_s; lia. Qed.

Lemma find_In_some {A : Type} (p : A -> bool) (l : list A) (x : A) :
  In x l -> p x = true -> exists y, find p l = Some y.
Proof.
  intros Hin Hp; destruct (find p l) as [y|] eqn:E; [now exists y|].
  pose proof (find_none _ _ E x Hin); congruence.
Qed.

(** The two sorts of the reference runs are sorts by date. *)
Lemma insertion_sort_sorts : sorts_by_date insertion_sort.
Proof.
  intros A l; split; [apply sort_by_Permutation|].
  apply (sort_by_sorted (@fst Z A)).
Qed.

Lemma reversing_sort_sorts : sorts_by_date reversing_sort.
Proof.
  intros A l; split; [apply sort_by_Permutation|].
  apply (sort_by_sorted_by_date _ (@fst Z A)); intros x y H.
  - apply Z.ltb_lt in H; lia.
  - apply Z.ltb_ge in H; exact H.
Qed.

Lemma find_map {A B : Type} (p : B -> bool) (f : A -> B) (l : list A) :
  find p (map f l) = option_map f (find (fun a => p (f a)) l).
Proof.
  induction l as [|x l IH]; simpl; [reflexivity|].
  destruct (p (f x)); [reflexivity | exact IH].
Qed.

Lemma find_ext {A : Type} (p q : A -> bool) (l : list A) :
  (forall a, p a = q a) -> find p l = find q l.
Proof.
  intros H; induction l as [|x l IH]; simpl; [reflexivity|].
  rewrite H, IH; reflexivity.
Qed.

Lemma filter_filter_andb {A : Type} (p q : A -> bool) (l : list A) :
  filter q (filter p l) = filter (fun a => p a && q a) l.
Proof.
  induction l as [|x l IH]; simpl; [reflexivity|].
  destruct (p x); simpl; [destruct (q x); now rewrite IH | exact IH].
Qed.

Lemma filter_true {A : Type} (l : list A) : filter (fun _ => true) l = l.
Proof. induction l as [|x l IH]; simpl; [reflexivity | now rewrite IH]. Qed.

Lemma to_datetime_s_eqb (a b : Z) :
  (to_datetime_s a =? to_datetime_s b) = (a =? b).
Proof.
  unfold to_datetime_s.
  destruct (a =? b) eqn:E.
  - apply Z.eqb_eq in E; subst; apply Z.eqb_refl.
  - apply Z.eqb_neq in E; apply Z.eqb_neq; lia.
Qed.

(** ** The response normalizer *)

Section Normalizer.
Variable to_timestamp : datelike -> Z.
Variable sort_by_date : forall A : Type, list (Z * A) -> list (Z * A).

(** The frame before the two clips: sorted, projected, first occurrences
    kept, sentinel rows dropped. *)
Lemma wrangle_ohlcv_resp_rows (data_req : DataRequest) (data_resp : list bar) :
  rows (wrangle_ohlcv_resp to_timestamp sort_by_date data_req data_resp)
  = filter (within to_timestamp data_req)
      (rows (wrangle_ohlcv_resp to_timestamp sort_by_date (without_bounds data_req) data_resp)).
Proof.
  unfold wrangle_ohlcv_resp, within; simpl.
  destruct (start_date data_req) as [sd|], (end_date data_req) as [ed|]; simpl.
  - now rewrite filter_filter_andb.
  - apply filter_ext; intros r; now rewrite andb_true_r.
  - reflexivity.
  - now rewrite filter_true.
Qed.

Lemma unclipped_rows (data_req : DataRequest) (data_resp : list bar)
  (row : key * list num) :
  In row (rows (wrangle_ohlcv_resp to_timestamp sort_by_date (without_bounds data_req) data_resp)) ->
  In row (keep_first fst []
            (map (fun r => ((fst r, None),
                            [open (snd r); high (snd r); low (snd r);
                             close (snd r); volumefrom (snd r)]))
                 (sort_by_date bar (dated data_resp)))).
Proof.
  unfold wrangle_ohlcv_resp; simpl; intros H.
  apply filter_In in H as [H _]; apply filter_In in H as [H _]; exact H.
Qed.

Section SortedTable.
Hypothesis sort_by_date_sorts : sorts_by_date sort_by_date.

(** The sorted table holds the bars of the page set under their dates. *)
Lemma sorted_dated_In (data_resp : list bar) (r : Z * bar) :
  In r (sort_by_date bar (dated data_resp))
  <-> In (snd r) data_resp /\ fst r = to_datetime_s (time (snd r)).
Proof.
  split.
  - intros H.
    apply (Permutation_in _ (Permutation_sym (proj1 (sort_by_date_sorts _ _)))) in H.
    apply in_map_iff in H as [b [<- Hb]]; auto.
  - intros [Hin Hfst].
    apply (Permutation_in _ (proj1 (sort_by_date_sorts _ _))).
    apply in_map_iff; exists (snd r); split; [|exact Hin].
    destruct r; simpl in *; congruence.
Qed.

(** The rows of the table: one for each bar that is first under its date
    in the sorted table and that the later steps let through. *)
Lemma wrangle_ohlcv_resp_In (data_req : DataRequest) (data_resp : list bar)
  (row : key * list num) :
  In row (rows (wrangle_ohlcv_resp to_timestamp sort_by_date data_req data_resp))
  <-> exists b,
        first_under (to_datetime_s (time b)) (sort_by_date bar (dated data_resp))
        = Some (to_datetime_s (time b), b)
        /\ survives to_timestamp data_req b = true
        /\ row = ohlcv_row b.
Proof.
  split.
  - intros H.
    rewrite wrangle_ohlcv_resp_rows in H.
    apply filter_In in H as [H Hw].
    unfold wrangle_ohlcv_resp in H; simpl in H.
    apply filter_In in H as [H Hnan].
    apply filter_In in H as [H Hzero].
    apply keep_first_first in H.
    rewrite find_map in H.
    destruct (find _ (sort_by_date _ _)) as [r0|] eqn:E; [|discriminate].
    simpl in H; injection H as <-.
    pose proof (find_some _ _ E) as [Hin _].
    apply sorted_dated_In in Hin as [_ Hfst].
    destruct r0 as [t b]; simpl in *; subst t.
    exists b; split; [|split; [|reflexivity]].
    + unfold first_under, dated; rewrite <- E.
      apply find_ext; intros a; unfold key_eqb; simpl; now rewrite andb_true_r.
    + unfold survives; apply andb_true_iff; split; [apply andb_true_iff; split|];
        [exact Hzero | exact Hnan | exact Hw].
  - intros [b [Hf [Hs ->]]].
    unfold survives in Hs.
    apply andb_true_iff in Hs as [Hs Hw].
    apply andb_true_iff in Hs as [Hzero Hnan].
    rewrite wrangle_ohlcv_resp_rows; apply filter_In; split; [|exact Hw].
    unfold wrangle_ohlcv_resp; simpl.
    apply filter_In; split; [|exact Hnan].
    apply filter_In; split; [|exact Hzero].
    apply (keep_first_complete (@fst key (list num))); [|reflexivity].
    rewrite find_map.
    rewrite find_ext with (q := fun r : Z * bar => fst r =? to_datetime_s (time b)).
    2:{ intros a; unfold key_eqb; simpl; now rewrite andb_true_r. }
    unfold first_under, dated in Hf; now rewrite Hf.
Qed.

Lemma wrangle_ohlcv_resp_increasing (data_req : DataRequest)
  (data_resp : list bar) :
  StronglySorted Z.lt
    (dates (wrangle_ohlcv_resp to_timestamp sort_by_date data_req data_resp)).
Proof.
  unfold dates, index; rewrite wrangle_ohlcv_resp_rows.
  rewrite map_map.
  apply (proj1 (StronglySorted_map Z.lt (fun r : key * list num => fst (fst r)) _)).
  apply StronglySorted_filter.
  unfold wrangle_ohlcv_resp; simpl.
  do 2 apply StronglySorted_filter.
  apply (keep_first_sorted (@fst key (list num))).
  - intros x Hx; apply in_map_iff in Hx as [r [<- _]]; reflexivity.
  - apply (proj1 (StronglySorted_map
             (fun a b : key * list num => fst (fst a) <= fst (fst b)) _ _)).
    simpl; apply sort_by_date_sorts.
Qed.

(** Every date of the page set has a first row in the sorted table, a bar
    of the page set of that time. *)
Lemma first_under_dated (data_resp : list bar) (b : bar) :
  In b data_resp ->
  exists b0, In b0 data_resp /\ time b0 = time b
             /\ first_under (to_datetime_s (time b))
                            (sort_by_date bar (dated data_resp))
                = Some (to_datetime_s (time b), b0).
Proof.
  intros Hin.
  destruct (find_In_some (fun r : Z * bar => fst r =? to_datetime_s (time b))
              (sort_by_date bar (dated data_resp)) (to_datetime_s (time b), b))
    as [r0 Hf].
  { apply sorted_dated_In; auto. }
  { apply Z.eqb_refl. }
  pose proof (find_some _ _ Hf) as [Hin0 Ht].
  apply sorted_dated_In in Hin0 as [Hin0 Hfst].
  apply Z.eqb_eq in Ht.
  destruct r0 as [t b0]; simpl in *; subst t.
  exists b0; split; [exact Hin0|].
  split; [now apply to_datetime_s_inj|].
  unfold first_under; now rewrite Hf, <- Ht.
Qed.

(** C7. For every accumulated page set of one symbol, whatever order the
    sort leaves rows of equal date in, the table [wrangle_ohlcv_resp]
    returns has strictly increasing timestamps; each of its rows is made of
    the bar that comes first under its timestamp in the date-sorted table;
    and a timestamp of the page set has exactly one row when that first bar
    has a non-zero close, no NaN cell and a date within the bounds the
    request supplies, and no row otherwise. *)
Theorem wrangle_ohlcv_resp_first_occurrences
  (data_req : DataRequest) (data_resp : list bar) :
  let sorted := sort_by_date bar (dated data_resp) in
  let out := wrangle_ohlcv_resp to_timestamp sort_by_date data_req data_resp in
  StronglySorted Z.lt (dates out)
  /\ (forall row, In row (rows out) ->
        exists b, In b data_resp
                  /\ first_under (fst (fst row)) sorted = Some (fst (fst row), b)
                  /\ row = ohlcv_row b)
  /\ (forall b, In b data_resp ->
        exists b0, In b0 data_resp /\ time b0 = time b
                   /\ first_under (to_datetime_s (time b)) sorted
                      = Some (to_datetime_s (time b), b0)
                   /\ count_occ Z.eq_dec (dates out) (to_datetime_s (time b))
                      = if survives to_timestamp data_req b0 then 1%nat else 0%nat).
Proof.
  intros sorted out.
  pose proof (wrangle_ohlcv_resp_increasing data_req data_resp) as Hsorted.
  fold out in Hsorted.
  split; [exact Hsorted|].
  split.
  - intros row Hrow.
    apply wrangle_ohlcv_resp_In in Hrow as [b [Hf [_ ->]]].
    exists b; split; [|split; [exact Hf | reflexivity]].
    apply find_some in Hf as [Hin _].
    now apply sorted_dated_In in Hin as [Hin _].
  - intros b Hb.
    destruct (first_under_dated data_resp b Hb) as [b0 [Hin0 [Ht Hf]]].
    exists b0; split; [exact Hin0|]. split; [exact Ht|]. split; [exact Hf|].
    destruct (survives to_timestamp data_req b0) eqn:Hs.
    + apply NoDup_count_occ'; [now apply StronglySorted_lt_NoDup|].
      unfold dates, index; rewrite map_map.
      apply in_map_iff; exists (ohlcv_row b0); split.
      * simpl; now rewrite Ht.
      * apply wrangle_ohlcv_resp_In; exists b0.
        rewrite Ht; auto.
    + apply count_occ_not_In; intros Hin.
      unfold dates, index in Hin; rewrite map_map in Hin.
      apply in_map_iff in Hin as [row [Hd Hrow]].
      apply wrangle_ohlcv_resp_In in Hrow as [b1 [Hf1 [Hs1 ->]]].
      simpl in Hd; rewrite Hd in Hf1.
      unfold sorted in Hf; rewrite Hf in Hf1.
      injection Hf1 as Heq; congruence.
Qed.

End SortedTable.

(** C6. The rows [wrangle_ohlcv_resp] returns are the rows of the
    unclipped table that lie within the bounds the request supplies, a
    missing bound clipping nothing; with both [start_date] and [end_date]
    set, every timestamp of the table lies between them, bounds included. *)
Theorem wrangle_ohlcv_resp_window
  (data_req : DataRequest) (data_resp : list bar) :
  let out := wrangle_ohlcv_resp to_timestamp sort_by_date data_req data_resp in
  rows out
  = filter (within to_timestamp data_req)
      (rows (wrangle_ohlcv_resp to_timestamp sort_by_date (without_bounds data_req) data_resp))
  /\ forall sd ed,
       start_date data_req = Some sd ->
       end_date data_req = Some ed ->
       Forall (fun t => to_timestamp sd <= t <= to_timestamp ed) (dates out).
Proof.
  intros out; split; [apply wrangle_ohlcv_resp_rows|].
  intros sd ed Hs He.
  unfold out, dates, index; rewrite wrangle_ohlcv_resp_rows.
  rewrite map_map; apply Forall_map, Forall_forall; intros r Hr.
  apply filter_In in Hr as [_ Hr].
  unfold within in Hr; rewrite Hs, He in Hr.
  apply andb_true_iff in Hr as [H1 H2].
  apply Z.leb_le in H1, H2; lia.
Qed.

End Normalizer.

(** ** The parameter translator *)

Section Translator.
Variable convert_datetime_to_unix_tmsp : datelike -> Z.
Variables (now : Z) (utcnow : datelike).

(** Whatever the frequency, the translated start is the conversion of the
    requested start, or of 2010-01-01 when there is none: the assignment of
    the past week is overwritten. *)
Lemma convert_data_req_params_start_date (data_req : DataRequest) :
  cc_start_date (convert_data_req_params convert_datetime_to_unix_tmsp now utcnow data_req)
  = convert_datetime_to_unix_tmsp
      match start_date data_req with
      | None => DateStr "2010-01-01"
      | Some sd => sd
      end.
Proof. unfold convert_data_req_params; simpl; now destruct (start_date data_req). Qed.

Lemma convert_data_req_params_minute (data_req : DataRequest) :
  last_chars 3 (token (freq data_req)) = "min" ->
  cc_frequency (convert_data_req_params convert_datetime_to_unix_tmsp now utcnow data_req)
  = "histominute".
Proof. intros H; unfold convert_data_req_params; simpl; now rewrite H. Qed.
End Translator.

(** C1. A one-minute request that asks for data from 2015-01-01, translated
    on 2022-06-01: the vendor interval is the minute one, and the start handed
    on is 2015-01-01, not the instant seven days before now. *)
Theorem minute_start_date_not_clamped :
  let data_req :=
    {| tickers := ["btc"]; freq := Min1; quote_ccy := None; exch := None;
       start_date := Some (DateStr "2015-01-01"); end_date := None;
       fields := ["close"]; trials := Some 3; pause := Some (1 # 10) |} in
  let cc := convert_data_req_params utc_unix_tmsp a_now a_utcnow data_req in
  cc_frequency cc = "histominute"
  /\ cc_start_date cc = 1420070400
  /\ a_now - seven_days = 1653436800
  /\ cc_start_date cc <> a_now - seven_days.
Proof. repeat split; vm_compute; discriminate. Qed.

(** ** The paginated fetch engine *)

Section Engine.
Variable max_obs_per_call : Z.

Local Abbreviation pages := (ohlcv_pages max_obs_per_call).
Local Abbreviation get cc ticker cursor :=
  (Get (histo_call max_obs_per_call cc ticker cursor)).







End Engine.

(** ** Frames *)

Lemma in_strs_In (c : string) (l : list string) : in_strs c l = true <-> In c l.
Proof.
  unfold in_strs; rewrite existsb_exists; split.
  - intros [x [Hx E]]; apply String.eqb_eq in E; now subst.
  - intros H; exists c; split; [exact H | apply String.eqb_refl].
Qed.


Lemma empty_false (df : frame) :
  empty df = false <-> columns df <> [] /\ rows df <> [].
Proof.
  unfold empty; destruct (columns df), (rows df); split;
    try discriminate; try (intros [? ?]; congruence); split; discriminate.
Qed.

Lemma union_columns_nil_l (c : list string) : union_columns [] c = c.
Proof. unfold union_columns; simpl; apply filter_true. Qed.

Lemma filter_none {A : Type} (p : A -> bool) (l : list A) :
  (forall x, In x l -> p x = false) -> filter p l = [].
Proof.
  induction l as [|x l IH]; intros H; simpl; [reflexivity|].
  rewrite (H x (or_introl eq_refl)); apply IH; intros; apply H; now right.
Qed.

Lemma union_columns_same (c : list string) : union_columns c c = c.
Proof.
  unfold union_columns; rewrite filter_none; [apply app_nil_r|].
  intros x Hx; apply negb_false_iff, in_strs_In, Hx.
Qed.



Lemma positions_from_nonempty (c : string) (cols : list string) (i : nat) :
  In c cols -> positions_from i c cols <> [].
Proof.
  revert i; induction cols as [|c' cols IH]; intros i H; [contradiction|].
  simpl; destruct (String.eqb c c') eqn:E; [discriminate|].
  destruct H as [->|H]; [now rewrite String.eqb_refl in E | now apply IH].
Qed.



(** A projection that returns keeps the rows, and has a column as soon as a
    label is asked for. *)
Lemma loc_columns_not_empty (df out : frame) (labels : list string) :
  loc_columns df labels = Ok out ->
  labels <> [] -> rows df <> [] -> empty out = false.
Proof.
  unfold loc_columns; intros H Hl Hr.
  destruct (find _ labels) eqn:F; [discriminate|].
  injection H as <-; apply empty_false; simpl; split.
  - destruct labels as [|c labels]; [congruence|].
    apply find_none with (x := c) in F; [|now left].
    apply negb_false_iff, in_strs_In in F.
    unfold select_positions; simpl.
    pose proof (positions_from_nonempty c (columns df) O F) as Hp.
    destruct (positions_from 0 c (columns df)); [congruence | discriminate].
  - destruct (rows df); [congruence | discriminate].
Qed.

Lemma sort_index_empty (df : frame) : empty (sort_index df) = empty df.
Proof.
  unfold empty, sort_index; simpl.
  destruct (columns df) as [|c cols]; [reflexivity|].
  destruct (rows df) as [|r rs] eqn:E; [reflexivity|].
  destruct (sort_by _ (r :: rs)) eqn:S; [|reflexivity].
  apply sort_by_nil in S; discriminate.
Qed.

(** ** The monad of runs *)

Lemma bind_inv {A B : Type} (c : run A) (k : A -> run B) (w : world)
  (res : outcome B) (w' : world) :
  bind c k w = Some (res, w') ->
  (exists a w1, c w = Some (Ok a, w1) /\ k a w1 = Some (res, w'))
  \/ (exists e, c w = Some (Raise e, w') /\ res = Raise e).
Proof.
  unfold bind; destruct (c w) as [[[a|e] w1]|]; intros H; [| |discriminate].
  - left; now exists a, w1.
  - right; injection H as <- <-; now exists e.
Qed.

Lemma bind_ok {A B : Type} (c : run A) (k : A -> run B) (w w1 : world) (a : A) :
  c w = Some (Ok a, w1) -> bind c k w = k a w1.
Proof. unfold bind; now intros ->. Qed.

Lemma try_fetch_eq (fetch : run frame) (df : frame) (w : world) :
  try_fetch fetch df w
  = match fetch w with
    | None => None
    | Some (Ok df0, w') => Some (Ok (concat_axis1 df df0), w')
    | Some (Raise e, w') => Some (Ok df, emit [Warning (Caught e)] w')
    end.
Proof.
  unfold try_fetch, try_except, bind, warn, ret.
  destruct (fetch w) as [[[df0|e] w']|]; reflexivity.
Qed.

(** ** The fetchers and the data-kind router *)

Section Router.
Variable convert_datetime_to_unix_tmsp : datelike -> Z.
Variable to_timestamp : datelike -> Z.
Variable sort_by_date : forall A : Type, list (Z * A) -> list (Z * A).
Variables (now : Z) (utcnow : datelike).
Variable max_obs_per_call : Z.

Local Abbreviation convert :=
  (convert_data_req_params convert_datetime_to_unix_tmsp now utcnow).
Local Abbreviation pages := (ohlcv_pages max_obs_per_call).
Local Abbreviation tickers_loop :=
  (ohlcv_tickers to_timestamp sort_by_date max_obs_per_call).
Local Abbreviation fetch_price :=
  (fetch_ohlcv convert_datetime_to_unix_tmsp to_timestamp sort_by_date now utcnow max_obs_per_call).
Local Abbreviation fetch_chain :=
  (fetch_onchain convert_datetime_to_unix_tmsp to_timestamp sort_by_date now utcnow max_obs_per_call).
Local Abbreviation merge :=
  (merged convert_datetime_to_unix_tmsp to_timestamp sort_by_date now utcnow max_obs_per_call).
Local Abbreviation fetch :=
  (fetch_data convert_datetime_to_unix_tmsp to_timestamp sort_by_date now utcnow max_obs_per_call).

Lemma wrangle_ohlcv_resp_columns (data_req : DataRequest) (data_resp : list bar) :
  columns (wrangle_ohlcv_resp to_timestamp sort_by_date data_req data_resp) = ohlcv_fields.
Proof.
  unfold wrangle_ohlcv_resp.
  destruct (start_date data_req), (end_date data_req); reflexivity.
Qed.

(** [fetch_ohlcv] returns the frame it started from or one with the five
    price columns. *)
Lemma ohlcv_tickers_columns (data_req : DataRequest) (cc : cc_data_req)
  (todo : list string) :
  forall df w out w',
    columns df = [] \/ columns df = ohlcv_fields ->
    tickers_loop data_req cc todo df w = Some (Ok out, w') ->
    columns out = [] \/ columns out = ohlcv_fields.
Proof.
  induction todo as [|ticker todo IH]; intros df w out w' Hdf H; simpl in H.
  - now injection H as <- <-.
  - destruct (ohlcv_pages _ _ _ _ _ _ _ _) as [[[[df0|e] script] lg]|];
      [| discriminate | discriminate].
    destruct df0 as [|b df0]; [now apply IH in H|].
    apply IH in H; [exact H|].
    right; simpl.
    assert (Hc : forall df1, columns df1 = ohlcv_fields ->
                 union_columns (columns df) (columns df1) = ohlcv_fields).
    { intros df1 ->; destruct Hdf as [-> | ->];
        [apply union_columns_nil_l | apply union_columns_same]. }
    apply Hc; destruct (1 <? List.length (tickers data_req))%nat; simpl;
      apply wrangle_ohlcv_resp_columns.
Qed.

Lemma fetch_ohlcv_columns (data_req : DataRequest) (w w' : world) (out : frame) :
  fetch_price data_req w = Some (Ok out, w') ->
  columns out = [] \/ columns out = ohlcv_fields.
Proof.
  unfold fetch_ohlcv; apply ohlcv_tickers_columns; now left.
Qed.

(** The field list always opens with the five price fields. *)
Lemma get_fields_inv (w w1 : world) (fields_list : list string) :
  get_fields w = Some (Ok fields_list, w1) ->
  firstn 5 fields_list = ohlcv_fields.
Proof.
  unfold get_fields, bind, catalog_data, get_catalog.
  destruct (catalog w) as [|[|[status|] message [data|]] rest];
    try discriminate.
  destruct data; try discriminate.
  unfold ret; intros H; injection H as <- _; reflexivity.
Qed.

(** The guarded fetches never raise. *)
Lemma merged_inv (data_req : DataRequest) (fields_list : list string)
  (w w' : world) (res : outcome frame) :
  merge data_req fields_list w = Some (res, w') -> exists df, res = Ok df.
Proof.
  unfold merged; intros H.
  apply bind_inv in H as [[df1 [w1 [H1 H2]]] | [e [H1 _]]].
  - destruct (existsb _ _) in H2.
    + rewrite try_fetch_eq in H2.
      destruct (fetch_onchain _ _ _ _ _ _ _ w1) as [[[df2|e] w2]|];
        [| | discriminate]; injection H2 as <- _; eauto.
    + injection H2 as <- _; eauto.
  - destruct (existsb _ _) in H1.
    + rewrite try_fetch_eq in H1.
      destruct (fetch_ohlcv _ _ _ _ _ _ _ w) as [[[df2|e'] w2]|]; discriminate.
    + discriminate.
Qed.

(** [fetch_data], once the field list is in and covers the request. *)
Lemma fetch_data_after_merge (data_req : DataRequest) (w w1 w2 : world)
  (fields_list : list string) (df : frame) :
  get_fields w = Some (Ok fields_list, w1) ->
  forallb (fun i => in_strs i fields_list) (fields data_req) = true ->
  merge data_req fields_list w1 = Some (Ok df, w2) ->
  fetch data_req w
  = if empty df
    then Some (Raise (Exception "Check data request parameters and try again."), w2)
    else match loc_columns df (fields data_req) with
         | Raise e => Some (Raise e, w2)
         | Ok out =>
             Some (Ok (sort_index (if (1 <? List.length (tickers data_req))%nat
                                   then sort_index out else out)), w2)
         end.
Proof.
  intros Hg Hall Hm; unfold fetch_data.
  rewrite (bind_ok _ _ _ _ _ Hg).
  change (cc_fields (convert data_req)) with (fields data_req).
  rewrite Hall; change (negb true) with false; cbv beta iota.
  rewrite (bind_ok _ _ _ _ _ Hm).
  destruct (empty df); [reflexivity|].
  unfold bind, of_outcome, ret.
  destruct (loc_columns df (fields data_req)); reflexivity.
Qed.

Lemma fetch_data_inv (data_req : DataRequest) (w w' : world) (res : outcome frame) :
  fetch data_req w = Some (res, w') ->
  (exists e, res = Raise e)
  \/ exists fields_list w1 df,
       get_fields w = Some (Ok fields_list, w1)
       /\ forallb (fun i => in_strs i fields_list) (fields data_req) = true
       /\ merge data_req fields_list w1 = Some (Ok df, w').
Proof.
  intros H; pose proof H as H0; unfold fetch_data in H.
  apply bind_inv in H as [[fl [w1 [Hg H]]] | [e [_ ->]]]; [|left; eauto].
  change (cc_fields (convert data_req)) with (fields data_req) in H.
  destruct (forallb _ (fields data_req)) eqn:Hall;
    [change (negb true) with false in H | change (negb false) with true in H];
    cbv beta iota in H;
    [|injection H as <- _; left; eauto].
  apply bind_inv in H as [[df [w2 [Hm H]]] | [e [_ ->]]]; [|left; eauto].
  right; exists fl, w1, df; repeat split; try assumption.
  rewrite (fetch_data_after_merge _ _ _ _ _ _ Hg Hall Hm) in H0.
  destruct (empty df); [now injection H0 as _ <-|].
  destruct (loc_columns df (fields data_req)); now injection H0 as _ <-.
Qed.




Lemma merged_eq (data_req : DataRequest) (fields_list : list string) :
  merge data_req fields_list
  = bind (if existsb (fun i => in_strs i (firstn 5 fields_list)) (fields data_req)
          then try_fetch (fetch_price data_req) DataFrame
          else ret DataFrame)
         (fun df =>
            if existsb (fun i => in_strs i (skipn 5 fields_list)) (fields data_req)
            then try_fetch (fetch_chain data_req) df
            else ret df).
Proof. reflexivity. Qed.




(** C5. [fetch_data] never returns an empty table: a table it returns has
    a column and a row; and when the frame merged from the two kinds is
    empty, the call raises the error that asks to check the request. *)
Theorem fetch_data_never_empty (data_req : DataRequest) (w : world) :
  (forall out w', fetch data_req w = Some (Ok out, w') -> empty out = false)
  /\ (forall fields_list w1 df w2,
        get_fields w = Some (Ok fields_list, w1) ->
        forallb (fun i => in_strs i fields_list) (fields data_req) = true ->
        merge data_req fields_list w1 = Some (Ok df, w2) ->
        empty df = true ->
        fetch data_req w
        = Some (Raise (Exception "Check data request parameters and try again."), w2)).
Proof.
  split.
  - intros out w' H.
    pose proof (fetch_data_inv _ _ _ _ H) as [[e He] | [fl [w1 [df [Hg [Hall Hm]]]]]];
      [discriminate|].
    rewrite (fetch_data_after_merge _ _ _ _ _ _ Hg Hall Hm) in H.
    destruct (empty df) eqn:E; [discriminate|].
    destruct (loc_columns df (fields data_req)) as [g|] eqn:L; [|discriminate].
    injection H as <-.
    rewrite sort_index_empty.
    assert (Hg' : empty g = false).
    { apply (loc_columns_not_empty df g (fields data_req) L).
      - intros Hnil; rewrite merged_eq, Hnil in Hm; simpl in Hm.
        injection Hm as <- _; discriminate.
      - apply empty_false in E; tauto. }
    destruct (1 <? List.length (tickers data_req))%nat;
      [now rewrite sort_index_empty | exact Hg'].
  - intros fl w1 df w2 Hg Hall Hm He.
    rewrite (fetch_data_after_merge _ _ _ _ _ _ Hg Hall Hm), He; reflexivity.
Qed.


End Router.

(** ** Runs on concrete requests *)

(** Two symbols, the first rate-limited three times, the second answered:
    the table holds the second symbol only. *)
Example fetch_ohlcv_partial_results :
  fetch_ohlcv utc_unix_tmsp utc_timestamp insertion_sort a_now a_utcnow 2000 two_symbols
    {| catalog := [];
       histo := [rate_limited; rate_limited; rate_limited;
                 success [price 1653955200 30000]];
       blockchain_histo := []; log := [] |}
  = Some
      (Ok {| columns := ohlcv_fields;
             rows := [((1653955200000000000, Some "BBB"),
                       [Num (30000 # 1); Num (30000 # 1); Num (30000 # 1);
                        Num (30000 # 1); Num 1])] |},
       {| catalog := []; histo := []; blockchain_histo := [];
          log :=
            [Get (Histo "histoday" "AAA" "USD" "CCCAGG" 2000 1654041600);
             Sleep (1 # 10); Warning (FailedAttempt "AAA" 1);
             Get (Histo "histoday" "AAA" "USD" "CCCAGG" 2000 1654041600);
             Sleep (1 # 10); Warning (FailedAttempt "AAA" 2);
             Get (Histo "histoday" "AAA" "USD" "CCCAGG" 2000 1654041600);
             Sleep (1 # 10); Warning (FailedAttempt "AAA" 3);
             Warning (FailedManyAttempts "AAA" "You are over your rate limit");
             Get (Histo "histoday" "BBB" "USD" "CCCAGG" 2000 1654041600)] |}).
Proof. vm_compute; reflexivity. Qed.





(** The window of C6 on six bars around the new year. *)
Lemma wrangle_ohlcv_resp_window_witness :
  Forall (fun t => utc_timestamp (DateStr "2020-01-01") <= t
                   <= utc_timestamp (DateStr "2020-01-03"))
         (dates (wrangle_ohlcv_resp utc_timestamp insertion_sort from_2020 around_new_year)).
Proof.
  apply (proj2 (wrangle_ohlcv_resp_window utc_timestamp insertion_sort from_2020 around_new_year)
               (DateStr "2020-01-01") (DateStr "2020-01-03") eq_refl eq_refl).
Defined.

(** The row of 2020-01-01, which two pages share and the window holds,
    appears once. *)
Lemma wrangle_ohlcv_resp_first_occurrences_witness :
  count_occ Z.eq_dec
    (dates (wrangle_ohlcv_resp utc_timestamp insertion_sort from_2020
              (first_page ++ second_page)))
    (to_datetime_s 1577836800)
  = 1%nat.
Proof.
  destruct (proj2 (proj2 (wrangle_ohlcv_resp_first_occurrences
                            utc_timestamp insertion_sort insertion_sort_sorts
                            from_2020 (first_page ++ second_page)))
                  (price 1577836800 7300))
    as [b0 [_ [_ [Hf Hc]]]].
  - simpl; auto.
  - vm_compute in Hf; injection Hf as Hb; subst b0; exact Hc.
Defined.

(** C7, as stated, fails on a boundary row outside the window: the request
    starts on 2020-01-02, the two pages share the bar of 2020-01-01, a bar
    with a price, and the table has no row for that timestamp, whichever of
    the two the sort puts first. *)
Lemma wrangle_ohlcv_resp_boundary_outside_window :
  let pages := first_page ++ second_page in
  let shared := to_datetime_s 1577836800 in
  filter (fun b => time b =? 1577836800) pages
  = [price 1577836800 7300; price 1577836800 7300]
  /\ count_occ Z.eq_dec
       (dates (wrangle_ohlcv_resp utc_timestamp insertion_sort from_jan_2 pages))
       shared
     = 0%nat
  /\ count_occ Z.eq_dec
       (dates (wrangle_ohlcv_resp utc_timestamp reversing_sort from_jan_2 pages))
       shared
     = 0%nat
  /\ dates (wrangle_ohlcv_resp utc_timestamp insertion_sort from_jan_2 pages)
     = [1577923200000000000; 1578009600000000000].
Proof. repeat split; vm_compute; reflexivity. Qed.

(** Which of two bars of one date is the first occurrence is up to the
    sort: of the two pages that overlap on 2020-01-01, a sort that keeps the
    fetch order among equal dates leaves the bar fetched first, one that does
    not leaves the bar fetched last. *)
Example wrangle_ohlcv_resp_tie_order :
  let first_of sort :=
    hd_error (rows (wrangle_ohlcv_resp utc_timestamp sort from_2020 revised_pages)) in
  first_of insertion_sort = Some (ohlcv_row (price 1577836800 7300))
  /\ first_of reversing_sort = Some (ohlcv_row (price 1577836800 7310)).
Proof. split; vm_compute; reflexivity. Qed.

(** The overlapping boundary row of the pages above appears once. *)
Example wrangle_ohlcv_resp_boundary_row :
  dates (wrangle_ohlcv_resp utc_timestamp insertion_sort from_2020
           (first_page ++ second_page ++ last_page))
  = [1577836800000000000; 1577923200000000000; 1578009600000000000].
Proof. vm_compute; reflexivity. Qed.



(** A daily price request answered with one bar: the table has a row. *)
Lemma fetch_data_never_empty_witness :
  exists out w',
    fetch_data utc_unix_tmsp utc_timestamp insertion_sort a_now a_utcnow 2000 btc_daily
      one_price_page
    = Some (Ok out, w')
    /\ empty out = false.
Proof.
  eexists; eexists; split; [vm_compute; reflexivity|].
  eapply (proj1 (fetch_data_never_empty utc_unix_tmsp utc_timestamp insertion_sort a_now a_utcnow
                   2000 btc_daily one_price_page)).
  vm_compute; reflexivity.
Defined.

(** The same request when every page fetch is rate-limited: nothing is
    gathered and the call raises. *)
Example fetch_data_nothing_gathered :
  fetch_data utc_unix_tmsp utc_timestamp insertion_sort a_now a_utcnow 2000 btc_daily
    {| catalog := [latest_listing]; histo := three_failures;
       blockchain_histo := []; log := [] |}
  = Some
      (Raise (Exception "Check data request parameters and try again."),
       {| catalog := []; histo := []; blockchain_histo := [];
          log :=
            Get (Catalog "blockchain/latest?fsym=BTC")
            :: retries (Get (Histo "histoday" "BTC" "USD" "CCCAGG" 2000 1654041600))
                       (1 # 10) "BTC" 0 three_failures |}).
Proof. vm_compute; reflexivity. Qed.



(** ** Construction *)

(** C8. A key over its rate limit: every catalogue call is answered with
    status 'Error' and an empty payload. The asset and index listings come
    out empty with a warning each; [get_markets] warns as well, then reads
    ['pairs'] from the payload, and the [KeyError] leaves the constructor. *)
Theorem construction_raises_on_failed_markets :
  __init__ (Some "key") None None None None None None
    {| catalog := [error_body; error_body; error_body; error_body;
                   error_body; error_body];
       histo := []; blockchain_histo := []; log := [] |}
  = Some
      (Raise (KeyError "pairs"),
       {| catalog := [error_body; error_body; error_body];
          histo := []; blockchain_histo := [];
          log := [Get (Catalog "all/coinlist"); Warning (FailedToGet "asset info");
                  Get (Catalog "index/list"); Warning (FailedToGet "index info");
                  Get (Catalog "v2/cccagg/pairs");
                  Warning (FailedToGet "index info")] |}).
Proof. vm_compute; reflexivity. Qed.

(** The assets listing alone does degrade as intended. *)
Example get_assets_degrades :
  get_assets {| catalog := [error_body]; histo := []; blockchain_histo := [];
                log := [] |}
  = Some (Ok [],
          {| catalog := []; histo := []; blockchain_histo := [];
             log := [Get (Catalog "all/coinlist");
                     Warning (FailedToGet "asset info")] |}).
Proof. vm_compute; reflexivity. Qed.

(** ** The request descriptor *)

Section Descriptor.
Variable strptime_ymd : string -> bool.
Variable all_timezones : list string.

(** The [tickers] and [source_fields] setters store lists and strings
    only. *)
Lemma tickers_setter_validates (v stored : Setters.pyval) :
  Setters.tickers_setter v = Ok stored -> exists items, stored = Setters.PyList items.
Proof. destruct v; simpl; intros H; try discriminate; injection H as <-; eauto. Qed.

Lemma source_fields_setter_validates (v stored : Setters.pyval) :
  Setters.source_fields_setter v = Ok stored ->
  stored = Setters.PyNone
  \/ (exists items, stored = Setters.PyList items)
  \/ exists s, stored = Setters.PyStr s.
Proof. destruct v; simpl; intros H; try discriminate; injection H as <-; eauto. Qed.

(** The [trials] setter stores [None] or an integer. *)
Lemma trials_setter_validates (v stored : Setters.pyval) :
  Setters.trials_setter v = Ok stored ->
  stored = Setters.PyNone
  \/ (exists z, stored = Setters.PyInt z)
  \/ exists b, stored = Setters.PyBool b.
Proof. destruct v; simpl; intros H; try discriminate; injection H as <-; eauto. Qed.

(** The [fields] setter stores whatever it is given. *)
Lemma fields_setter_stores (v : Setters.pyval) :
  exists stored, Setters.fields_setter v = Ok stored
                 /\ (Setters.is_str v = false -> stored = v).
Proof. destruct v; simpl; eexists; split; try reflexivity; try discriminate. Qed.

End Descriptor.

(** C9. [DataRequest(fields=42)]: the [fields] setter stores the integer,
    which is no list of field names, and construction succeeds with it;
    the [tickers] setter given the same value raises. *)
Theorem fields_setter_stores_invalid :
  Setters.fields_setter (Setters.PyInt 42) = Ok (Setters.PyInt 42)
  /\ Setters.valid_fields (Setters.PyInt 42) = false
  /\ (exists o,
        Setters.__init__ (fun _ => true) ["UTC"]
          (Setters.PyStr "btc") (Setters.PyStr "d") Setters.PyNone Setters.PyNone
          Setters.PyNone Setters.PyNone (Setters.PyInt 42) (Setters.PyStr "UTC")
          Setters.PyNone (Setters.PyInt 3) (Setters.PyFloat (Num (1 # 10)))
          Setters.PyNone Setters.PyNone Setters.PyNone
        = Ok o
        /\ Setters._fields o = Setters.PyInt 42)
  /\ Setters.tickers_setter (Setters.PyInt 42)
     = Raise (Exception "Tickers must be a string or list of symbols.").
Proof.
  repeat split.
  eexists; split; vm_compute; reflexivity.
Qed.

(** * Further properties *)

(** ** The parameter translator *)

Lemma upper_ascii_not_lowercase (c : ascii) : lowercase (upper_ascii c) = false.
Proof.
  unfold upper_ascii, lowercase.
  destruct ((97 <=? nat_of_ascii c) && (nat_of_ascii c <=? 122))%nat eqn:E.
  - apply andb_true_iff in E as [E1 E2].
    apply Nat.leb_le in E1, E2.
    rewrite nat_ascii_embedding by lia.
    apply andb_false_iff; left; apply Nat.leb_gt; lia.
  - exact E.
Qed.

Lemma upper_no_lowercase (s : string) : no_lowercase (upper s) = true.
Proof.
  induction s as [|c s IH]; simpl; [reflexivity|].
  now rewrite upper_ascii_not_lowercase, IH.
Qed.

(** X1. The vendor interval of a request: the minute interval for the five
    minute tokens, the hour interval for the four hour tokens, and the daily
    interval for every other token, tick, week and month included. *)
Theorem convert_data_req_params_frequency
  (convert_datetime_to_unix_tmsp : datelike -> Z) (now : Z) (utcnow : datelike)
  (data_req : DataRequest) :
  cc_frequency (convert_data_req_params convert_datetime_to_unix_tmsp now utcnow data_req)
  = match freq data_req with
    | Min1 | Min5 | Min10 | Min20 | Min30 => "histominute"
    | Hour1 | Hour2 | Hour4 | Hour8 => "histohour"
    | Tick | Day | Week | Month => "histoday"
    end.
Proof. unfold convert_data_req_params; simpl; now destruct (freq data_req). Qed.

(** X2. The translated tickers are the requested ones in order, none of
    them with a lower-case letter left, and so is the currency, which is USD
    when the request names none; the exchange is handed on as given, not
    upper-cased, and is CCCAGG when the request names none. *)
Theorem convert_data_req_params_casing
  (convert_datetime_to_unix_tmsp : datelike -> Z) (now : Z) (utcnow : datelike)
  (data_req : DataRequest) :
  let cc := convert_data_req_params convert_datetime_to_unix_tmsp now utcnow data_req in
  List.length (cc_tickers cc) = List.length (tickers data_req)
  /\ Forall2 (fun t t' => t' = upper t /\ no_lowercase t' = true)
             (tickers data_req) (cc_tickers cc)
  /\ no_lowercase (cc_currency cc) = true
  /\ cc_currency cc = upper match quote_ccy data_req with
                             | None => "USD"
                             | Some q => q
                             end
  /\ cc_exchange cc = match exch data_req with
                      | None => "CCCAGG"
                      | Some e => e
                      end.
Proof.
  unfold convert_data_req_params; simpl.
  split; [apply length_map|].
  split.
  - induction (tickers data_req) as [|t l IH]; simpl; constructor; auto.
    split; [reflexivity | apply upper_no_lowercase].
  - split; [apply upper_no_lowercase|]. split; reflexivity.
Qed.

(** ** The response normalizer *)

Lemma key_leb_le (a b : key) : key_leb a b = true -> fst a <= fst b.
Proof.
  unfold key_leb; intros H; apply orb_true_iff in H as [H|H].
  - apply Z.ltb_lt in H; lia.
  - apply andb_true_iff in H as [H _]; apply Z.eqb_eq in H; lia.
Qed.

Lemma key_leb_ge (a b : key) : key_leb a b = false -> fst b <= fst a.
Proof.
  unfold key_leb; intros H; apply orb_false_iff in H as [H _].
  apply Z.ltb_ge in H; exact H.
Qed.

Lemma sorted_le_NoDup_lt (l : list Z) :
  StronglySorted Z.le l -> NoDup l -> StronglySorted Z.lt l.
Proof.
  induction 1 as [|x l Hl IH Hx]; intros Hn; [constructor|].
  inversion Hn as [|? ? Hnin Hn']; subst.
  constructor; [now apply IH|].
  rewrite Forall_forall in *; intros y Hy.
  specialize (Hx y Hy); assert (x <> y) by (intros ->; contradiction); lia.
Qed.

Section NormalizerMore.
Variable to_timestamp : datelike -> Z.
Variable sort_by_date : forall A : Type, list (Z * A) -> list (Z * A).

(** X3. The table [wrangle_ohlcv_resp] returns carries no sentinel: every
    row has five cells, none of them NaN, and its close is not zero. *)
Theorem wrangle_ohlcv_resp_no_sentinel
  (data_req : DataRequest) (data_resp : list bar) :
  Forall (fun row => List.length (snd row) = 5%nat
                     /\ existsb is_nan (snd row) = false
                     /\ is_zero (nth 3 (snd row) NaN) = false)
         (rows (wrangle_ohlcv_resp to_timestamp sort_by_date data_req data_resp)).
Proof.
  apply Forall_forall; intros row Hrow.
  rewrite wrangle_ohlcv_resp_rows in Hrow.
  apply filter_In in Hrow as [Hrow _].
  unfold wrangle_ohlcv_resp in Hrow; simpl in Hrow.
  apply filter_In in Hrow as [Hrow Hnan].
  apply filter_In in Hrow as [Hrow Hzero].
  apply keep_first_In in Hrow as [Hrow _].
  apply in_map_iff in Hrow as [r [<- _]].
  simpl in *.
  split; [reflexivity|].
  split; [now apply negb_true_iff in Hnan | now apply negb_true_iff in Hzero].
Qed.

(** X4. Nothing else is dropped: a time of the page set all of whose bars
    have a non-zero close, no NaN cell and a date within the bounds the
    request supplies has a row in the table, made of one of those bars,
    whatever order the sort leaves them in. *)
Theorem wrangle_ohlcv_resp_complete
  (Hsort : sorts_by_date sort_by_date)
  (data_req : DataRequest) (data_resp : list bar) (b : bar)
  (Hin : In b data_resp)
  (Hall : forall x, In x data_resp -> time x = time b ->
                    survives to_timestamp data_req x = true) :
  exists x, In x data_resp /\ time x = time b
            /\ In (ohlcv_row x)
                  (rows (wrangle_ohlcv_resp to_timestamp sort_by_date data_req data_resp)).
Proof.
  destruct (first_under_dated sort_by_date Hsort data_resp b Hin)
    as [b0 [Hin0 [Ht Hf]]].
  exists b0; split; [exact Hin0|]. split; [exact Ht|].
  apply (wrangle_ohlcv_resp_In to_timestamp sort_by_date Hsort).
  exists b0; rewrite Ht; auto.
Qed.

End NormalizerMore.

(** The bar of 2020-01-01, which the two pages share. *)
Lemma wrangle_ohlcv_resp_complete_witness :
  exists x, In x (first_page ++ second_page) /\ time x = 1577836800
            /\ In (ohlcv_row x)
                  (rows (wrangle_ohlcv_resp utc_timestamp insertion_sort from_2020
                           (first_page ++ second_page))).
Proof.
  apply (wrangle_ohlcv_resp_complete utc_timestamp insertion_sort
           insertion_sort_sorts from_2020 (first_page ++ second_page)
           (price 1577836800 7300)).
  - simpl; auto.
  - intros x Hx Ht; simpl in Hx.
    repeat (destruct Hx as [<-|Hx];
            [first [discriminate Ht | vm_compute; reflexivity]|]).
    contradiction.
Defined.

Section OnchainNormalizer.
Variable to_timestamp : datelike -> Z.
Variable sort_by_date : forall A : Type, list (Z * A) -> list (Z * A).

(** The rows of the on-chain table, with the two clips as one filter. *)
Lemma wrangle_onchain_resp_rows (data_req : DataRequest)
  (data_resp : list chain_row) :
  rows (wrangle_onchain_resp to_timestamp sort_by_date data_req data_resp)
  = sort_by (fun r s => key_leb (fst r) (fst s))
      (map (fun r => ((fst r, Some (symbol (snd r))),
                      metric_cells (metric_columns data_resp) (snd r)))
         (filter (fun r => date_within to_timestamp data_req (fst r))
            (keep_first (fun r : Z * chain_row => (fst r, None)) []
               (sort_by_date chain_row (chain_dated data_resp))))).
Proof.
  unfold wrangle_onchain_resp, date_within, chain_dated; simpl.
  destruct (start_date data_req) as [sd|], (end_date data_req) as [ed|]; simpl.
  - now rewrite filter_filter_andb.
  - do 2 f_equal; apply filter_ext; intros r; now rewrite andb_true_r.
  - reflexivity.
  - now rewrite filter_true.
Qed.

Section SortedChainTable.
Hypothesis sort_by_date_sorts : sorts_by_date sort_by_date.

Lemma onchain_kept_sorted (data_req : DataRequest) (data_resp : list chain_row) :
  StronglySorted (fun a b : Z * chain_row => fst a < fst b)
    (filter (fun r => date_within to_timestamp data_req (fst r))
       (keep_first (fun r : Z * chain_row => (fst r, None)) []
          (sort_by_date chain_row (chain_dated data_resp)))).
Proof.
  apply StronglySorted_filter.
  apply (keep_first_sorted (fun r : Z * chain_row => (fst r, @None string))).
  - reflexivity.
  - simpl; apply sort_by_date_sorts.
Qed.

(** The sorted table holds the vendor rows under their dates. *)
Lemma sorted_chain_dated_In (data_resp : list chain_row) (r : Z * chain_row) :
  In r (sort_by_date chain_row (chain_dated data_resp))
  <-> In (snd r) data_resp /\ fst r = to_datetime_s (chain_time (snd r)).
Proof.
  split.
  - intros H.
    apply (Permutation_in _ (Permutation_sym (proj1 (sort_by_date_sorts _ _)))) in H.
    apply in_map_iff in H as [b [<- Hb]]; auto.
  - intros [Hin Hfst].
    apply (Permutation_in _ (proj1 (sort_by_date_sorts _ _))).
    apply in_map_iff; exists (snd r); split; [|exact Hin].
    destruct r; simpl in *; congruence.
Qed.

(** The rows of the table: one for each vendor row that is first under its
    date in the sorted table and lies within the bounds. *)
Lemma wrangle_onchain_resp_In (data_req : DataRequest)
  (data_resp : list chain_row) (row : key * list num) :
  In row (rows (wrangle_onchain_resp to_timestamp sort_by_date data_req data_resp))
  <-> exists r,
        first_under (to_datetime_s (chain_time r))
                    (sort_by_date chain_row (chain_dated data_resp))
        = Some (to_datetime_s (chain_time r), r)
        /\ date_within to_timestamp data_req (to_datetime_s (chain_time r)) = true
        /\ row = onchain_row (metric_columns data_resp) r.
Proof.
  rewrite wrangle_onchain_resp_rows, sort_by_In, in_map_iff.
  split.
  - intros [r0 [<- Hr]].
    apply filter_In in Hr as [Hr Hw].
    apply keep_first_first in Hr.
    pose proof (find_some _ _ Hr) as [Hin _].
    apply sorted_chain_dated_In in Hin as [_ Hfst].
    destruct r0 as [t r]; simpl in *; subst t.
    exists r; split; [|split; [exact Hw | reflexivity]].
    unfold first_under; rewrite <- Hr.
    apply find_ext; intros a; unfold key_eqb; simpl; now rewrite andb_true_r.
  - intros [r [Hf [Hw ->]]].
    exists (to_datetime_s (chain_time r), r); split; [reflexivity|].
    apply filter_In; split; [|exact Hw].
    apply (keep_first_complete (fun r : Z * chain_row => (fst r, @None string)));
      [|reflexivity].
    rewrite find_ext
      with (q := fun x : Z * chain_row => fst x =? to_datetime_s (chain_time r)).
    2:{ intros a; unfold key_eqb; simpl; now rewrite andb_true_r. }
    exact Hf.
Qed.

(** Every date of the page set has a first row in the sorted table, a
    vendor row of the page set of that time. *)
Lemma first_under_chain_dated (data_resp : list chain_row) (r : chain_row) :
  In r data_resp ->
  exists r0, In r0 data_resp /\ chain_time r0 = chain_time r
             /\ first_under (to_datetime_s (chain_time r))
                            (sort_by_date chain_row (chain_dated data_resp))
                = Some (to_datetime_s (chain_time r), r0).
Proof.
  intros Hin.
  destruct (find_In_some
              (fun x : Z * chain_row => fst x =? to_datetime_s (chain_time r))
              (sort_by_date chain_row (chain_dated data_resp))
              (to_datetime_s (chain_time r), r))
    as [x Hf].
  { apply sorted_chain_dated_In; auto. }
  { apply Z.eqb_refl. }
  pose proof (find_some _ _ Hf) as [Hin0 Ht].
  apply sorted_chain_dated_In in Hin0 as [Hin0 Hfst].
  apply Z.eqb_eq in Ht.
  destruct x as [t r0]; simpl in *; subst t.
  exists r0; split; [exact Hin0|].
  split; [now apply to_datetime_s_inj|].
  unfold first_under; now rewrite Hf, <- Ht.
Qed.

(** X5. The on-chain table of one symbol's page set, whatever order the
    sort leaves rows of equal date in: its columns are the metric columns of
    the pages, its timestamps are strictly increasing and lie within the
    bounds the request supplies, and each row is made of the vendor row that
    comes first under its date in the date-sorted table, labelled with that
    row's symbol. *)
Theorem wrangle_onchain_resp_table
  (data_req : DataRequest) (data_resp : list chain_row) :
  let sorted := sort_by_date chain_row (chain_dated data_resp) in
  let out := wrangle_onchain_resp to_timestamp sort_by_date data_req data_resp in
  columns out = metric_columns data_resp
  /\ StronglySorted Z.lt (dates out)
  /\ Forall (fun t => date_within to_timestamp data_req t = true) (dates out)
  /\ forall row, In row (rows out) ->
       exists r, In r data_resp
                 /\ first_under (fst (fst row)) sorted = Some (fst (fst row), r)
                 /\ row = onchain_row (metric_columns data_resp) r.
Proof.
  intros sorted out.
  split; [reflexivity|].
  pose proof (onchain_kept_sorted data_req data_resp) as Hkept.
  set (kept := filter _ _) in Hkept.
  assert (Hrows : rows out
                  = sort_by (fun r s => key_leb (fst r) (fst s))
                      (map (fun r : Z * chain_row =>
                              ((fst r, Some (symbol (snd r))),
                               metric_cells (metric_columns data_resp) (snd r)))
                           kept))
    by apply wrangle_onchain_resp_rows.
  split; [|split].
  - unfold dates, index; rewrite Hrows, map_map.
    apply sorted_le_NoDup_lt.
    + apply (proj1 (StronglySorted_map Z.le
                      (fun r : key * list num => fst (fst r)) _)).
      apply (sort_by_sorted_by_date _ (fun r : key * list num => fst (fst r))).
      * intros x y; apply key_leb_le.
      * intros x y; apply key_leb_ge.
    + eapply Permutation_NoDup.
      * apply Permutation_map, sort_by_Permutation.
      * rewrite map_map; simpl.
        apply StronglySorted_lt_NoDup.
        apply (proj1 (StronglySorted_map Z.lt (@fst Z chain_row) _)), Hkept.
  - unfold dates, index; rewrite Hrows, map_map.
    apply Forall_map, Forall_forall; intros row Hrow.
    apply sort_by_In, in_map_iff in Hrow as [r [<- Hr]].
    apply filter_In in Hr as [_ Hr]; exact Hr.
  - intros row Hrow.
    apply wrangle_onchain_resp_In in Hrow as [r [Hf [_ ->]]].
    exists r; split; [|split; [exact Hf | reflexivity]].
    apply find_some in Hf as [Hin _].
    now apply sorted_chain_dated_In in Hin as [Hin _].
Qed.

(** X6. The on-chain table has no sentinel filter: a vendor row whose date
    lies within the bounds the request supplies has its time in the table,
    on a row made of a vendor row of that time, whatever the metrics hold. *)
Theorem wrangle_onchain_resp_complete
  (data_req : DataRequest) (data_resp : list chain_row) (r : chain_row)
  (Hin : In r data_resp)
  (Hwithin : date_within to_timestamp data_req (to_datetime_s (chain_time r)) = true) :
  exists r0, In r0 data_resp /\ chain_time r0 = chain_time r
             /\ In (onchain_row (metric_columns data_resp) r0)
                   (rows (wrangle_onchain_resp to_timestamp sort_by_date
                            data_req data_resp)).
Proof.
  destruct (first_under_chain_dated data_resp r Hin) as [r0 [Hin0 [Ht Hf]]].
  exists r0; split; [exact Hin0|]. split; [exact Ht|].
  apply wrangle_onchain_resp_In.
  exists r0; rewrite Ht; auto.
Qed.

End SortedChainTable.
End OnchainNormalizer.

(** The all-zero row of 2020-01-01 is kept. *)
Lemma wrangle_onchain_resp_complete_witness :
  exists r0, In r0 chain_days /\ chain_time r0 = 1577836800
             /\ In (onchain_row (metric_columns chain_days) r0)
                   (rows (wrangle_onchain_resp utc_timestamp insertion_sort
                            from_2020 chain_days)).
Proof.
  apply (wrangle_onchain_resp_complete utc_timestamp insertion_sort
           insertion_sort_sorts from_2020 chain_days
           {| id := 1; symbol := "BTC"; chain_time := 1577836800;
              metrics := [("active_addresses", Num 0); ("hashrate", Num 0)] |}).
  - simpl; auto.
  - reflexivity.
Defined.

(** The table of [chain_days]: its timestamps increase. *)
Lemma wrangle_onchain_resp_table_witness :
  StronglySorted Z.lt
    (dates (wrangle_onchain_resp utc_timestamp insertion_sort from_2020 chain_days)).
Proof.
  apply (wrangle_onchain_resp_table utc_timestamp insertion_sort
           insertion_sort_sorts from_2020 chain_days).
Defined.

(** ** The paginated fetch engine, further *)

Section EngineMore.
Variable max_obs_per_call : Z.

Local Abbreviation pages := (ohlcv_pages max_obs_per_call).
Local Abbreviation get cc ticker cursor :=
  (Get (histo_call max_obs_per_call cc ticker cursor)).




(** X9. A body without the key 'Response', or a 'Success' body without
    data, is met once: with attempts to spare the loop of the symbol ends at
    that reply, the rows gathered before kept and the replies behind it left
    alone. *)
Theorem ohlcv_pages_schema_drift (cc : cc_data_req) (ticker : string)
  (trials : Z) (message : option string) (data : option (list bar))
  (rest : list (reply (list bar))) (cursor attempts : Z) (df0 : list bar)
  (log : list event)
  (Htrials : cc_trials cc = Some trials)
  (Hattempts : attempts < trials) :
  pages cc ticker (Answer None message data :: rest) cursor attempts df0 log
  = Some (Ok df0, rest,
          (log ++ [get cc ticker cursor]) ++ format_changed (KeyError "Response"))
  /\ pages cc ticker (Answer (Some "Success") message None :: rest)
           cursor attempts df0 log
     = Some (Ok df0, rest,
             (log ++ [get cc ticker cursor]) ++ format_changed (KeyError "Data")).
Proof.
  apply Z.ltb_lt in Hattempts.
  split; simpl; rewrite Htrials, Hattempts; reflexivity.
Qed.



(** What one run of the loop consumes and gathers. *)
Lemma run_spec_none (cc : cc_data_req) (ticker : string) script df0 log res :
  (forall out, res = Ok out -> out = df0) ->
  run_spec max_obs_per_call cc ticker script df0 log res script log.
Proof.
  intros H; exists [], []; simpl; rewrite !app_nil_r; repeat split; auto.
Qed.

Lemma no_get_filter (tail : list event) :
  existsb is_get tail = false -> filter is_get tail = [].
Proof.
  intros H; apply filter_none; intros ev Hev.
  destruct (is_get ev) eqn:E; [|reflexivity].
  assert (existsb is_get tail = true) by (apply existsb_exists; eauto).
  congruence.
Qed.

Lemma run_spec_stop (cc : cc_data_req) (ticker : string) r script (cursor : Z) df0 log res tail :
  existsb is_get tail = false ->
  (forall out, res = Ok out -> out = df0 ++ page_of r) ->
  run_spec max_obs_per_call cc ticker (r :: script) df0 log res script
           ((log ++ [get cc ticker cursor]) ++ tail).
Proof.
  intros Htail Ho.
  exists [r], (get cc ticker cursor :: tail); simpl.
  rewrite <- app_assoc; simpl.
  rewrite (no_get_filter tail Htail).
  repeat split; auto.
  - constructor; [intros _; eauto|].
    apply Forall_forall; intros ev Hev Hg.
    assert (existsb is_get tail = true) by (apply existsb_exists; eauto).
    congruence.
  - intros out E; rewrite app_nil_r; now apply Ho.
Qed.

Lemma run_spec_again (cc : cc_data_req) (ticker : string) r script (cursor : Z) df0 log res rest log' mid :
  existsb is_get mid = false ->
  run_spec max_obs_per_call cc ticker script (df0 ++ page_of r)
           ((log ++ [get cc ticker cursor]) ++ mid) res rest log' ->
  run_spec max_obs_per_call cc ticker (r :: script) df0 log res rest log'.
Proof.
  intros Hmid [used [es [-> [-> [Hlen [Hall Hout]]]]]].
  exists (r :: used), (get cc ticker cursor :: mid ++ es); simpl.
  rewrite <- !app_assoc; simpl.
  rewrite filter_app, (no_get_filter mid Hmid); simpl.
  repeat split; auto.
  - constructor; [intros _; eauto|].
    apply Forall_app; split; [|exact Hall].
    apply Forall_forall; intros ev Hev Hg.
    assert (existsb is_get mid = true) by (apply existsb_exists; eauto).
    congruence.
  - intros out E; rewrite (Hout out E), <- app_assoc; reflexivity.
Qed.

Lemma ohlcv_pages_run (cc : cc_data_req) (ticker : string)
  (script : list (reply (list bar))) :
  forall cursor attempts df0 log res rest log',
    pages cc ticker script cursor attempts df0 log = Some (res, rest, log') ->
    run_spec max_obs_per_call cc ticker script df0 log res rest log'.
Proof.
  induction script as [|r script IH]; intros cursor attempts df0 log res rest log' H.
  - simpl in H.
    destruct (cc_trials cc) as [n|]; [destruct (attempts <? n); [discriminate|]|];
      injection H as <- <- <-; apply run_spec_none; congruence.
  - simpl in H.
    destruct (cc_trials cc) as [n|];
      [|injection H as <- <- <-; apply run_spec_none; congruence].
    destruct (attempts <? n);
      [|injection H as <- <- <-; apply run_spec_none; congruence].
    assert (Hnil : forall l : list event, l = l ++ []) by (intros; now rewrite app_nil_r).
    destruct r as [|[status|] message [data|]].
    + injection H as <- <- <-; apply run_spec_stop; [reflexivity|].
      intros out E; injection E as <-; simpl; now rewrite app_nil_r.
    + destruct (String.eqb status "Success") eqn:Es.
      * assert (Hp : page_of (Answer (Some status) message (Some data)) = data)
          by (simpl; now rewrite Es).
        destruct (Z.of_nat (List.length data) <? max_obs_per_call + 1).
        { injection H as <- <- <-.
          rewrite (Hnil (log ++ [get cc ticker cursor])).
          apply run_spec_stop; [reflexivity | rewrite Hp; congruence]. }
        destruct data as [|first more].
        { injection H as <- <- <-.
          apply run_spec_stop; [reflexivity | rewrite Hp; congruence]. }
        destruct (is_zero (close first) || is_nan (close first)).
        { injection H as <- <- <-.
          rewrite (Hnil (log ++ [get cc ticker cursor])).
          apply run_spec_stop; [reflexivity | rewrite Hp; congruence]. }
        destruct (cc_pause cc) as [secs|].
        { destruct (negative secs).
          { injection H as <- <- <-.
            apply run_spec_stop; [reflexivity | rewrite Hp; congruence]. }
          apply run_spec_again with (cursor := cursor) (mid := [Sleep secs]);
            [reflexivity|].
          rewrite Hp; eapply IH; exact H. }
        injection H as <- <- <-.
        apply run_spec_stop; [reflexivity | rewrite Hp; congruence].
      * assert (Hp : page_of (Answer (Some status) message (Some data)) = [])
          by (simpl; now rewrite Es).
        destruct (cc_pause cc) as [secs|].
        2:{ injection H as <- <- <-.
            rewrite (Hnil (log ++ [get cc ticker cursor])).
            apply run_spec_stop; [reflexivity | discriminate]. }
        destruct (negative secs).
        { injection H as <- <- <-.
          rewrite (Hnil (log ++ [get cc ticker cursor])).
          apply run_spec_stop; [reflexivity | discriminate]. }
        destruct (attempts + 1 =? 3).
        { destruct message as [msg|]; injection H as <- <- <-.
          - rewrite <- (app_assoc (log ++ [get cc ticker cursor])).
            apply run_spec_stop; [reflexivity|].
            rewrite Hp, app_nil_r; congruence.
          - apply run_spec_stop; [reflexivity | discriminate]. }
        apply run_spec_again with (cursor := cursor)
          (mid := [Sleep secs; Warning (FailedAttempt ticker (attempts + 1))]);
          [reflexivity|].
        rewrite Hp, app_nil_r; eapply IH; exact H.
    + destruct (String.eqb status "Success") eqn:Es.
      * injection H as <- <- <-; apply run_spec_stop; [reflexivity|].
        intros out E; injection E as <-; simpl; now rewrite app_nil_r.
      * assert (Hp : page_of (Answer (Some status) message (@None (list bar))) = [])
          by reflexivity.
        destruct (cc_pause cc) as [secs|].
        2:{ injection H as <- <- <-.
            rewrite (Hnil (log ++ [get cc ticker cursor])).
            apply run_spec_stop; [reflexivity | discriminate]. }
        destruct (negative secs).
        { injection H as <- <- <-.
          rewrite (Hnil (log ++ [get cc ticker cursor])).
          apply run_spec_stop; [reflexivity | discriminate]. }
        destruct (attempts + 1 =? 3).
        { destruct message as [msg|]; injection H as <- <- <-.
          - rewrite <- (app_assoc (log ++ [get cc ticker cursor])).
            apply run_spec_stop; [reflexivity|].
            rewrite Hp, app_nil_r; congruence.
          - apply run_spec_stop; [reflexivity | discriminate]. }
        apply run_spec_again with (cursor := cursor)
          (mid := [Sleep secs; Warning (FailedAttempt ticker (attempts + 1))]);
          [reflexivity|].
        rewrite Hp, app_nil_r; eapply IH; exact H.
    + injection H as <- <- <-; apply run_spec_stop; [reflexivity|].
      intros out E; injection E as <-; simpl; now rewrite app_nil_r.
    + injection H as <- <- <-; apply run_spec_stop; [reflexivity|].
      intros out E; injection E as <-; simpl; now rewrite app_nil_r.
Qed.

(** X10. A run of the loop for one symbol uses up a prefix of the replies
    and only adds to the log; it logs one request for each reply it uses,
    and each of them is a price request for that symbol with the translated
    frequency, currency and exchange and the limit [max_obs_per_call]. *)
Theorem ohlcv_pages_requests (cc : cc_data_req) (ticker : string)
  (script : list (reply (list bar))) (cursor attempts : Z) (df0 : list bar)
  (log : list event) (res : outcome (list bar))
  (rest : list (reply (list bar))) (log' : list event)
  (Hrun : pages cc ticker script cursor attempts df0 log = Some (res, rest, log')) :
  exists used es,
    script = used ++ rest
    /\ log' = log ++ es
    /\ List.length (filter is_get es) = List.length used
    /\ Forall (fun ev => is_get ev = true ->
                         exists toTs, ev = get cc ticker toTs) es.
Proof.
  apply ohlcv_pages_run in Hrun as [used [es [H1 [H2 [H3 [H4 _]]]]]].
  now exists used, es.
Qed.

(** X11. When the loop for one symbol is left without an exception, the
    rows it hands on are the rows it held followed by the rows of the pages,
    replies with status 'Success' and data, among the replies it used, in
    the order they were fetched: no row is dropped or reordered. *)
Theorem ohlcv_pages_gathers (cc : cc_data_req) (ticker : string)
  (script : list (reply (list bar))) (cursor attempts : Z) (df0 : list bar)
  (log : list event) (out : list bar)
  (rest : list (reply (list bar))) (log' : list event)
  (Hrun : pages cc ticker script cursor attempts df0 log
          = Some (Ok out, rest, log')) :
  exists used,
    script = used ++ rest /\ out = df0 ++ flat_map page_of used.
Proof.
  apply ohlcv_pages_run in Hrun as [used [es [H1 [_ [_ [_ H5]]]]]].
  exists used; split; [exact H1 | now apply H5].
Qed.

End EngineMore.

(** ** The fetchers and the router, further *)

Lemma index_concat (df1 df2 : frame) :
  index (concat df1 df2) = index df1 ++ index df2.
Proof.
  unfold index, concat; simpl.
  rewrite map_app, !map_map; reflexivity.
Qed.

Lemma index_sort_index (df : frame) (k : key) :
  In k (index (sort_index df)) <-> In k (index df).
Proof.
  unfold index, sort_index; simpl; rewrite !in_map_iff.
  split; intros [r [Hr Hin]]; exists r; split; auto;
    now apply (sort_by_In (fun r s : key * list num => key_leb (fst r) (fst s))).
Qed.

Lemma Forall_index_sort_index (P : key -> Prop) (df : frame) :
  Forall P (index df) -> Forall P (index (sort_index df)).
Proof.
  rewrite !Forall_forall; intros H k Hk; now apply H, index_sort_index.
Qed.

Lemma Forall_index_concat_axis1 (P : key -> Prop) (df1 df2 : frame) :
  Forall P (index df1) -> Forall P (index df2) ->
  Forall P (index (concat_axis1 df1 df2)).
Proof.
  intros H1 H2; unfold index at 1, concat_axis1; simpl.
  rewrite map_map; simpl; rewrite map_id.
  unfold union_index; apply Forall_app; split; [exact H1|].
  rewrite Forall_forall in *; intros k Hk.
  apply filter_In in Hk as [Hk _]; now apply H2.
Qed.

Lemma index_loc_columns (df out : frame) (labels : list string) :
  loc_columns df labels = Ok out -> index out = index df.
Proof.
  unfold loc_columns; destruct (find _ labels); [discriminate|].
  intros H; injection H as <-; unfold index; simpl; now rewrite map_map.
Qed.

Section FetchMore.
Variable convert_datetime_to_unix_tmsp : datelike -> Z.
Variable to_timestamp : datelike -> Z.
Variable sort_by_date : forall A : Type, list (Z * A) -> list (Z * A).
Variables (now : Z) (utcnow : datelike).
Variable max_obs_per_call : Z.

Local Abbreviation convert :=
  (convert_data_req_params convert_datetime_to_unix_tmsp now utcnow).
Local Abbreviation tickers_loop :=
  (ohlcv_tickers to_timestamp sort_by_date max_obs_per_call).
Local Abbreviation chain_loop :=
  (onchain_tickers to_timestamp sort_by_date max_obs_per_call).
Local Abbreviation fetch_price :=
  (fetch_ohlcv convert_datetime_to_unix_tmsp to_timestamp sort_by_date now utcnow max_obs_per_call).
Local Abbreviation fetch_chain :=
  (fetch_onchain convert_datetime_to_unix_tmsp to_timestamp sort_by_date now utcnow max_obs_per_call).
Local Abbreviation merge :=
  (merged convert_datetime_to_unix_tmsp to_timestamp sort_by_date now utcnow max_obs_per_call).
Local Abbreviation fetch :=
  (fetch_data convert_datetime_to_unix_tmsp to_timestamp sort_by_date now utcnow max_obs_per_call).

(** The labels of the table grow by those of one symbol's frame at a time. *)
Lemma ohlcv_tickers_index (P : key -> Prop) (data_req : DataRequest)
  (cc : cc_data_req) (todo : list string) :
  (forall ticker df0,
      In ticker todo ->
      Forall P (index
                  (if (1 <? List.length (tickers data_req))%nat
                   then sort_index
                          (set_ticker ticker
                             (wrangle_ohlcv_resp to_timestamp sort_by_date data_req df0))
                   else wrangle_ohlcv_resp to_timestamp sort_by_date data_req df0))) ->
  forall df w out w',
    Forall P (index df) ->
    tickers_loop data_req cc todo df w = Some (Ok out, w') ->
    Forall P (index out).
Proof.
  induction todo as [|ticker todo IH]; intros Hone df w out w' Hdf H; simpl in H.
  - now injection H as <- <-.
  - assert (Hone' : forall t df0, In t todo ->
                    Forall P (index
                      (if (1 <? List.length (tickers data_req))%nat
                       then sort_index
                              (set_ticker t
                                 (wrangle_ohlcv_resp to_timestamp sort_by_date data_req df0))
                       else wrangle_ohlcv_resp to_timestamp sort_by_date data_req df0)))
      by (intros; apply Hone; now right).
    destruct (ohlcv_pages _ _ _ _ _ _ _ _) as [[[[df0|e] script] lg]|];
      [| discriminate | discriminate].
    destruct df0 as [|b df0]; [now apply (IH Hone') in H|].
    apply (IH Hone') in H; [exact H|].
    rewrite index_concat; apply Forall_app; split; [exact Hdf|].
    apply Hone; now left.
Qed.

Lemma wrangle_ohlcv_resp_index (data_req : DataRequest) (data_resp : list bar) :
  Forall (fun k => date_within to_timestamp data_req (fst k) = true
                   /\ snd k = None)
         (index (wrangle_ohlcv_resp to_timestamp sort_by_date data_req data_resp)).
Proof.
  unfold index; rewrite wrangle_ohlcv_resp_rows.
  apply Forall_map, Forall_forall; intros row Hrow.
  apply filter_In in Hrow as [Hrow Hw]; split; [exact Hw|].
  apply unclipped_rows, keep_first_In in Hrow as [Hrow _].
  apply in_map_iff in Hrow as [r [<- _]]; reflexivity.
Qed.

(** X12. The labels of the table of [fetch_ohlcv]: when the request names
    more than one ticker, every row is labelled with the upper-cased form of
    a requested ticker; when it names one, no row carries a ticker. *)
Theorem fetch_ohlcv_labels (data_req : DataRequest) (w w' : world) (out : frame)
  (Hrun : fetch_price data_req w = Some (Ok out, w')) :
  Forall (fun k =>
            if (1 <? List.length (tickers data_req))%nat
            then exists t, In t (tickers data_req) /\ snd k = Some (upper t)
            else snd k = None)
         (index out).
Proof.
  unfold fetch_ohlcv in Hrun.
  refine (ohlcv_tickers_index _ data_req _ _ _ DataFrame w out w' (Forall_nil _) Hrun).
  intros ticker df0 Hin.
  change (cc_tickers (convert data_req)) with (map upper (tickers data_req)) in Hin.
  apply in_map_iff in Hin as [t [<- Ht]].
  destruct (1 <? List.length (tickers data_req))%nat.
  - apply Forall_index_sort_index.
    unfold index, set_ticker; simpl; rewrite map_map; simpl.
    apply Forall_map, Forall_forall; intros r _; simpl; eauto.
  - eapply Forall_impl; [|apply wrangle_ohlcv_resp_index].
    simpl; intros k [_ Hk]; exact Hk.
Qed.

Lemma fetch_ohlcv_window (data_req : DataRequest) (w w' : world) (out : frame) :
  fetch_price data_req w = Some (Ok out, w') ->
  Forall (fun k => date_within to_timestamp data_req (fst k) = true) (index out).
Proof.
  unfold fetch_ohlcv; intros Hrun.
  refine (ohlcv_tickers_index _ data_req _ _ _ DataFrame w out w' (Forall_nil _) Hrun).
  intros ticker df0 _.
  assert (H : Forall (fun k => date_within to_timestamp data_req (fst k) = true)
                     (index (wrangle_ohlcv_resp to_timestamp sort_by_date data_req df0))).
  { eapply Forall_impl; [|apply wrangle_ohlcv_resp_index].
    simpl; intros k [Hk _]; exact Hk. }
  destruct (1 <? List.length (tickers data_req))%nat; [|exact H].
  apply Forall_index_sort_index.
  unfold index, set_ticker in *; simpl; rewrite map_map; simpl.
  rewrite Forall_map in *; exact H.
Qed.

Lemma onchain_tickers_index (P : key -> Prop) (data_req : DataRequest)
  (cc : cc_data_req) (todo : list string) :
  (forall df0, Forall P (index (wrangle_onchain_resp to_timestamp sort_by_date data_req df0))) ->
  forall df w out w',
    Forall P (index df) ->
    chain_loop data_req cc todo df w = Some (Ok out, w') ->
    Forall P (index out).
Proof.
  intros Hone.
  induction todo as [|ticker todo IH]; intros df w out w' Hdf H; simpl in H.
  - now injection H as <- <-.
  - destruct (onchain_pages _ _ _ _ _ _ _ _) as [[[[df0|e] script] lg]|];
      [| discriminate | discriminate].
    destruct df0 as [|b df0]; [now apply IH in H|].
    apply IH in H; [exact H|].
    rewrite index_concat; apply Forall_app; split; [exact Hdf | apply Hone].
Qed.

Lemma fetch_onchain_window (data_req : DataRequest) (w w' : world) (out : frame) :
  fetch_chain data_req w = Some (Ok out, w') ->
  Forall (fun k => date_within to_timestamp data_req (fst k) = true) (index out).
Proof.
  unfold fetch_onchain; intros H.
  destruct (negb _); [discriminate|].
  apply bind_inv in H as [[fl [w1 [_ H]]] | [e [_ He]]]; [|discriminate].
  destruct (negb _) in H; [discriminate|].
  refine (onchain_tickers_index _ data_req _ _ _ DataFrame w1 out w' (Forall_nil _) H).
  intros df0; unfold index.
  rewrite wrangle_onchain_resp_rows.
  apply Forall_map, Forall_forall; intros row Hrow.
  apply sort_by_In, in_map_iff in Hrow as [r [<- Hr]].
  apply filter_In in Hr as [_ Hr]; exact Hr.
Qed.

Lemma merged_index (P : key -> Prop) (data_req : DataRequest)
  (fields_list : list string) (w w' : world) (df : frame) :
  (forall w0 w1 df0, fetch_price data_req w0 = Some (Ok df0, w1) ->
                     Forall P (index df0)) ->
  (forall w0 w1 df0, fetch_chain data_req w0 = Some (Ok df0, w1) ->
                     Forall P (index df0)) ->
  merge data_req fields_list w = Some (Ok df, w') ->
  Forall P (index df).
Proof.
  intros Hprice Hchain; rewrite merged_eq; intros H.
  apply bind_inv in H as [[df1 [w1 [H1 H2]]] | [e [_ He]]]; [|discriminate].
  assert (Hdf1 : Forall P (index df1)).
  { destruct (existsb _ _) in H1.
    - rewrite try_fetch_eq in H1.
      destruct (fetch_ohlcv _ _ _ _ _ _ _ w) as [[[df0|e] w0]|] eqn:F;
        [| | discriminate]; injection H1 as <- _; [|constructor].
      apply Forall_index_concat_axis1; [constructor | eapply Hprice, F].
    - injection H1 as <- _; constructor. }
  destruct (existsb _ _) in H2.
  - rewrite try_fetch_eq in H2.
    destruct (fetch_onchain _ _ _ _ _ _ _ w1) as [[[df0|e] w0]|] eqn:F;
      [| | discriminate]; injection H2 as <- _; [|exact Hdf1].
    apply Forall_index_concat_axis1; [exact Hdf1 | eapply Hchain, F].
  - now injection H2 as <- _.
Qed.

(** What [fetch_data] returns, in terms of the merged frame. *)
Lemma fetch_data_returns (data_req : DataRequest) (w w' : world) (out : frame) :
  fetch data_req w = Some (Ok out, w') ->
  exists fields_list w1 df g,
    get_fields w = Some (Ok fields_list, w1)
    /\ merge data_req fields_list w1 = Some (Ok df, w')
    /\ empty df = false
    /\ loc_columns df (fields data_req) = Ok g
    /\ out = sort_index (if (1 <? List.length (tickers data_req))%nat
                         then sort_index g else g).
Proof.
  intros H.
  pose proof (fetch_data_inv _ _ _ _ _ _ _ _ _ _ H)
    as [[e He] | [fl [w1 [df [Hg [Hall Hm]]]]]]; [discriminate|].
  rewrite (fetch_data_after_merge _ _ _ _ _ _ _ _ _ _ _ _ Hg Hall Hm) in H.
  destruct (empty df) eqn:E; [discriminate|].
  destruct (loc_columns df (fields data_req)) as [g|] eqn:L; [|discriminate].
  injection H as <-.
  now exists fl, w1, df, g.
Qed.

(** X13. Every row of a table [fetch_data] returns, price bars and
    on-chain rows alike, has its timestamp within the bounds the request
    supplies. *)
Theorem fetch_data_window (data_req : DataRequest) (w w' : world) (out : frame)
  (Hrun : fetch data_req w = Some (Ok out, w')) :
  Forall (fun t => date_within to_timestamp data_req t = true) (dates out).
Proof.
  apply fetch_data_returns in Hrun as [fl [w1 [df [g [_ [Hm [_ [Hl ->]]]]]]]].
  unfold dates; rewrite Forall_map.
  apply Forall_index_sort_index.
  assert (Hg : Forall (fun k => date_within to_timestamp data_req (fst k) = true)
                      (index g)).
  { rewrite (index_loc_columns _ _ _ Hl).
    eapply merged_index; [| | exact Hm]; intros w0 w2 df0 F.
    - eapply fetch_ohlcv_window, F.
    - eapply fetch_onchain_window, F. }
  destruct (1 <? List.length (tickers data_req))%nat;
    [now apply Forall_index_sort_index | exact Hg].
Qed.

(** X14. A table [fetch_data] returns is in ascending order of date. *)
Theorem fetch_data_sorted_by_date (data_req : DataRequest) (w w' : world)
  (out : frame)
  (Hrun : fetch data_req w = Some (Ok out, w')) :
  StronglySorted Z.le (dates out).
Proof.
  apply fetch_data_returns in Hrun as [fl [w1 [df [g [_ [_ [_ [_ ->]]]]]]]].
  unfold dates, index, sort_index; simpl; rewrite map_map.
  apply (proj1 (StronglySorted_map Z.le (fun r : key * list num => fst (fst r)) _)).
  apply (sort_by_sorted_by_date _ (fun r : key * list num => fst (fst r))).
  - intros x y; apply key_leb_le.
  - intros x y; apply key_leb_ge.
Qed.

Lemma positions_from_not_in (c : string) (cols : list string) (i : nat) :
  ~ In c cols -> positions_from i c cols = [].
Proof.
  revert i; induction cols as [|c' cols IH]; intros i H; [reflexivity|].
  simpl; destruct (String.eqb c c') eqn:E.
  - apply String.eqb_eq in E; subst; exfalso; apply H; now left.
  - apply IH; intros Hin; apply H; now right.
Qed.

Lemma positions_from_single (c : string) (cols : list string) (i : nat) :
  NoDup cols -> In c cols -> exists j, positions_from i c cols = [j].
Proof.
  intros Hn; revert i; induction Hn as [|c' cols Hnin Hn IH]; intros i H;
    [contradiction|].
  simpl; destruct (String.eqb c c') eqn:E.
  - apply String.eqb_eq in E; subst c'.
    rewrite positions_from_not_in by exact Hnin; eauto.
  - destruct H as [->|H]; [now rewrite String.eqb_refl in E | now apply IH].
Qed.

Lemma select_positions_labels (labels cols : list string) :
  NoDup cols -> (forall c, In c labels -> In c cols) ->
  map fst (select_positions labels cols) = labels.
Proof.
  intros Hn; induction labels as [|c labels IH]; intros H; [reflexivity|].
  unfold select_positions in *; simpl; rewrite map_app, IH
    by (intros; apply H; now right).
  destruct (positions_from_single c cols O Hn (H c (or_introl eq_refl))) as [j ->].
  reflexivity.
Qed.

Lemma select_positions_In (labels cols : list string) (c : string) :
  (forall x, In x labels -> In x cols) ->
  In c (map fst (select_positions labels cols)) <-> In c labels.
Proof.
  intros H; unfold select_positions; rewrite in_map_iff; split.
  - intros [[c' i] [<- Hin]]; apply in_flat_map in Hin as [x [Hx Hin]].
    apply in_map_iff in Hin as [j [E _]]; injection E as <- _; exact Hx.
  - intros Hc.
    pose proof (positions_from_nonempty c cols O (H c Hc)) as Hp.
    destruct (positions_from 0 c cols) as [|j l] eqn:E; [congruence|].
    exists (c, j); split; [reflexivity|].
    apply in_flat_map; exists c; split; [exact Hc|].
    rewrite E; now left.
Qed.

(** X15. The columns of a table [fetch_data] returns carry the requested
    labels and no other, every row has one cell for each column, and when no
    requested field is an on-chain field the columns are the requested
    fields, in the requested order. *)
Theorem fetch_data_columns (data_req : DataRequest) (w w' : world) (out : frame)
  (Hrun : fetch data_req w = Some (Ok out, w')) :
  (forall c, In c (columns out) <-> In c (fields data_req))
  /\ Forall (fun row => List.length (snd row) = List.length (columns out))
            (rows out)
  /\ forall fields_list w1,
       get_fields w = Some (Ok fields_list, w1) ->
       existsb (fun i => in_strs i (skipn 5 fields_list)) (fields data_req) = false ->
       columns out = fields data_req.
Proof.
  apply fetch_data_returns in Hrun as [fl [w1 [df [g [Hg [Hm [He [Hl ->]]]]]]]].
  assert (Hcols : columns (sort_index (if (1 <? List.length (tickers data_req))%nat
                                       then sort_index g else g)) = columns g)
    by (now destruct (1 <? List.length (tickers data_req))%nat).
  assert (Hrows : forall row,
             In row (rows (sort_index (if (1 <? List.length (tickers data_req))%nat
                                       then sort_index g else g))) ->
             In row (rows g)).
  { intros row Hrow; unfold sort_index in Hrow; simpl in Hrow.
    apply sort_by_In in Hrow.
    destruct (1 <? List.length (tickers data_req))%nat; [|exact Hrow].
    simpl in Hrow; now apply sort_by_In in Hrow. }
  rewrite Hcols.
  unfold loc_columns in Hl.
  destruct (find _ (fields data_req)) eqn:F; [discriminate|].
  injection Hl as <-; cbn [columns rows].
  assert (Hin : forall x, In x (fields data_req) -> In x (columns df)).
  { intros x Hx; apply find_none with (x := x) in F; [|exact Hx].
    now apply negb_false_iff, in_strs_In in F. }
  split; [intros c; now apply select_positions_In|].
  split.
  - apply Forall_forall; intros row Hrow; apply Hrows in Hrow.
    apply in_map_iff in Hrow as [r [<- _]]; simpl; now rewrite !length_map.
  - intros fl' w1' Hg' Hno; rewrite Hg in Hg'; injection Hg' as <- <-.
    apply select_positions_labels; [|exact Hin].
    rewrite merged_eq, Hno in Hm.
    apply bind_inv in Hm as [[df1 [w2 [H1 H2]]] | [e [_ E]]]; [|discriminate].
    injection H2 as <- _.
    assert (Hc : columns df1 = [] \/ columns df1 = ohlcv_fields).
    { destruct (existsb _ _) in H1.
      - rewrite try_fetch_eq in H1.
        destruct (fetch_ohlcv _ _ _ _ _ _ _ w1) as [[[df0|e] w0]|] eqn:Fo;
          [| | discriminate]; injection H1 as <- _; [|now left].
        apply fetch_ohlcv_columns in Fo; exact Fo.
      - injection H1 as <- _; now left. }
    apply empty_false in He as [He _].
    destruct Hc as [Hc | ->]; [congruence|].
    repeat constructor; simpl; intuition discriminate.
Qed.

Lemma world_eta (w : world) :
  {| catalog := catalog w; histo := histo w;
     blockchain_histo := blockchain_histo w; log := log w |} = w.
Proof. now destruct w. Qed.

Lemma ohlcv_pages_no_trials (cc : cc_data_req) (ticker : string) (n : Z)
  (script : list (reply (list bar))) (cursor : Z) (df0 : list bar)
  (lg : list event) :
  cc_trials cc = Some n -> n <= 0 ->
  ohlcv_pages max_obs_per_call cc ticker script cursor 0 df0 lg
  = Some (Ok df0, script, lg).
Proof.
  intros Ht Hn; destruct script; simpl; rewrite Ht;
    replace (0 <? n) with false by (symmetry; apply Z.ltb_ge; lia); reflexivity.
Qed.

(** X16. With a retry count of zero or less no page is ever requested:
    [fetch_ohlcv] returns the empty frame and leaves the vendor and the log
    as they were. *)
Theorem fetch_ohlcv_without_trials (data_req : DataRequest) (n : Z) (w : world)
  (Htrials : trials data_req = Some n)
  (Hn : n <= 0) :
  fetch_price data_req w = Some (Ok DataFrame, w).
Proof.
  unfold fetch_ohlcv.
  generalize (cc_tickers (convert data_req)) as todo.
  induction todo as [|ticker todo IH]; [reflexivity|].
  simpl; rewrite (ohlcv_pages_no_trials _ _ n) by auto.
  rewrite world_eta; exact IH.
Qed.

(** X17. A retry count of [None], which the setter stores, makes the loop
    condition raise: with a ticker to fetch, [fetch_ohlcv] raises [TypeError]
    before any request. *)
Theorem fetch_ohlcv_trials_None (data_req : DataRequest) (w : world)
  (Htrials : trials data_req = None)
  (Htickers : tickers data_req <> []) :
  fetch_price data_req w = Some (Raise TypeError, w).
Proof.
  unfold fetch_ohlcv.
  change (cc_tickers (convert data_req)) with (map upper (tickers data_req)).
  destruct (tickers data_req) as [|t l]; [congruence|].
  simpl.
  assert (H : forall cc script cursor,
             cc_trials cc = None ->
             ohlcv_pages max_obs_per_call cc (upper t) script cursor 0 [] (log w)
             = Some (Raise TypeError, script, log w))
    by (intros cc script cursor E; destruct script; simpl; now rewrite E).
  rewrite H by exact Htrials.
  now rewrite world_eta.
Qed.

End FetchMore.

(** ** The catalogue getters, further *)

(** One call of a getter's opening: the next reply is used up, a request is
    logged, and a warning after it when the status is not 'Success'. *)
Lemma catalog_data_inv (path what : string) (w w1 : world) (res : outcome json) :
  catalog_data path what w = Some (res, w1) ->
  exists r rest ws,
    catalog w = r :: rest
    /\ catalog w1 = rest
    /\ histo w1 = histo w
    /\ blockchain_histo w1 = blockchain_histo w
    /\ log w1 = log w ++ Get (Catalog path) :: ws
    /\ filter is_get ws = []
    /\ (forall data, res = Ok data ->
          exists status message,
            r = Answer (Some status) message (Some data)
            /\ ws = if String.eqb status "Success" then []
                    else [Warning (FailedToGet what)]).
Proof.
  unfold catalog_data, get_catalog.
  destruct (catalog w) as [|r rest]; [discriminate|].
  destruct r as [|[status|] message [data|]]; intros H; injection H as <- <-.
  - exists Unreachable, rest, []; simpl; repeat split; auto; discriminate.
  - exists (Answer (Some status) message (Some data)), rest,
      (if String.eqb status "Success" then [] else [Warning (FailedToGet what)]).
    destruct (String.eqb status "Success") eqn:E; simpl;
      rewrite <- ?app_assoc; repeat split; auto;
      intros d Hd; injection Hd as <-; exists status, message; now rewrite E.
  - exists (Answer (Some status) message None), rest,
      (if String.eqb status "Success" then [] else [Warning (FailedToGet what)]).
    destruct (String.eqb status "Success") eqn:E; simpl;
      rewrite <- ?app_assoc; repeat split; auto; discriminate.
  - exists (Answer None message (Some data)), rest, []; simpl;
      repeat split; auto; discriminate.
  - exists (Answer None message None), rest, []; simpl;
      repeat split; auto; discriminate.
Qed.

(** X18. The field list [get_fields] returns is read off one reply that
    carries a payload object, whatever its status: the five price fields,
    then the keys of the payload after the fourth. The call uses up that
    reply alone, logs its request, and logs a warning after it exactly when
    the status is not 'Success'. *)
Theorem get_fields_returns (w w1 : world) (fields_list : list string)
  (Hrun : get_fields w = Some (Ok fields_list, w1)) :
  exists status message members,
    catalog w = Answer (Some status) message (Some (JObj members)) :: catalog w1
    /\ fields_list = ohlcv_fields ++ skipn 4 (map fst members)
    /\ histo w1 = histo w
    /\ blockchain_histo w1 = blockchain_histo w
    /\ log w1
       = log w ++ Get (Catalog "blockchain/latest?fsym=BTC")
                  :: if String.eqb status "Success" then []
                     else [Warning (FailedToGet "on-chain data info")].
Proof.
  unfold get_fields in Hrun.
  apply bind_inv in Hrun as [[data [w2 [Hc H]]] | [e [_ He]]]; [|discriminate].
  apply catalog_data_inv in Hc
    as [r [rest [ws [Hcat [Hrest [Hh [Hb [Hlog [_ Hdata]]]]]]]]].
  destruct (Hdata data eq_refl) as [status [message [-> ->]]].
  destruct data; try discriminate.
  injection H as <- <-.
  exists status, message, members; rewrite Hcat, Hrest; auto.
Qed.

Lemma tsyms_of_inv (pairs : list (string * json)) (mk : list (string * json)) :
  tsyms_of pairs = Ok mk ->
  Forall2 (fun p e => fst e = fst p /\ subscript (snd p) "tsyms" = Ok (snd e))
          pairs mk.
Proof.
  revert mk; induction pairs as [|[asset v] pairs IH]; intros mk H; simpl in H.
  - injection H as <-; constructor.
  - destruct (subscript v "tsyms") as [t|] eqn:E; [|discriminate].
    destruct (tsyms_of pairs) as [l|]; [|discriminate].
    injection H as <-; constructor; [split; [reflexivity | exact E] | now apply IH].
Qed.

(** X19. The markets [get_markets] returns: one entry for each key of the
    object under 'pairs' of the payload, in the order of the keys, holding
    what that pair has under 'tsyms'. *)
Theorem get_markets_returns (w w1 : world) (mk : list (string * json))
  (Hrun : get_markets w = Some (Ok mk, w1)) :
  exists status message members pairs,
    catalog w = Answer (Some status) message (Some (JObj members)) :: catalog w1
    /\ assoc "pairs" members = Some (JObj pairs)
    /\ Forall2 (fun p e => fst e = fst p /\ subscript (snd p) "tsyms" = Ok (snd e))
               pairs mk.
Proof.
  unfold get_markets in Hrun.
  apply bind_inv in Hrun as [[data [w2 [Hc H]]] | [e [_ He]]]; [|discriminate].
  apply catalog_data_inv in Hc
    as [r [rest [ws [Hcat [Hrest [_ [_ [_ [_ Hdata]]]]]]]]].
  destruct (Hdata data eq_refl) as [status [message [-> _]]].
  apply bind_inv in H as [[pairs [w3 [Hp H]]] | [e [_ He]]]; [|discriminate].
  unfold of_outcome in Hp; injection Hp as Hp <-.
  destruct data as [| | | |members]; try discriminate.
  simpl in Hp; destruct (assoc "pairs" members) as [v|] eqn:Ea; [|discriminate].
  injection Hp as ->.
  destruct pairs as [| | | |ps]; try discriminate.
  unfold of_outcome in H; injection H as H <-.
  exists status, message, members, ps; rewrite Hcat, Hrest.
  repeat split; auto; now apply tsyms_of_inv.
Qed.

Lemma getter_step {A : Type} (getter : run A) (path what : string)
  (k : json -> run A) :
  getter = bind (catalog_data path what) k ->
  (forall data w a w', k data w = Some (Ok a, w') -> w' = w) ->
  forall w a w',
    getter w = Some (Ok a, w') ->
    exists r ws,
      catalog w = r :: catalog w'
      /\ log w' = log w ++ Get (Catalog path) :: ws
      /\ filter is_get ws = [].
Proof.
  intros -> Hk w a w' H.
  apply bind_inv in H as [[data [w2 [Hc H]]] | [e [_ He]]]; [|discriminate].
  apply Hk in H; subst w'.
  apply catalog_data_inv in Hc as [r [rest [ws [Hcat [Hrest [_ [_ [Hlog [Hws _]]]]]]]]].
  exists r, ws; rewrite Hcat, Hrest; auto.
Qed.

Lemma as_records_world (data : json) (w w' : world)
  (a : list (string * list (string * json))) :
  as_records data w = Some (Ok a, w') -> w' = w.
Proof. unfold as_records; destruct (records data); intros H; now inversion H. Qed.

Lemma get_assets_step (w w' : world) (a : list string) :
  get_assets w = Some (Ok a, w') ->
  exists r ws, catalog w = r :: catalog w'
               /\ log w' = log w ++ Get (Catalog "all/coinlist") :: ws
               /\ filter is_get ws = [].
Proof.
  apply getter_step with (what := "asset info")
    (k := fun data => bind (as_records data) (fun recs => ret (map fst recs)));
    [reflexivity|].
  intros data w0 a0 w0' H.
  apply bind_inv in H as [[recs [w2 [Hr H]]] | [e [_ He]]]; [|discriminate].
  apply as_records_world in Hr; subst; now injection H.
Qed.

Lemma get_indexes_step (w w' : world) (a : list string) :
  get_indexes w = Some (Ok a, w') ->
  exists r ws, catalog w = r :: catalog w'
               /\ log w' = log w ++ Get (Catalog "index/list") :: ws
               /\ filter is_get ws = [].
Proof.
  apply getter_step with (what := "index info")
    (k := fun data => bind (as_records data) (fun recs => ret (map fst recs)));
    [reflexivity|].
  intros data w0 a0 w0' H.
  apply bind_inv in H as [[recs [w2 [Hr H]]] | [e [_ He]]]; [|discriminate].
  apply as_records_world in Hr; subst; now injection H.
Qed.

Lemma get_markets_step (w w' : world) (a : list (string * json)) :
  get_markets w = Some (Ok a, w') ->
  exists r ws, catalog w = r :: catalog w'
               /\ log w' = log w ++ Get (Catalog "v2/cccagg/pairs") :: ws
               /\ filter is_get ws = [].
Proof.
  apply getter_step with (what := "index info")
    (k := fun data_resp =>
            bind (of_outcome (subscript data_resp "pairs"))
                 (fun pairs => match pairs with
                               | JObj members => of_outcome (tsyms_of members)
                               | _ => fun _ => None
                               end));
    [reflexivity|].
  intros data w0 a0 w0' H.
  apply bind_inv in H as [[p [w2 [Hp H]]] | [e [_ He]]]; [|discriminate].
  unfold of_outcome in Hp; injection Hp as _ <-.
  destruct p; try discriminate; unfold of_outcome in H; now injection H.
Qed.

Lemma get_fields_step (w w' : world) (a : list string) :
  get_fields w = Some (Ok a, w') ->
  exists r ws, catalog w = r :: catalog w'
               /\ log w' = log w ++ Get (Catalog "blockchain/latest?fsym=BTC") :: ws
               /\ filter is_get ws = [].
Proof.
  apply getter_step with (what := "on-chain data info")
    (k := fun data_resp =>
            match data_resp with
            | JObj members => ret (ohlcv_fields ++ skipn 4 (map fst members))
            | _ => raise AttributeError
            end);
    [reflexivity|].
  intros data w0 a0 w0' H; destruct data; try discriminate; now injection H.
Qed.

Lemma get_exchanges_step (w w' : world) (a : list json) :
  get_exchanges w = Some (Ok a, w') ->
  exists r ws, catalog w = r :: catalog w'
               /\ log w' = log w ++ Get (Catalog "exchanges/general") :: ws
               /\ filter is_get ws = [].
Proof.
  apply getter_step with (what := "exchanges info")
    (k := fun data =>
            bind (as_records data)
                 (fun recs =>
                    if existsb (fun r => in_strs "Name" (map fst (snd r))) recs
                    then ret (map (fun r => match assoc "Name" (snd r) with
                                            | Some v => v
                                            | None => JNull
                                            end) recs)
                    else raise (KeyError "Name")));
    [reflexivity|].
  intros data w0 a0 w0' H.
  apply bind_inv in H as [[recs [w2 [Hr H]]] | [e [_ He]]]; [|discriminate].
  apply as_records_world in Hr; subst.
  destruct (existsb _ recs); [now injection H | discriminate].
Qed.

Lemma get_rate_limit_step (w w' : world)
  (a : list (string * list (string * json))) :
  get_rate_limit w = Some (Ok a, w') ->
  exists r ws, catalog w = r :: catalog w'
               /\ log w' = log w ++ Get (Catalog "stats/rate/limit") :: ws
               /\ filter is_get ws = [].
Proof.
  apply getter_step with (what := "rate limit info") (k := as_records);
    [reflexivity|].
  intros data w0 a0 w0' H; now apply as_records_world in H.
Qed.

(** X20. A construction that is given no catalogue and succeeds has made
    six catalogue requests, one reply used up for each, in the order assets,
    indexes, markets, fields, exchanges, rate limit; the field list it holds
    opens with the five price fields. *)
Theorem construction_requests (api_key : string) (w w' : world)
  (c : CryptoCompare)
  (Hrun : __init__ (Some api_key) None None None None None None w = Some (Ok c, w')) :
  exists es,
    log w' = log w ++ es
    /\ filter is_get es
       = [Get (Catalog "all/coinlist"); Get (Catalog "index/list");
          Get (Catalog "v2/cccagg/pairs");
          Get (Catalog "blockchain/latest?fsym=BTC");
          Get (Catalog "exchanges/general"); Get (Catalog "stats/rate/limit")]
    /\ List.length (catalog w) = (6 + List.length (catalog w'))%nat
    /\ firstn 5 (_fields c) = ohlcv_fields.
Proof.
  unfold __init__, or_get in Hrun.
  apply bind_inv in Hrun as [[a [w1 [H1 H]]] | [e [_ He]]]; [|discriminate].
  apply bind_inv in H as [[i [w2 [H2 H]]] | [e [_ He]]]; [|discriminate].
  apply bind_inv in H as [[mk [w3 [H3 H]]] | [e [_ He]]]; [|discriminate].
  apply bind_inv in H as [[f [w4 [H4 H]]] | [e [_ He]]]; [|discriminate].
  apply bind_inv in H as [[ex [w5 [H5 H]]] | [e [_ He]]]; [|discriminate].
  apply bind_inv in H as [[rl [w6 [H6 H]]] | [e [_ He]]]; [|discriminate].
  injection H as <- <-.
  pose proof (get_fields_inv _ _ _ H4) as Hf.
  apply get_assets_step in H1 as [r1 [ws1 [C1 [L1 G1]]]].
  apply get_indexes_step in H2 as [r2 [ws2 [C2 [L2 G2]]]].
  apply get_markets_step in H3 as [r3 [ws3 [C3 [L3 G3]]]].
  apply get_fields_step in H4 as [r4 [ws4 [C4 [L4 G4]]]].
  apply get_exchanges_step in H5 as [r5 [ws5 [C5 [L5 G5]]]].
  apply get_rate_limit_step in H6 as [r6 [ws6 [C6 [L6 G6]]]].
  eexists; split; [|split; [|split; [|exact Hf]]].
  - rewrite L6, L5, L4, L3, L2, L1, <- !app_assoc; reflexivity.
  - simpl; rewrite !filter_app; simpl; rewrite !filter_app; simpl.
    repeat (rewrite ?filter_app; simpl).
    rewrite G1, G2, G3, G4, G5, G6; reflexivity.
  - rewrite C1, C2, C3, C4, C5, C6; reflexivity.
Qed.

(** ** The request descriptor, further *)

Section DescriptorMore.
Variable strptime_ymd : string -> bool.
Variable all_timezones : list string.

Local Abbreviation date_setter := (Setters.date_setter strptime_ymd).
Local Abbreviation tz_setter := (Setters.tz_setter all_timezones).

Ltac by_cases v :=
  destruct v; simpl; intros H; try discriminate;
  try (injection H as <-; simpl; auto).

Lemma tickers_setter_stored (v x : Setters.pyval) :
  Setters.tickers_setter v = Ok x ->
  is_list x = true /\ Setters.tickers_setter x = Ok x.
Proof. by_cases v. Qed.

Lemma freq_setter_stored (v x : Setters.pyval) :
  Setters.freq_setter v = Ok x ->
  Setters.in_tokens x frequency_tokens = true /\ Setters.freq_setter x = Ok x.
Proof.
  unfold Setters.freq_setter.
  change ["tick"; "1min"; "5min"; "10min"; "20min"; "30min";
          "1h"; "2h"; "4h"; "8h"; "d"; "w"; "m"] with frequency_tokens.
  destruct (Setters.in_tokens v frequency_tokens) eqn:E; simpl;
    intros H; [|discriminate].
  injection H as <-; now rewrite E.
Qed.

Lemma optional_str_stored (what : string) (v x : Setters.pyval) :
  match v with
  | Setters.PyNone => Ok v
  | Setters.PyStr _ => Ok v
  | _ => Raise (Exception what)
  end = Ok x ->
  (is_none x || Setters.is_str x = true) /\ x = v.
Proof. by_cases v. Qed.

Lemma date_setter_stored (what : string) (v x : Setters.pyval) :
  date_setter what v = Ok x ->
  (is_none x || is_date strptime_ymd x = true) /\ date_setter what x = Ok x.
Proof.
  destruct v; simpl; intros H; try discriminate;
    try (injection H as <-; simpl; auto).
  destruct (strptime_ymd s) eqn:E; [|discriminate].
  injection H as <-; simpl; now rewrite E.
Qed.

Lemma fields_setter_again (v x : Setters.pyval) :
  Setters.fields_setter v = Ok x -> Setters.fields_setter x = Ok x.
Proof. by_cases v. Qed.

Lemma tz_setter_stored (v x : Setters.pyval) :
  tz_setter v = Ok x ->
  Setters.in_tokens x all_timezones = true /\ tz_setter x = Ok x.
Proof.
  unfold Setters.tz_setter.
  destruct (Setters.in_tokens v all_timezones) eqn:E; simpl;
    intros H; [|discriminate].
  injection H as <-; now rewrite E.
Qed.

Lemma cat_setter_stored (v x : Setters.pyval) :
  Setters.cat_setter v = Ok x ->
  (is_none x || Setters.in_tokens x category_tokens = true)
  /\ Setters.cat_setter x = Ok x.
Proof.
  unfold Setters.cat_setter.
  change ["crypto"; "fx"; "rates"; "equities"; "commodities"; "bonds";
          "credit"; "macro"; "alt"] with category_tokens.
  destruct v; try (intros H; injection H as <-; auto);
    destruct (Setters.in_tokens _ category_tokens) eqn:E;
    intros H; try discriminate; injection H as <-; rewrite E;
    split; auto; apply orb_true_r.
Qed.

Lemma trials_setter_stored (v x : Setters.pyval) :
  Setters.trials_setter v = Ok x ->
  (is_none x || is_int x = true) /\ Setters.trials_setter x = Ok x.
Proof. by_cases v. Qed.

Lemma pause_setter_stored (v x : Setters.pyval) :
  Setters.pause_setter v = Ok x ->
  (is_none x || is_float x = true) /\ Setters.pause_setter x = Ok x.
Proof. by_cases v. Qed.

Lemma source_tickers_setter_stored (v x : Setters.pyval) :
  Setters.source_tickers_setter v = Ok x ->
  (is_none x || is_list x = true) /\ Setters.source_tickers_setter x = Ok x.
Proof. by_cases v. Qed.

Lemma source_fields_setter_stored (v x : Setters.pyval) :
  Setters.source_fields_setter v = Ok x ->
  (is_none x || is_list x || Setters.is_str x = true)
  /\ Setters.source_fields_setter x = Ok x.
Proof. by_cases v. Qed.

(** The fourteen stored values of a construction that succeeds. *)
Lemma init_inv
  (a1 a2 a3 a4 a5 a6 a7 a8 a9 a10 a11 a12 a13 a14 : Setters.pyval)
  (o : Setters.object) :
  Setters.__init__ strptime_ymd all_timezones
    a1 a2 a3 a4 a5 a6 a7 a8 a9 a10 a11 a12 a13 a14 = Ok o ->
  Setters.tickers_setter a1 = Ok (Setters._tickers o)
  /\ Setters.freq_setter a2 = Ok (Setters._frequency o)
  /\ Setters.quote_ccy_setter a3 = Ok (Setters._quote_ccy o)
  /\ Setters.exch_setter a4 = Ok (Setters._exch o)
  /\ Setters.start_date_setter strptime_ymd a5 = Ok (Setters._start_date o)
  /\ Setters.end_date_setter strptime_ymd a6 = Ok (Setters._end_date o)
  /\ Setters.fields_setter a7 = Ok (Setters._fields o)
  /\ tz_setter a8 = Ok (Setters._timezone o)
  /\ Setters.cat_setter a9 = Ok (Setters._category o)
  /\ Setters.trials_setter a10 = Ok (Setters._trials o)
  /\ Setters.pause_setter a11 = Ok (Setters._pause o)
  /\ Setters.source_tickers_setter a12 = Ok (Setters._source_tickers o)
  /\ Setters.source_freq_setter a13 = Ok (Setters._source_freq o)
  /\ Setters.source_fields_setter a14 = Ok (Setters._source_fields o).
Proof.
  unfold Setters.__init__, Setters.and_then.
  destruct (Setters.tickers_setter a1); [|discriminate].
  destruct (Setters.freq_setter a2); [|discriminate].
  destruct (Setters.quote_ccy_setter a3); [|discriminate].
  destruct (Setters.exch_setter a4); [|discriminate].
  destruct (Setters.start_date_setter strptime_ymd a5); [|discriminate].
  destruct (Setters.end_date_setter strptime_ymd a6); [|discriminate].
  destruct (Setters.fields_setter a7); [|discriminate].
  destruct (Setters.tz_setter all_timezones a8); [|discriminate].
  destruct (Setters.cat_setter a9); [|discriminate].
  destruct (Setters.trials_setter a10); [|discriminate].
  destruct (Setters.pause_setter a11); [|discriminate].
  destruct (Setters.source_tickers_setter a12); [|discriminate].
  destruct (Setters.source_freq_setter a13); [|discriminate].
  destruct (Setters.source_fields_setter a14); [|discriminate].
  intros H; injection H as <-; simpl; repeat split.
Qed.

(** X21. A request that has been constructed holds an admissible value in
    every attribute other than [_fields]: the setters of those thirteen
    attributes store nothing else. *)
Theorem init_validates
  (a1 a2 a3 a4 a5 a6 a7 a8 a9 a10 a11 a12 a13 a14 : Setters.pyval)
  (o : Setters.object)
  (Hinit : Setters.__init__ strptime_ymd all_timezones
             a1 a2 a3 a4 a5 a6 a7 a8 a9 a10 a11 a12 a13 a14 = Ok o) :
  validated strptime_ymd all_timezones o = true.
Proof.
  apply init_inv in Hinit
    as [H1 [H2 [H3 [H4 [H5 [H6 [_ [H8 [H9 [H10 [H11 [H12 [H13 H14]]]]]]]]]]]]].
  unfold validated.
  apply tickers_setter_stored in H1 as [-> _].
  apply freq_setter_stored in H2 as [-> _].
  apply optional_str_stored in H3 as [-> _].
  apply optional_str_stored in H4 as [-> _].
  apply date_setter_stored in H5 as [-> _].
  apply date_setter_stored in H6 as [-> _].
  apply tz_setter_stored in H8 as [-> _].
  apply cat_setter_stored in H9 as [-> _].
  apply trials_setter_stored in H10 as [-> _].
  apply pause_setter_stored in H11 as [-> _].
  apply source_tickers_setter_stored in H12 as [-> _].
  apply optional_str_stored in H13 as [-> _].
  apply source_fields_setter_stored in H14 as [-> _].
  reflexivity.
Qed.

(** X22. Constructing a request from the attributes of a constructed
    request succeeds and gives the same request: each setter accepts what it
    has stored and stores it unchanged. *)
Theorem init_round_trip
  (a1 a2 a3 a4 a5 a6 a7 a8 a9 a10 a11 a12 a13 a14 : Setters.pyval)
  (o : Setters.object)
  (Hinit : Setters.__init__ strptime_ymd all_timezones
             a1 a2 a3 a4 a5 a6 a7 a8 a9 a10 a11 a12 a13 a14 = Ok o) :
  Setters.__init__ strptime_ymd all_timezones
    (Setters._tickers o) (Setters._frequency o) (Setters._quote_ccy o)
    (Setters._exch o) (Setters._start_date o) (Setters._end_date o)
    (Setters._fields o) (Setters._timezone o) (Setters._category o)
    (Setters._trials o) (Setters._pause o) (Setters._source_tickers o)
    (Setters._source_freq o) (Setters._source_fields o)
  = Ok o.
Proof.
  apply init_inv in Hinit
    as [H1 [H2 [H3 [H4 [H5 [H6 [H7 [H8 [H9 [H10 [H11 [H12 [H13 H14]]]]]]]]]]]]].
  apply tickers_setter_stored in H1 as [_ H1].
  apply freq_setter_stored in H2 as [_ H2].
  assert (H3' : Setters.quote_ccy_setter (Setters._quote_ccy o)
                = Ok (Setters._quote_ccy o))
    by (apply optional_str_stored in H3 as [H3 _];
        destruct (Setters._quote_ccy o); try discriminate; reflexivity).
  assert (H4' : Setters.exch_setter (Setters._exch o) = Ok (Setters._exch o))
    by (apply optional_str_stored in H4 as [H4 _];
        destruct (Setters._exch o); try discriminate; reflexivity).
  apply date_setter_stored in H5 as [_ H5].
  apply date_setter_stored in H6 as [_ H6].
  apply fields_setter_again in H7.
  apply tz_setter_stored in H8 as [_ H8].
  apply cat_setter_stored in H9 as [_ H9].
  apply trials_setter_stored in H10 as [_ H10].
  apply pause_setter_stored in H11 as [_ H11].
  apply source_tickers_setter_stored in H12 as [_ H12].
  assert (H13' : Setters.source_freq_setter (Setters._source_freq o)
                 = Ok (Setters._source_freq o))
    by (apply optional_str_stored in H13 as [H13 _];
        destruct (Setters._source_freq o); try discriminate; reflexivity).
  apply source_fields_setter_stored in H14 as [_ H14].
  unfold Setters.__init__, Setters.and_then.
  unfold Setters.start_date_setter, Setters.end_date_setter in *.
  rewrite H1, H2, H3', H4', H5, H6, H7, H8, H9, H10, H11, H12, H13', H14.
  now destruct o.
Qed.

End DescriptorMore.

(** X23. The frequency setter accepts a string exactly when it is one of
    the thirteen tokens of the frequencies the client translates, and then
    stores it as it is. *)
Theorem freq_setter_tokens (s : string) :
  Setters.freq_setter (Setters.PyStr s) = Ok (Setters.PyStr s)
  <-> exists f : frequency, token f = s.
Proof.
  split.
  - unfold Setters.freq_setter.
    destruct (Setters.in_tokens _ _) eqn:E; [intros _|discriminate].
    unfold Setters.in_tokens in E; apply in_strs_In in E; simpl in E.
    destruct E as [E|[E|[E|[E|[E|[E|[E|[E|[E|[E|[E|[E|[E|[]]]]]]]]]]]]]];
      [exists Tick | exists Min1 | exists Min5 | exists Min10 | exists Min20
       | exists Min30 | exists Hour1 | exists Hour2 | exists Hour4 | exists Hour8
       | exists Day | exists Week | exists Month]; exact E.
  - intros [f <-]; now destruct f.
Qed.

(** X24. The retry-count setter accepts [None] and integers and stores
    them as they are; any other value, strings included, raises
    [NameError] for the undefined name [trial]. *)
Theorem trials_setter_outcomes (v : Setters.pyval) :
  (is_none v || is_int v = true /\ Setters.trials_setter v = Ok v)
  \/ (is_none v || is_int v = false
      /\ Setters.trials_setter v = Raise (NameError "trial")).
Proof. destruct v; simpl; auto. Qed.

(** ** The setters of the data source *)

Lemma check_all_eq (allowed : list string) (what : string)
  (values out : list Setters.pyval) :
  Source.check_all allowed what values out
  = if forallb (fun x => Setters.in_tokens x allowed) values
    then Ok (out ++ values)
    else Raise (Exception what).
Proof.
  revert out; induction values as [|v values IH]; intros out; simpl.
  - now rewrite app_nil_r.
  - destruct (Setters.in_tokens v allowed); simpl; [|reflexivity].
    rewrite IH, <- app_assoc; reflexivity.
Qed.

Lemma list_setter_list (allowed : list string) (what : string)
  (items : list Setters.pyval) :
  Source.list_setter allowed what (Setters.PyList items)
  = Some (if forallb (fun x => Setters.in_tokens x allowed) items
          then Ok (Setters.PyList items)
          else Raise (Exception what)).
Proof.
  unfold Source.list_setter; rewrite check_all_eq.
  now destruct (forallb _ items).
Qed.

Lemma list_setter_str (allowed : list string) (what s : string) :
  Source.list_setter allowed what (Setters.PyStr s)
  = Some (if in_strs s allowed
          then Ok (Setters.PyList [Setters.PyStr s])
          else Raise (Exception what)).
Proof.
  change (Source.list_setter allowed what (Setters.PyStr s))
    with (Source.list_setter allowed what (Setters.PyList [Setters.PyStr s])).
  rewrite list_setter_list; simpl; now rewrite andb_true_r.
Qed.

(** X25. The setters of [categories], [market_types] and [frequencies]
    store a list as it is when every element is an allowed token and raise,
    storing nothing, as soon as one is not; a string is treated as the list
    of that one string. *)
Theorem list_setter_outcomes (allowed : list string) (what : string) :
  (forall items,
      Source.list_setter allowed what (Setters.PyList items)
      = Some (if forallb (fun x => Setters.in_tokens x allowed) items
              then Ok (Setters.PyList items)
              else Raise (Exception what)))
  /\ forall s,
       Source.list_setter allowed what (Setters.PyStr s)
       = Source.list_setter allowed what (Setters.PyList [Setters.PyStr s]).
Proof. split; [apply list_setter_list | reflexivity]. Qed.

(** X26. The data source and the request agree on frequencies and differ
    on categories: a string the [frequencies] setter of the source accepts
    is one the [freq] setter of the request accepts, and conversely; a
    category the source accepts is one the request accepts, but 'bonds',
    which the request accepts, is refused by the source. *)
Theorem source_and_request_tokens :
  (forall s,
      Source.frequencies_setter (Setters.PyStr s)
      = Some (Ok (Setters.PyList [Setters.PyStr s]))
      <-> Setters.freq_setter (Setters.PyStr s) = Ok (Setters.PyStr s))
  /\ (forall s,
        Source.categories_setter (Setters.PyStr s)
        = Some (Ok (Setters.PyList [Setters.PyStr s])) ->
        Setters.cat_setter (Setters.PyStr s) = Ok (Setters.PyStr s))
  /\ Setters.cat_setter (Setters.PyStr "bonds") = Ok (Setters.PyStr "bonds")
  /\ Source.categories_setter (Setters.PyStr "bonds")
     = Some (Raise (Exception "invalid category")).
Proof.
  split; [|split; [|split; reflexivity]].
  - intros s; unfold Source.frequencies_setter, Setters.freq_setter.
    rewrite list_setter_str; unfold Setters.in_tokens.
    destruct (in_strs s _); simpl; split; intros H;
      first [reflexivity | discriminate H].
  - intros s; unfold Source.categories_setter, Setters.cat_setter.
    rewrite list_setter_str; unfold Setters.in_tokens.
    destruct (in_strs s ["crypto"; "fx"; "rates"; "equities"; "commodities";
                         "credit"; "macro"; "alt"]) eqn:E; [intros _|discriminate].
    apply in_strs_In in E.
    rewrite (proj2 (in_strs_In s _)); [reflexivity|].
    simpl in *; intuition.
Qed.

(** ** Further runs on concrete requests *)




(** The two ways a negative pause ends a request of two symbols: after a
    full page the first symbol keeps that page and the second is fetched;
    after a failed status the exception leaves [fetch_ohlcv]. *)
Example fetch_ohlcv_negative_pause :
  fetch_ohlcv utc_unix_tmsp utc_timestamp insertion_sort a_now a_utcnow 2
    negative_pause
    {| catalog := []; histo := [success first_page; success last_page];
       blockchain_histo := []; log := [] |}
  = Some
      (Ok {| columns := ohlcv_fields;
             rows :=
               [((1577836800000000000, Some "BTC"),
                 [Num (7300 # 1); Num (7300 # 1); Num (7300 # 1); Num (7300 # 1);
                  Num 1]);
                ((1577923200000000000, Some "BTC"),
                 [Num (7000 # 1); Num (7000 # 1); Num (7000 # 1); Num (7000 # 1);
                  Num 1]);
                ((1578009600000000000, Some "BTC"),
                 [Num (7350 # 1); Num (7350 # 1); Num (7350 # 1); Num (7350 # 1);
                  Num 1]);
                ((1577577600000000000, Some "ETH"),
                 [Num (7100 # 1); Num (7100 # 1); Num (7100 # 1); Num (7100 # 1);
                  Num 1])] |},
       {| catalog := []; histo := []; blockchain_histo := [];
          log := [Get (Histo "histoday" "BTC" "USD" "CCCAGG" 2 1654041600);
                  Warning (Caught sleep_ValueError); Warning FormatChanged;
                  Get (Histo "histoday" "ETH" "USD" "CCCAGG" 2 1654041600)] |})
  /\ fetch_ohlcv utc_unix_tmsp utc_timestamp insertion_sort a_now a_utcnow 2
       negative_pause
       {| catalog := []; histo := [rate_limited; success last_page];
          blockchain_histo := []; log := [] |}
     = Some
         (Raise sleep_ValueError,
          {| catalog := []; histo := [success last_page]; blockchain_histo := [];
             log := [Get (Histo "histoday" "BTC" "USD" "CCCAGG" 2 1654041600)] |}).
Proof. split; vm_compute; reflexivity. Qed.

Lemma ohlcv_pages_schema_drift_witness :
  ohlcv_pages 2000
    (convert_data_req_params utc_unix_tmsp a_now a_utcnow btc_daily) "BTC"
    (Answer None None None :: [success [price 1653955200 30000]])
    1654041600 0 [] []
  = Some (Ok [], [success [price 1653955200 30000]],
          ([] ++ [Get (histo_call 2000
                         (convert_data_req_params utc_unix_tmsp a_now a_utcnow
                            btc_daily) "BTC" 1654041600)])
          ++ format_changed (KeyError "Response")).
Proof.
  apply (proj1 (ohlcv_pages_schema_drift 2000
                  (convert_data_req_params utc_unix_tmsp a_now a_utcnow btc_daily)
                  "BTC" 3 None None [success [price 1653955200 30000]]
                  1654041600 0 [] [] eq_refl eq_refl)).
Defined.

Lemma ohlcv_pages_requests_witness :
  exists rest log' used es,
    three_pages = used ++ rest
    /\ log' = [] ++ es
    /\ List.length (filter is_get es) = List.length used
    /\ Forall (fun ev => is_get ev = true ->
                         exists toTs,
                           ev = Get (histo_call 2
                                       (convert_data_req_params utc_unix_tmsp a_now
                                          a_utcnow from_2020) "BTC" toTs)) es.
Proof.
  eexists; eexists.
  eapply (ohlcv_pages_requests 2
            (convert_data_req_params utc_unix_tmsp a_now a_utcnow from_2020)
            "BTC" three_pages 1578009600 0 [] []).
  vm_compute; reflexivity.
Defined.

Lemma ohlcv_pages_gathers_witness :
  exists out rest used,
    three_pages = used ++ rest /\ out = [] ++ flat_map page_of used.
Proof.
  eexists; eexists.
  eapply (ohlcv_pages_gathers 2
            (convert_data_req_params utc_unix_tmsp a_now a_utcnow from_2020)
            "BTC" three_pages 1578009600 0 [] []).
  vm_compute; reflexivity.
Defined.

Lemma fetch_ohlcv_labels_witness :
  exists out w',
    fetch_ohlcv utc_unix_tmsp utc_timestamp insertion_sort a_now a_utcnow 2000 two_symbols
      two_price_pages = Some (Ok out, w')
    /\ Forall (fun k =>
                 if (1 <? List.length (tickers two_symbols))%nat
                 then exists t, In t (tickers two_symbols) /\ snd k = Some (upper t)
                 else snd k = None)
              (index out).
Proof.
  eexists; eexists; split; [vm_compute; reflexivity|].
  eapply (fetch_ohlcv_labels utc_unix_tmsp utc_timestamp insertion_sort a_now a_utcnow 2000
            two_symbols two_price_pages).
  vm_compute; reflexivity.
Defined.

(** Two symbols over 2020-01-01 to 2020-01-03, prices and an on-chain
    metric, the pages of both kinds reaching over the ends of the window. *)
Lemma fetch_data_window_witness :
  exists out w',
    fetch_data utc_unix_tmsp utc_timestamp insertion_sort a_now a_utcnow 2000
      mixed_pair_2020 mixed_pair_pages = Some (Ok out, w')
    /\ Forall (fun t => date_within utc_timestamp mixed_pair_2020 t = true) (dates out).
Proof.
  eexists; eexists; split; [vm_compute; reflexivity|].
  eapply (fetch_data_window utc_unix_tmsp utc_timestamp insertion_sort a_now a_utcnow 2000
            mixed_pair_2020 mixed_pair_pages).
  vm_compute; reflexivity.
Defined.

(** The run of that witness: the rows of 2019-12-30, 2019-12-31 and
    2020-01-04 are gone, the on-chain rows of 2020-01-02 are merged. *)
Example fetch_data_window_run :
  match fetch_data utc_unix_tmsp utc_timestamp insertion_sort a_now a_utcnow 2000
          mixed_pair_2020 mixed_pair_pages with
  | Some (Ok out, _) =>
      rows out
      = [((1577836800000000000, Some "BTC"), [Num (7300 # 1); NaN]);
         ((1577836800000000000, Some "ETH"), [Num (7300 # 1); NaN]);
         ((1577923200000000000, Some "BTC"), [Num (7000 # 1); Num (500000 # 1)]);
         ((1577923200000000000, Some "ETH"), [Num (7000 # 1); Num (500000 # 1)]);
         ((1578009600000000000, Some "BTC"), [Num (7350 # 1); NaN]);
         ((1578009600000000000, Some "ETH"), [Num (7350 # 1); NaN])]
  | _ => False
  end.
Proof. vm_compute; reflexivity. Qed.

Lemma fetch_data_sorted_by_date_witness :
  exists out w',
    fetch_data utc_unix_tmsp utc_timestamp insertion_sort a_now a_utcnow 2000 two_symbols
      two_price_pages = Some (Ok out, w')
    /\ StronglySorted Z.le (dates out).
Proof.
  eexists; eexists; split; [vm_compute; reflexivity|].
  eapply (fetch_data_sorted_by_date utc_unix_tmsp utc_timestamp insertion_sort a_now a_utcnow
            2000 two_symbols two_price_pages).
  vm_compute; reflexivity.
Defined.

Lemma fetch_data_columns_witness :
  exists out w',
    fetch_data utc_unix_tmsp utc_timestamp insertion_sort a_now a_utcnow 2000 two_symbols
      two_price_pages = Some (Ok out, w')
    /\ columns out = fields two_symbols.
Proof.
  pose proof (fetch_data_columns utc_unix_tmsp utc_timestamp insertion_sort a_now a_utcnow 2000
                two_symbols two_price_pages) as H.
  eexists; eexists; split; [vm_compute; reflexivity|].
  edestruct H as [_ [_ H3]]; [vm_compute; reflexivity|].
  eapply H3; vm_compute; reflexivity.
Defined.

Lemma fetch_ohlcv_without_trials_witness :
  fetch_ohlcv utc_unix_tmsp utc_timestamp insertion_sort a_now a_utcnow 2000 (a_request (Some 0))
    one_price_page
  = Some (Ok DataFrame, one_price_page).
Proof.
  apply (fetch_ohlcv_without_trials utc_unix_tmsp utc_timestamp insertion_sort a_now a_utcnow
           2000 (a_request (Some 0)) 0 one_price_page eq_refl (Z.le_refl 0)).
Defined.

Lemma fetch_ohlcv_trials_None_witness :
  fetch_ohlcv utc_unix_tmsp utc_timestamp insertion_sort a_now a_utcnow 2000 (a_request None)
    one_price_page
  = Some (Raise TypeError, one_price_page).
Proof.
  apply (fetch_ohlcv_trials_None utc_unix_tmsp utc_timestamp insertion_sort a_now a_utcnow
           2000 (a_request None) one_price_page eq_refl); discriminate.
Defined.

Lemma get_fields_returns_witness :
  exists w1 status message members,
    catalog one_price_page
    = Answer (Some status) message (Some (JObj members)) :: catalog w1
    /\ ohlcv_fields ++ ["active_addresses"; "hashrate"]
       = ohlcv_fields ++ skipn 4 (map fst members)
    /\ histo w1 = histo one_price_page
    /\ blockchain_histo w1 = blockchain_histo one_price_page
    /\ log w1
       = log one_price_page
         ++ Get (Catalog "blockchain/latest?fsym=BTC")
            :: if String.eqb status "Success" then []
               else [Warning (FailedToGet "on-chain data info")].
Proof.
  eexists.
  eapply (get_fields_returns one_price_page).
  vm_compute; reflexivity.
Defined.

Lemma get_markets_returns_witness :
  exists mk w1 status message members pairs,
    [pairs_listing]
    = Answer (Some status) message (Some (JObj members)) :: catalog w1
    /\ assoc "pairs" members = Some (JObj pairs)
    /\ Forall2 (fun p e => fst e = fst p /\ subscript (snd p) "tsyms" = Ok (snd e))
               pairs mk.
Proof.
  eexists; eexists.
  eapply (get_markets_returns
            {| catalog := [pairs_listing]; histo := []; blockchain_histo := [];
               log := [] |}).
  vm_compute; reflexivity.
Defined.

Lemma construction_requests_witness :
  exists c w' es,
    log w' = log full_catalog ++ es
    /\ filter is_get es
       = [Get (Catalog "all/coinlist"); Get (Catalog "index/list");
          Get (Catalog "v2/cccagg/pairs");
          Get (Catalog "blockchain/latest?fsym=BTC");
          Get (Catalog "exchanges/general"); Get (Catalog "stats/rate/limit")]
    /\ List.length (catalog full_catalog) = (6 + List.length (catalog w'))%nat
    /\ firstn 5 (_fields c) = ohlcv_fields.
Proof.
  eexists; eexists.
  eapply (construction_requests "key" full_catalog).
  vm_compute; reflexivity.
Defined.

Lemma init_validates_witness :
  exists o,
    Setters.__init__ (fun _ => true) ["UTC"]
      (Setters.PyStr "btc") (Setters.PyStr "d") Setters.PyNone Setters.PyNone
      (Setters.PyStr "2020-01-01") Setters.PyNone (Setters.PyStr "close")
      (Setters.PyStr "UTC") (Setters.PyStr "crypto") (Setters.PyInt 3)
      (Setters.PyFloat (Num (1 # 10))) Setters.PyNone Setters.PyNone
      Setters.PyNone
    = Ok o
    /\ validated (fun _ => true) ["UTC"] o = true.
Proof.
  eexists; split; [vm_compute; reflexivity|].
  eapply (init_validates (fun _ => true) ["UTC"]
            (Setters.PyStr "btc") (Setters.PyStr "d") Setters.PyNone Setters.PyNone
            (Setters.PyStr "2020-01-01") Setters.PyNone (Setters.PyStr "close")
            (Setters.PyStr "UTC") (Setters.PyStr "crypto") (Setters.PyInt 3)
            (Setters.PyFloat (Num (1 # 10))) Setters.PyNone Setters.PyNone
            Setters.PyNone).
  vm_compute; reflexivity.
Defined.

Lemma init_round_trip_witness :
  exists o,
    Setters.__init__ (fun _ => true) ["UTC"]
      (Setters.PyStr "btc") (Setters.PyStr "d") Setters.PyNone Setters.PyNone
      (Setters.PyStr "2020-01-01") Setters.PyNone (Setters.PyStr "close")
      (Setters.PyStr "UTC") (Setters.PyStr "crypto") (Setters.PyInt 3)
      (Setters.PyFloat (Num (1 # 10))) Setters.PyNone Setters.PyNone
      Setters.PyNone
    = Ok o
    /\ Setters.__init__ (fun _ => true) ["UTC"]
         (Setters._tickers o) (Setters._frequency o) (Setters._quote_ccy o)
         (Setters._exch o) (Setters._start_date o) (Setters._end_date o)
         (Setters._fields o) (Setters._timezone o) (Setters._category o)
         (Setters._trials o) (Setters._pause o) (Setters._source_tickers o)
         (Setters._source_freq o) (Setters._source_fields o)
       = Ok o.
Proof.
  eexists; split; [vm_compute; reflexivity|].
  eapply (init_round_trip (fun _ => true) ["UTC"]
            (Setters.PyStr "btc") (Setters.PyStr "d") Setters.PyNone Setters.PyNone
            (Setters.PyStr "2020-01-01") Setters.PyNone (Setters.PyStr "close")
            (Setters.PyStr "UTC") (Setters.PyStr "crypto") (Setters.PyInt 3)
            (Setters.PyFloat (Num (1 # 10))) Setters.PyNone Setters.PyNone
            Setters.PyNone).
  vm_compute; reflexivity.
Defined.

(** ** The on-chain loop *)

Section OnchainEngine.
Variable max_obs_per_call : Z.



End OnchainEngine.

